(** * Fitness tracker (homework.py): a shallow embedding and its properties

    The program computes distance, mean speed and spent calories of three
    kinds of workout and renders a one-line report.  Python's numbers are
    modelled as they are: [int] is an unbounded integer ([Z]), [float] is an
    IEEE 754 binary64 number (the kernel's primitive floats, specified by
    [SpecFloat]), and the arithmetic operators coerce and raise as CPython's
    do.  Exceptions are values of an error monad. *)

From Stdlib Require Import ZArith Lia Bool List Ascii String Zpower.
From Stdlib Require Import Floats DecimalString DecimalPos.
From stdpp Require Import base option strings gmap.

Local Open Scope Z_scope.
Set Warnings "-inexact-float".

(** ** Exceptions and the error monad *)

Inductive exn : Type :=
  | ZeroDivisionError
  | OverflowError
  | TypeError
  | KeyError (key : string)
  | AttributeError (name : string)
  | ValueError (msg : string)
  | NotImplementedError.

Inductive result (A : Type) : Type :=
  | Return (a : A)
  | Raise (e : exn).
Arguments Return {A} a.
Arguments Raise {A} e.

Definition bind {A B : Type} (r : result A) (k : A -> result B) : result B :=
  match r with
  | Return a => k a
  | Raise e => Raise e
  end.

Notation "'let*' x ':=' r 'in' k" := (bind r (fun x => k))
  (at level 10, x name, r at level 100, k at level 200).

Definition returns {A : Type} (r : result A) : Prop := exists a, r = Return a.
Definition raises {A : Type} (r : result A) (e : exn) : Prop := r = Raise e.

(** ** Python numbers *)

Inductive num : Type :=
  | PyInt (z : Z)
  | PyFloat (f : float).

Module Py.

(** [float(z)]: the nearest binary64 number, ties to even; a value that
    rounds past the largest finite float raises [OverflowError]. *)
Definition float_of_int (z : Z) : result float :=
  match binary_normalize prec emax z 0 false with
  | S754_infinity _ => Raise OverflowError
  | sf => Return (SF2Prim sf)
  end.

Definition to_float (x : num) : result float :=
  match x with
  | PyInt z => float_of_int z
  | PyFloat f => Return f
  end.

(** [a / b] on two ints: the exact quotient, correctly rounded; the sign
    of a zero result is the sign of the quotient. *)
Definition int_true_divide (a b : Z) : result float :=
  if b =? 0 then Raise ZeroDivisionError
  else
    let s := xorb (a <? 0) (b <? 0) in
    match Z.abs a, Z.abs b with
    | Zpos ma, Zpos mb =>
        match SFdiv prec emax (S754_finite (a <? 0) ma 0) (S754_finite (b <? 0) mb 0) with
        | S754_infinity _ => Raise OverflowError
        | sf => Return (SF2Prim sf)
        end
    | _, _ => Return (SF2Prim (S754_zero s))
    end.

Definition add (x y : num) : result num :=
  match x, y with
  | PyInt a, PyInt b => Return (PyInt (a + b))
  | _, _ =>
      let* a := to_float x in let* b := to_float y in Return (PyFloat (a + b)%float)
  end.

Definition mul (x y : num) : result num :=
  match x, y with
  | PyInt a, PyInt b => Return (PyInt (a * b))
  | _, _ =>
      let* a := to_float x in let* b := to_float y in Return (PyFloat (a * b)%float)
  end.

Definition truediv (x y : num) : result num :=
  match x, y with
  | PyInt a, PyInt b => let* q := int_true_divide a b in Return (PyFloat q)
  | _, _ =>
      let* a := to_float x in let* b := to_float y in
      if (b =? 0)%float then Raise ZeroDivisionError
      else Return (PyFloat (a / b)%float)
  end.

(** [x ** 2].  On ints the square is exact.  On floats CPython calls the
    C library's [pow], taken here as correctly rounded; a finite base whose
    square overflows raises [OverflowError]. *)
Definition pow2 (x : num) : result num :=
  match x with
  | PyInt a => Return (PyInt (a * a))
  | PyFloat f =>
      if is_nan f then Return (PyFloat nan)
      else if is_infinity f then Return (PyFloat infinity)
      else
        let r := (f * f)%float in
        if is_infinity r then Raise OverflowError else Return (PyFloat r)
  end.

(** [x > 0], mixed comparison of an int or a float with the int [0]. *)
Definition gt0 (x : num) : bool :=
  match x with
  | PyInt z => 0 <? z
  | PyFloat f => (0 <? f)%float
  end.

(** [x == 0]. *)
Definition eq0 (x : num) : bool :=
  match x with
  | PyInt z => z =? 0
  | PyFloat f => (f =? 0)%float
  end.

End Py.

(** ** The workout classes

    An instance carries its class and the attributes its [__init__] sets.
    An argument annotated [int] is an integer; one annotated [float] holds an
    int or a float, as Python's numeric tower allows. *)

Inductive class : Type := Training | Running | SportsWalking | Swimming.

Definition __name__ (c : class) : string :=
  match c with
  | Training => "Training"
  | Running => "Running"
  | SportsWalking => "SportsWalking"
  | Swimming => "Swimming"
  end.

Inductive workout : Type :=
  | mkTraining (action : Z) (duration weight : num)
  | mkRunning (action : Z) (duration weight : num)
  | mkSportsWalking (action : Z) (duration weight : num) (height : Z)
  | mkSwimming (action : Z) (duration weight : num) (length_pool count_pool : Z).

Definition __class__ (self : workout) : class :=
  match self with
  | mkTraining _ _ _ => Training
  | mkRunning _ _ _ => Running
  | mkSportsWalking _ _ _ _ => SportsWalking
  | mkSwimming _ _ _ _ _ => Swimming
  end.

Definition action (self : workout) : Z :=
  match self with
  | mkTraining a _ _ | mkRunning a _ _ | mkSportsWalking a _ _ _
  | mkSwimming a _ _ _ _ => a
  end.

Definition duration (self : workout) : num :=
  match self with
  | mkTraining _ d _ | mkRunning _ d _ | mkSportsWalking _ d _ _
  | mkSwimming _ d _ _ _ => d
  end.

Definition weight (self : workout) : num :=
  match self with
  | mkTraining _ _ w | mkRunning _ _ w | mkSportsWalking _ _ w _
  | mkSwimming _ _ w _ _ => w
  end.

Definition height (self : workout) : result Z :=
  match self with
  | mkSportsWalking _ _ _ h => Return h
  | _ => Raise (AttributeError "height")
  end.

Definition length_pool (self : workout) : result Z :=
  match self with
  | mkSwimming _ _ _ l _ => Return l
  | _ => Raise (AttributeError "length_pool")
  end.

Definition count_pool (self : workout) : result Z :=
  match self with
  | mkSwimming _ _ _ _ c => Return c
  | _ => Raise (AttributeError "count_pool")
  end.

(** Class attributes, looked up through the instance: [Swimming] overrides
    [LEN_STEP], every other constant is inherited or the class's own. *)
Definition LEN_STEP (self : workout) : num :=
  match __class__ self with
  | Swimming => PyFloat 1.38
  | _ => PyFloat 0.65
  end.
Definition M_IN_KM : num := PyInt 1000.
Definition MINUTES_IN_HOUR : num := PyInt 60.

Module Training.

Definition get_distance (self : workout) : result num :=
  let* steps := Py.mul (PyInt (action self)) (LEN_STEP self) in
  Py.truediv steps M_IN_KM.

(** [self.get_distance()] is [Training.get_distance] in every class. *)
Definition get_mean_speed (self : workout) : result num :=
  let* distance := get_distance self in
  Py.truediv distance (duration self).

Definition get_spent_calories (self : workout) : result num :=
  Raise NotImplementedError.

End Training.

Module Swimming.

Definition OFFSET_SPEED : num := PyFloat 1.1.
Definition SPEED_MULTIPLAYER : num := PyInt 2.

Definition get_mean_speed (self : workout) : result num :=
  let* l := length_pool self in
  let* c := count_pool self in
  let* distance := Py.mul (PyInt l) (PyInt c) in
  let* km := Py.truediv distance M_IN_KM in
  Py.truediv km (duration self).

Definition get_spent_calories (self : workout) : result num :=
  let* sw := Py.mul SPEED_MULTIPLAYER (weight self) in
  let* multiplayer := Py.mul sw (duration self) in
  let* speed := get_mean_speed self in
  let* shifted := Py.add speed OFFSET_SPEED in
  Py.mul shifted multiplayer.

End Swimming.

(** Method resolution: [Swimming] overrides [get_mean_speed]. *)
Definition get_distance (self : workout) : result num :=
  Training.get_distance self.

Definition get_mean_speed (self : workout) : result num :=
  match __class__ self with
  | Swimming => Swimming.get_mean_speed self
  | _ => Training.get_mean_speed self
  end.

Module Running.

Definition CALORIES_MEAN_SPEED_MULTIPLIER : num := PyInt 18.
Definition CALORIES_MEAN_SPEED_SHIFT : num := PyFloat 1.79.

Definition get_spent_calories (self : workout) : result num :=
  let* minutes := Py.mul (duration self) MINUTES_IN_HOUR in
  let* speed := get_mean_speed self in
  let* scaled := Py.mul CALORIES_MEAN_SPEED_MULTIPLIER speed in
  let* shifted := Py.add scaled CALORIES_MEAN_SPEED_SHIFT in
  let* by_weight := Py.mul shifted (weight self) in
  let* per_minute := Py.truediv by_weight M_IN_KM in
  Py.mul per_minute minutes.

End Running.

Module SportsWalking.

Definition WEIGHT_MULTIPLAYER : num := PyFloat 0.035.
Definition CALORIES_MULTIPLAYER : num := PyFloat 0.029.
Definition KM_H_IN_M_S : num := PyFloat 0.278.
Definition SM_IN_M : num := PyInt 100.

Definition get_spent_calories (self : workout) : result num :=
  let* speed := get_mean_speed self in
  let* avg_speed := Py.mul speed KM_H_IN_M_S in
  let* h := height self in
  let* height_in_m := Py.truediv (PyInt h) SM_IN_M in
  let* by_weight := Py.mul WEIGHT_MULTIPLAYER (weight self) in
  let* squared := Py.pow2 avg_speed in
  let* ratio := Py.truediv squared height_in_m in
  let* scaled := Py.mul ratio CALORIES_MULTIPLAYER in
  let* by_speed := Py.mul scaled (weight self) in
  let* per_minute := Py.add by_weight by_speed in
  let* per_hour := Py.mul per_minute (duration self) in
  Py.mul per_hour MINUTES_IN_HOUR.

End SportsWalking.

Definition get_spent_calories (self : workout) : result num :=
  match __class__ self with
  | Training => Training.get_spent_calories self
  | Running => Running.get_spent_calories self
  | SportsWalking => SportsWalking.get_spent_calories self
  | Swimming => Swimming.get_spent_calories self
  end.

(** ** The report: [InfoMessage] and [str.format] *)

Inductive pyval : Type :=
  | VStr (s : string)
  | VNum (n : num).

Module Format.

(** Rounding of [m * 2^e * 10^3] to an integer, ties to even: the decimal
    conversion behind the presentation type [f] with precision 3. *)
Definition round_half_even (n d : Z) : Z :=
  let q := n / d in
  let r := n mod d in
  match 2 * r ?= d with
  | Lt => q
  | Gt => q + 1
  | Eq => if Z.even q then q else q + 1
  end.

Definition thousandths (m : positive) (e : Z) : Z :=
  match e with
  | Zneg p => round_half_even (Zpos m * 1000) (2 ^ Zpos p)
  | _ => Zpos m * 2 ^ e * 1000
  end.

Definition digit (d : Z) : ascii := ascii_of_nat (48 + Z.to_nat d).

Definition decimal (n : Z) : string :=
  DecimalString.NilEmpty.string_of_uint (N.to_uint (Z.to_N n)).

Definition fixed3 (n : Z) : string :=
  let frac := n mod 1000 in
  decimal (n / 1000) ++ "."
    ++ String (digit (frac / 100))
        (String (digit (frac / 10 mod 10)) (String (digit (frac mod 10)) "")).

Definition sign (s : bool) : string := if s then "-" else "".

(** [format(x, '0.3f')] for a float [x]: the leading [0] of the
    specification asks for zero padding up to a width that is absent, so
    nothing is padded. *)
Definition float_f3 (x : float) : string :=
  match Prim2SF x with
  | S754_nan => "nan"
  | S754_infinity s => sign s ++ "inf"
  | S754_zero s => sign s ++ "0.000"
  | S754_finite s m e => sign s ++ fixed3 (thousandths m e)
  end.

(** One replacement field.  The specifications that occur in the program
    are the empty one on a string and [0.3f] on a number (an int is
    converted to a float first).  Every other combination is reported as a
    [ValueError], as Python does for [f] on a string; the remaining
    specifications of Python are not modelled. *)
Definition format_value (v : pyval) (spec : string) : result string :=
  match v with
  | VStr s =>
      if String.eqb spec "" then Return s
      else Raise (ValueError "Unknown format code for object of type 'str'")
  | VNum n =>
      if String.eqb spec "0.3f" then
        let* x := Py.to_float n in Return (float_f3 x)
      else Raise (ValueError "Unsupported format specification")
  end.

Inductive state : Type :=
  | InText (lit : string)
  | InName (name : string)
  | InSpec (name spec : string).

Definition snoc (s : string) (c : ascii) : string := s ++ String c "".

(** The scanner of [str.format]: literal text, [{{] and [}}] escapes, and
    replacement fields [{name}] and [{name:spec}], rendered left to right.
    [out] holds the pieces produced so far, last first. *)
Fixpoint scan (render : string -> string -> result string)
    (out : list string) (st : state) (s : string) : result string :=
  match s with
  | EmptyString =>
      match st with
      | InText lit => Return (String.concat "" (rev (lit :: out)))
      | _ => Raise (ValueError "expected '}' before end of string")
      end
  | String c s' =>
      match st with
      | InText lit =>
          if Ascii.eqb c "{" then
            match s' with
            | String "{" s'' => scan render out (InText (snoc lit "{")) s''
            | _ => scan render (lit :: out) (InName "") s'
            end
          else if Ascii.eqb c "}" then
            match s' with
            | String "}" s'' => scan render out (InText (snoc lit "}")) s''
            | _ => Raise (ValueError "Single '}' encountered in format string")
            end
          else scan render out (InText (snoc lit c)) s'
      | InName name =>
          if Ascii.eqb c "}" then
            let* piece := render name "" in
            scan render (piece :: out) (InText "") s'
          else if Ascii.eqb c ":" then scan render out (InSpec name "") s'
          else scan render out (InName (snoc name c)) s'
      | InSpec name spec =>
          if Ascii.eqb c "}" then
            let* piece := render name spec in
            scan render (piece :: out) (InText "") s'
          else scan render out (InSpec name (snoc spec c)) s'
      end
  end.

(** [str.format] with the keyword arguments [kwargs]. *)
Definition format (template : string) (kwargs : gmap string pyval) : result string :=
  scan (fun name spec =>
          match kwargs !! name with
          | Some v => format_value v spec
          | None => Raise (KeyError name)
          end)
       [] (InText "") template.

End Format.

Module InfoMessage.

Record t : Type := Build {
  training_type : string;
  duration : num;
  distance : num;
  speed : num;
  calories : num
}.

Definition MESSAGE : string :=
  "Тип тренировки: {training_type}; " ++
  "Длительность: {duration:0.3f} ч.; " ++
  "Дистанция: {distance:0.3f} км; " ++
  "Ср. скорость: {speed:0.3f} км/ч; " ++
  "Потрачено ккал: {calories:0.3f}.".

Definition asdict (self : t) : gmap string pyval :=
  {[ "training_type" := VStr (training_type self);
     "duration" := VNum (duration self);
     "distance" := VNum (distance self);
     "speed" := VNum (speed self);
     "calories" := VNum (calories self) ]}.

Definition get_message (self : t) : result string :=
  Format.format MESSAGE (asdict self).

End InfoMessage.

(** [Training.show_training_info]: the arguments are evaluated left to
    right, and the first exception leaves the method. *)
Definition show_training_info (self : workout) : result InfoMessage.t :=
  let* distance := get_distance self in
  let* speed := get_mean_speed self in
  let* calories := get_spent_calories self in
  Return (InfoMessage.Build (__name__ (__class__ self)) (duration self)
            distance speed calories).

(** ** The dispatcher *)

(** Calling a class with the positional arguments [*data]: a wrong number of
    arguments is a [TypeError]. *)
Definition __init__ (c : class) (data : list Z) : result workout :=
  match c, data with
  | Training, [a; d; w] => Return (mkTraining a (PyInt d) (PyInt w))
  | Running, [a; d; w] => Return (mkRunning a (PyInt d) (PyInt w))
  | SportsWalking, [a; d; w; h] => Return (mkSportsWalking a (PyInt d) (PyInt w) h)
  | Swimming, [a; d; w; l; n] => Return (mkSwimming a (PyInt d) (PyInt w) l n)
  | _, _ => Raise TypeError
  end.

Definition training_types : gmap string class :=
  {[ "SWM" := Swimming; "RUN" := Running; "WLK" := SportsWalking ]}.

Definition read_package (workout_type : string) (data : list Z) : result workout :=
  match training_types !! workout_type with
  | Some training_type => __init__ training_type data
  | None => Raise (ValueError "Неизвестный тип ренировки")
  end.

(** [main] prints one line; the line is the value here. *)
Definition main (training : workout) : result string :=
  let* info := show_training_info training in
  InfoMessage.get_message info.

(** The script: each package is read and reported in turn, and the first
    exception ends the run, after the lines printed so far. *)
Definition packages : list (string * list Z) :=
  [ ("SWM", [720; 1; 80; 25; 40]);
    ("RUN", [15000; 1; 75]);
    ("WLK", [9000; 1; 75; 180]) ].

Fixpoint run (stdout : list string) (ps : list (string * list Z))
    : list string * option exn :=
  match ps with
  | [] => (stdout, None)
  | (workout_type, data) :: rest =>
      match (let* training := read_package workout_type data in main training) with
      | Return line => run (stdout ++ [line]) rest
      | Raise e => (stdout, Some e)
      end
  end.

(** ** The power operator through the C library

    On floats [x ** 2] is CPython's [float_pow].  It answers the special
    cases itself: a NaN, an infinity, a zero base (the result is 0.0) and a
    base of absolute value 1 (the result is 1.0).  Every other base goes,
    as its absolute value, to the C library's [pow], whose result is not
    specified to the last bit and differs between libraries; an infinite
    result raises [OverflowError].  [pow] is an argument here, so that what
    is proved holds for every library.  [Py.pow2] is the instance at a
    correctly rounded [pow]; it is used where only the sign, the finiteness
    or the exception of a square matter. *)
Module Libm.

Definition pow2 (pow : float -> float -> float) (x : num) : result num :=
  match x with
  | PyInt a => Return (PyInt (a * a))
  | PyFloat f =>
      if is_nan f then Return (PyFloat nan)
      else if is_infinity f then Return (PyFloat infinity)
      else if (f =? 0)%float then Return (PyFloat 0)
      else
        let a := abs f in
        if (a =? 1)%float then Return (PyFloat 1)
        else
          let r := pow a 2%float in
          if is_infinity r then Raise OverflowError else Return (PyFloat r)
  end.

(** A correctly rounded [pow], at the exponent 2. *)
Definition rounded_square (x y : float) : float := (x * x)%float.

Module SportsWalking.

(** [SportsWalking.get_spent_calories], with [**] through [pow]. *)
Definition get_spent_calories (pow : float -> float -> float) (self : workout)
    : result num :=
  let* speed := get_mean_speed self in
  let* avg_speed := Py.mul speed SportsWalking.KM_H_IN_M_S in
  let* h := height self in
  let* height_in_m := Py.truediv (PyInt h) SportsWalking.SM_IN_M in
  let* by_weight := Py.mul SportsWalking.WEIGHT_MULTIPLAYER (weight self) in
  let* squared := pow2 pow avg_speed in
  let* ratio := Py.truediv squared height_in_m in
  let* scaled := Py.mul ratio SportsWalking.CALORIES_MULTIPLAYER in
  let* by_speed := Py.mul scaled (weight self) in
  let* per_minute := Py.add by_weight by_speed in
  let* per_hour := Py.mul per_minute (duration self) in
  Py.mul per_hour MINUTES_IN_HOUR.

End SportsWalking.

(** The square in a formula. *)
Definition square (pow : float -> float -> float) (x : result num) : result num :=
  let* a := x in pow2 pow a.

End Libm.

(** ** The formulas of the specification

    The specification gives each quantity as an arithmetic expression.  An
    expression is read with Python's precedence and evaluation order: both
    operands left to right, then the operator, every operator left
    associative. *)

Definition lift2 (op : num -> num -> result num) (x y : result num) : result num :=
  let* a := x in let* b := y in op a b.

Definition of_num (n : num) : result num := Return n.
Coercion of_num : num >-> result.

Declare Scope py_scope.
Delimit Scope py_scope with py.
Notation "x + y" := (lift2 Py.add x y) : py_scope.
Notation "x * y" := (lift2 Py.mul x y) : py_scope.
Notation "x / y" := (lift2 Py.truediv x y) : py_scope.

Module Spec.

(** [distance_km = action_count * step_length_km / 1000] *)
Definition distance_km (action_count : Z) (step_length : num) : result num :=
  (PyInt action_count * step_length / PyInt 1000)%py.

(** [mean_speed_kmh = distance_km / duration_hours] *)
Definition mean_speed_kmh (distance : result num) (duration_hours : num) : result num :=
  (distance / duration_hours)%py.

(** Running:
    [calories = (18 * mean_speed_kmh + 1.79) * weight_kg / 1000 * (duration_hours * 60)] *)
Definition running_calories (mean_speed : result num) (weight_kg duration_hours : num)
    : result num :=
  ((PyInt 18 * mean_speed + PyFloat 1.79) * weight_kg / PyInt 1000
     * (duration_hours * PyInt 60))%py.

(** Walking:
    [calories = (0.035*weight_kg + (speed_ms^2 / height_m) * 0.029*weight_kg)
                * (duration_hours*60)] with [speed_ms = mean_speed_kmh * 0.278]
    and [height_m = height_cm / 100]; the square is Python's [** 2], through
    [pow]. *)
Definition walking_calories (pow : float -> float -> float) (mean_speed : result num)
    (weight_kg duration_hours : num) (height_cm : Z) : result num :=
  ((PyFloat 0.035 * weight_kg
      + (Libm.square pow (mean_speed * PyFloat 0.278) / (PyInt height_cm / PyInt 100))
        * PyFloat 0.029 * weight_kg)
     * (duration_hours * PyInt 60))%py.

(** Swimming:
    [mean_speed_kmh = (pool_length_m * pool_laps) / 1000 / duration_hours] *)
Definition swimming_mean_speed (pool_length_m pool_laps : Z) (duration_hours : num)
    : result num :=
  ((PyInt pool_length_m * PyInt pool_laps) / PyInt 1000 / duration_hours)%py.

(** [calories = (mean_speed_kmh + 1.1) * 2 * weight_kg * duration_hours] *)
Definition swimming_calories (mean_speed : result num) (weight_kg duration_hours : num)
    : result num :=
  ((mean_speed + PyFloat 1.1) * PyInt 2 * weight_kg * duration_hours)%py.

End Spec.

(** Two results agree when both return the same value or both raise; which
    exception is raised first depends on the order of evaluation and is
    left out of the comparison. *)
Definition agree {A : Type} (r1 r2 : result A) : Prop :=
  match r1, r2 with
  | Return a, Return b => a = b
  | Raise _, Raise _ => True
  | _, _ => False
  end.

(** The formulas as the code groups them. *)
Module Amended.

(** Walking: the sum is multiplied by the duration and then by 60; the
    square is Python's [** 2], through [pow]. *)
Definition walking_calories (pow : float -> float -> float) (mean_speed : result num)
    (weight_kg duration_hours : num) (height_cm : Z) : result num :=
  ((PyFloat 0.035 * weight_kg
      + (Libm.square pow (mean_speed * PyFloat 0.278) / (PyInt height_cm / PyInt 100))
        * PyFloat 0.029 * weight_kg)
     * duration_hours * PyInt 60)%py.

(** Swimming: the shifted speed is multiplied by the product
    [2 * weight_kg * duration_hours]. *)
Definition swimming_calories (mean_speed : result num) (weight_kg duration_hours : num)
    : result num :=
  ((mean_speed + PyFloat 1.1) * (PyInt 2 * weight_kg * duration_hours))%py.

End Amended.

(** [x] is [y] up to the tolerance [tol]. *)
Definition approx (tol x y : float) : bool := (abs (x - y) <=? tol)%float.

(** ** The shape of a rendered report *)

Module Shape.

Definition is_digit (c : ascii) : bool :=
  let n := nat_of_ascii c in ((48 <=? n) && (n <=? 57))%nat.

Fixpoint all_digits (s : string) : bool :=
  match s with
  | EmptyString => true
  | String c s' => is_digit c && all_digits s'
  end.

(** Digits, then a point, then exactly three digits. *)
Fixpoint digits_point_3 (s : string) : bool :=
  match s with
  | EmptyString => false
  | String c s' =>
      if Ascii.eqb c "." then (String.length s' =? 3)%nat && all_digits s'
      else is_digit c && digits_point_3 s'
  end.

Definition unsigned_3 (s : string) : bool :=
  match s with
  | String c _ => is_digit c && digits_point_3 s
  | EmptyString => false
  end.

(** An optional minus sign, at least one digit, the point [.], and exactly
    three digits after it. *)
Definition three_decimals (s : string) : bool :=
  match s with
  | String c r => if Ascii.eqb c "-" then unsigned_3 r else unsigned_3 s
  | EmptyString => false
  end.

(** The fixed template with its five fields filled in. *)
Definition report (kind duration distance speed calories : string) : string :=
  String.concat ""
    [ "Тип тренировки: "; kind;
      "; Длительность: "; duration;
      " ч.; Дистанция: "; distance;
      " км; Ср. скорость: "; speed;
      " км/ч; Потрачено ккал: "; calories; "." ].

(** What C6 says of a summary: the message is the template filled with the
    kind as it is and with the four numbers rendered by the specification
    [0.3f], and each rendered number has exactly three digits after the
    point. *)
Definition three_decimal_report (m : InfoMessage.t) : Prop :=
  exists duration distance speed calories : string,
    Format.format_value (VNum (InfoMessage.duration m)) "0.3f" = Return duration
    /\ Format.format_value (VNum (InfoMessage.distance m)) "0.3f" = Return distance
    /\ Format.format_value (VNum (InfoMessage.speed m)) "0.3f" = Return speed
    /\ Format.format_value (VNum (InfoMessage.calories m)) "0.3f" = Return calories
    /\ InfoMessage.get_message m
       = Return (report (InfoMessage.training_type m) duration distance speed calories)
    /\ three_decimals duration = true
    /\ three_decimals distance = true
    /\ three_decimals speed = true
    /\ three_decimals calories = true.

(** A number that is, or converts to, a finite float. *)
Definition finite_num (x : num) : Prop :=
  exists f : float, Py.to_float x = Return f /\ is_finite f = true.

End Shape.

(** The specification of a float number, to tell two floats apart. *)
Definition spec_of_num (x : num) : spec_float :=
  match x with
  | PyFloat f => Prim2SF f
  | PyInt _ => S754_nan
  end.

(** ** Binary64 rounding

    The exponent function and the least exponent of binary64, and the
    position in which [binary_round_aux] leaves a mantissa. *)

Abbreviation fexp := (SpecFloat.fexp prec emax).
Abbreviation emin := (SpecFloat.emin prec emax).

(** A mantissa and an exponent in canonical position: at most 53 bits, and
    either the least exponent or a full mantissa. *)
Definition canon (m e : Z) : Prop :=
  0 <= m < 2 ^ 53 /\ -1074 <= e /\ (e = -1074 \/ 2 ^ 52 <= m).

(** Signs and magnitudes of floats, read on their specification.  The
    magnitude of a mantissa [m] with exponent [e] is [digits m + e]: the
    float lies in [[2^(k-1), 2^k)] when its magnitude is [k]. *)
Module SF.

(** Positive, and of magnitude at least [k]; infinity counts. *)
Definition mag_ge (k : Z) (s : spec_float) : Prop :=
  s = S754_infinity false
  \/ exists m e, s = S754_finite false m e /\ k <= Zpos (digits2_pos m) + e.

(** Zero, positive or infinite, with the sign bit clear. *)
Definition nonneg (s : spec_float) : Prop :=
  s = S754_zero false \/ s = S754_infinity false
  \/ exists m e, s = S754_finite false m e.

Definition nonneg_or_nan (s : spec_float) : Prop := s = S754_nan \/ nonneg s.

End SF.

(** Far enough from zero that the calorie formulas do not underflow: a
    positive int, or a float of at least 2^-500. *)
Definition well_above_zero (x : num) : bool :=
  match x with
  | PyInt z => 0 <? z
  | PyFloat f => (0x1p-500 <=? f)%float
  end.


(** ** Outcomes

    What can leave a computation, and one turn of the script's loop. *)

(** Every exception that [r] raises satisfies [P]. *)
Definition raises_only {A : Type} (P : exn -> Prop) (r : result A) : Prop :=
  forall e, r = Raise e -> P e.

(** The two exceptions of Python's arithmetic on ints and floats. *)
Definition arithmetic_error (e : exn) : Prop :=
  e = ZeroDivisionError \/ e = OverflowError.

Definition overflow_error (e : exn) : Prop := e = OverflowError.

(** The body of the script's loop: [read_package], then [main]. *)
Definition iteration (p : string * list Z) : result string :=
  let* training := read_package (fst p) (snd p) in main training.

(** ** Ranges

    A float that is positive and finite, with its magnitude between [lo]
    and [hi]: it lies in [[2^(lo-1), 2^hi)]. *)
Definition mag_in (lo hi : Z) (s : spec_float) : Prop :=
  exists m e, s = S754_finite false m e /\ lo <= Zpos (digits2_pos m) + e <= hi.

(** The range of a sensor reading: a positive int below 2^64. *)
Definition reading (z : Z) : Prop := 0 < z < 2 ^ 64.

(** A package of readings: one of the three tags with its number of
    fields, each field a reading. *)
Definition well_formed (p : string * list Z) : Prop :=
  ((fst p = "SWM" /\ length (snd p) = 5%nat)
   \/ (fst p = "RUN" /\ length (snd p) = 3%nat)
   \/ (fst p = "WLK" /\ length (snd p) = 4%nat))
  /\ Forall reading (snd p).
(** * Properties *)

(** ** The reference run *)

(** The script prints the three reports of its packages. *)
Example reference_run :
  run [] packages
  = ([ ("Тип тренировки: Swimming; Длительность: 1.000 ч.; Дистанция: 0.994 км; "
        ++ "Ср. скорость: 1.000 км/ч; Потрачено ккал: 336.000.")%string;
       ("Тип тренировки: Running; Длительность: 1.000 ч.; Дистанция: 9.750 км; "
        ++ "Ср. скорость: 9.750 км/ч; Потрачено ккал: 797.805.")%string;
       ("Тип тренировки: SportsWalking; Длительность: 1.000 ч.; Дистанция: 5.850 км; "
        ++ "Ср. скорость: 5.850 км/ч; Потрачено ккал: 349.252.")%string ],
     None).
Proof. vm_compute. reflexivity. Qed.

(** ** Evaluation of expressions in the error monad *)

Lemma Return_inj {A : Type} (a b : A) : Return a = Return b -> a = b.
Proof. intros H. injection H as H. exact H. Qed.

(** Case analysis on the first computation that is not yet a value. *)
Ltac next_result :=
  match goal with
  | |- context [bind ?r _] =>
      lazymatch r with
      | Return _ => fail
      | Raise _ => fail
      | bind _ _ => fail
      | _ => destruct r
      end
  end.

Ltac run_binds :=
  unfold lift2, of_num; cbn [bind];
  repeat (next_result; cbn [bind]);
  try reflexivity.

(** Multiplying a number by a small int constant never raises. *)
Lemma mul_int_const_returns (x : num) (k : Z) :
  Py.float_of_int k = Return (SF2Prim (binary_normalize prec emax k 0 false)) ->
  exists m, Py.mul x (PyInt k) = Return m.
Proof.
  intros Hk. destruct x as [z|f]; cbn.
  - eexists; reflexivity.
  - rewrite Hk. cbn. eexists; reflexivity.
Qed.

Lemma minutes_returns (d : num) : exists m, Py.mul d MINUTES_IN_HOUR = Return m.
Proof. apply mul_int_const_returns. reflexivity. Qed.

(** ** The base contract *)

(** C1: for every action count [n], duration [d] and weight [w],
    [get_distance] returns [n * step_length / 1000] with step length 0.65
    for Running and Walking and 1.38 for Swimming, and for Running and
    Walking [get_mean_speed] returns [get_distance() / d]. *)
Theorem base_contract (n : Z) (d w : num) (h l c : Z) :
  get_distance (mkRunning n d w) = Spec.distance_km n (PyFloat 0.65)
  /\ get_distance (mkSportsWalking n d w h) = Spec.distance_km n (PyFloat 0.65)
  /\ get_distance (mkSwimming n d w l c) = Spec.distance_km n (PyFloat 1.38)
  /\ get_mean_speed (mkRunning n d w)
     = Spec.mean_speed_kmh (get_distance (mkRunning n d w)) d
  /\ get_mean_speed (mkSportsWalking n d w h)
     = Spec.mean_speed_kmh (get_distance (mkSportsWalking n d w h)) d.
Proof.
  repeat split; reflexivity.
Qed.

(** C2: for every Running workout, [get_spent_calories] returns
    [(18 * mean_speed + 1.79) * w / 1000 * (d * 60)], where [mean_speed] is
    the base mean speed, distance over duration. *)
Theorem running_calories_formula (n : Z) (d w : num) :
  get_spent_calories (mkRunning n d w)
  = Spec.running_calories
      (Spec.mean_speed_kmh (Spec.distance_km n (PyFloat 0.65)) d) w d.
Proof.
  unfold get_spent_calories, Spec.running_calories. cbn [__class__].
  unfold Running.get_spent_calories. cbn [duration weight].
  destruct (minutes_returns d) as [m Hm]. unfold MINUTES_IN_HOUR in Hm.
  change (get_mean_speed (mkRunning n d w))
    with (Spec.mean_speed_kmh (Spec.distance_km n (PyFloat 0.65)) d).
  unfold Running.CALORIES_MEAN_SPEED_MULTIPLIER, Running.CALORIES_MEAN_SPEED_SHIFT,
    M_IN_KM, MINUTES_IN_HOUR.
  unfold lift2, of_num. cbn [bind]. rewrite Hm.
  run_binds.
Qed.

Lemma agree_refl {A : Type} (r : result A) : agree r r.
Proof. destruct r; cbn; trivial. Qed.

Ltac settle_agree :=
  unfold lift2, of_num; cbn [bind agree];
  repeat (next_result; cbn [bind agree]);
  try (exact I); try reflexivity; try apply agree_refl.

Lemma PyFloat_neq (x y : float) : Prim2SF x <> Prim2SF y -> PyFloat x <> PyFloat y.
Proof. intros H E. apply H. exact (f_equal spec_of_num E). Qed.

(** ** Walking *)

(** The power operator on a base that goes to the C library's [pow]. *)
Lemma pow2_at (pow : float -> float -> float) (f r : float) :
  is_nan f = false -> is_infinity f = false -> (f =? 0)%float = false ->
  (abs f =? 1)%float = false -> pow (abs f) 2%float = r -> is_infinity r = false ->
  Libm.pow2 pow (PyFloat f) = Return (PyFloat r).
Proof.
  intros Hnan Hinf Hzero Hone Hpow Hfin. cbn [Libm.pow2].
  rewrite Hnan, Hinf, Hzero. cbv zeta. rewrite Hone, Hpow, Hfin. reflexivity.
Qed.

(** Evaluation of the next computation of a chain: the square by its
    equation [Hsq], any other one by computation. *)
Ltac eval_next Hsq :=
  match goal with
  | |- context [bind ?c _] =>
      lazymatch c with
      | Return _ => fail
      | Raise _ => fail
      | bind _ _ => fail
      | Libm.pow2 _ _ => rewrite Hsq
      | _ => let v := eval vm_compute in c in
             replace c with v by (vm_compute; reflexivity)
      end
  end; cbn [bind].

(** C3, as stated, fails.  For 9000 steps in 3 hours at 60 kg and 170 cm the
    walking speed is 0.5421 m/s; whichever of the three floats nearest its
    exact square the C library's [pow] returns, the code returns
    432.14166988941184 and the stated formula 432.1416698894118.  For no
    step at all, 5 hours, 3 kg and 170 cm the square is 0.0 without a call
    of [pow], the code returns 31.5 and the stated formula
    31.500000000000004. *)
Lemma walking_calories_grouping_differs :
  (forall pow : float -> float -> float,
      (pow 0x1.158e219652bd4p-1 2 = 0x1.2cece39896396p-2
       \/ pow 0x1.158e219652bd4p-1 2 = 0x1.2cece39896397p-2
       \/ pow 0x1.158e219652bd4p-1 2 = 0x1.2cece39896398p-2)%float ->
      Libm.SportsWalking.get_spent_calories pow
        (mkSportsWalking 9000 (PyInt 3) (PyInt 60) 170)
      = Return (PyFloat 432.14166988941184)
      /\ Spec.walking_calories pow
           (Spec.mean_speed_kmh (Spec.distance_km 9000 (PyFloat 0.65)) (PyInt 3))
           (PyInt 60) (PyInt 3) 170
         = Return (PyFloat 432.1416698894118))
  /\ PyFloat 432.14166988941184 <> PyFloat 432.1416698894118
  /\ (forall pow : float -> float -> float,
        Libm.SportsWalking.get_spent_calories pow
          (mkSportsWalking 0 (PyInt 5) (PyInt 3) 170)
        = Return (PyFloat 31.5)
        /\ Spec.walking_calories pow
             (Spec.mean_speed_kmh (Spec.distance_km 0 (PyFloat 0.65)) (PyInt 5))
             (PyInt 3) (PyInt 5) 170
           = Return (PyFloat 31.500000000000004))
  /\ PyFloat 31.5 <> PyFloat 31.500000000000004.
Proof.
  split.
  { intros pow H.
    assert (Hsq : exists r : float,
              Libm.pow2 pow (PyFloat 0x1.158e219652bd4p-1) = Return (PyFloat r)
              /\ (r = 0x1.2cece39896396p-2 \/ r = 0x1.2cece39896397p-2
                  \/ r = 0x1.2cece39896398p-2)%float).
    { exists (pow 0x1.158e219652bd4p-1 2)%float. split; [|exact H].
      apply pow2_at; try reflexivity.
      destruct H as [->|[->| ->]]; reflexivity. }
    destruct Hsq as (r & Hsq & Hr).
    split.
    - unfold Libm.SportsWalking.get_spent_calories. cbn [height weight duration].
      repeat eval_next Hsq.
      destruct Hr as [->|[->| ->]]; vm_compute; reflexivity.
    - unfold Spec.walking_calories, Libm.square, lift2, of_num. cbn [bind].
      repeat eval_next Hsq.
      destruct Hr as [->|[->| ->]]; vm_compute; reflexivity. }
  split; [apply PyFloat_neq; vm_compute; discriminate|].
  split; [intros pow; split; vm_compute; reflexivity|].
  apply PyFloat_neq. vm_compute. discriminate.
Qed.

(** C3, amended: for every Walking workout, and whatever the C library's
    [pow] returns, [get_spent_calories] returns
    [(0.035*w + ((mean_speed * 0.278)^2 / (h / 100)) * 0.029*w) * d * 60],
    the sum multiplied by the duration and then by 60, where [mean_speed] is
    the base mean speed and the square is taken by the same [**]. *)
Theorem walking_calories_formula (pow : float -> float -> float) (n : Z) (d w : num)
    (h : Z) :
  agree (Libm.SportsWalking.get_spent_calories pow (mkSportsWalking n d w h))
        (Amended.walking_calories pow
           (Spec.mean_speed_kmh (Spec.distance_km n (PyFloat 0.65)) d) w d h).
Proof.
  unfold Libm.SportsWalking.get_spent_calories, Amended.walking_calories,
    Libm.square.
  cbn [duration weight height].
  change (get_mean_speed (mkSportsWalking n d w h))
    with (Spec.mean_speed_kmh (Spec.distance_km n (PyFloat 0.65)) d).
  unfold SportsWalking.WEIGHT_MULTIPLAYER, SportsWalking.CALORIES_MULTIPLAYER,
    SportsWalking.KM_H_IN_M_S, SportsWalking.SM_IN_M, M_IN_KM, MINUTES_IN_HOUR.
  settle_agree.
Qed.

(** *** The correctly rounded instance

    At a correctly rounded [pow] the power operator is [Py.pow2], and the
    walking method is the one of the model. *)

Lemma abs_square (f : float) : (abs f * abs f)%float = (f * f)%float.
Proof.
  apply Prim2SF_inj. rewrite !mul_spec, abs_spec.
  destruct (Prim2SF f) as [s|s| |s m e]; try destruct s; reflexivity.
Qed.

Lemma eqb_zero (f : float) :
  (f =? 0)%float = true -> exists s, Prim2SF f = S754_zero s.
Proof.
  rewrite FloatAxioms.eqb_spec. change (Prim2SF 0) with (S754_zero false).
  unfold SFeqb.
  destruct (Prim2SF f) as [s|[]| |[] m e]; cbn [SFcompare]; try discriminate; eauto.
Qed.

Lemma eqb_one (f : float) : (f =? 1)%float = true -> f = 1%float.
Proof.
  intros H. apply Prim2SF_inj. rewrite FloatAxioms.eqb_spec in H.
  change (Prim2SF 1) with (S754_finite false 4503599627370496 (-52)) in *.
  unfold SFeqb in H.
  destruct (Prim2SF f) as [s|[]| |[] m e]; cbn [SFcompare] in H; try discriminate H.
  revert H. destruct (Z.compare_spec e (-52)) as [->|_|_]; try discriminate.
  destruct (Pos.compare_cont Eq m 4503599627370496) eqn:E; try discriminate.
  intros _. apply Pos.compare_eq in E. subst m. reflexivity.
Qed.

Lemma pow2_rounded (x : num) : Libm.pow2 Libm.rounded_square x = Py.pow2 x.
Proof.
  destruct x as [a|f]; [reflexivity|]. cbn [Libm.pow2 Py.pow2].
  destruct (is_nan f); [reflexivity|]. destruct (is_infinity f); [reflexivity|].
  destruct (f =? 0)%float eqn:E0.
  { destruct (eqb_zero f E0) as [s Hs].
    assert (Hsq : (f * f)%float = 0%float).
    { apply Prim2SF_inj. rewrite mul_spec, Hs. destruct s; reflexivity. }
    cbv zeta. rewrite Hsq. reflexivity. }
  cbv zeta. unfold Libm.rounded_square. rewrite abs_square.
  destruct (abs f =? 1)%float eqn:E1; [|reflexivity].
  apply eqb_one in E1. rewrite <- abs_square, E1. reflexivity.
Qed.

Lemma bind_ext {A B : Type} (r : result A) (k k' : A -> result B) :
  (forall a, k a = k' a) -> bind r k = bind r k'.
Proof. intros H. destruct r; cbn [bind]; [apply H|reflexivity]. Qed.

Lemma walking_calories_rounded (self : workout) :
  Libm.SportsWalking.get_spent_calories Libm.rounded_square self
  = SportsWalking.get_spent_calories self.
Proof.
  unfold Libm.SportsWalking.get_spent_calories, SportsWalking.get_spent_calories.
  do 5 (apply bind_ext; intros ?).
  rewrite pow2_rounded. reflexivity.
Qed.

(** ** Swimming *)

(** C4, as stated, fails in its calorie formula: for a 25 m pool, 30 laps,
    3 hours and 60 kg the code returns 486.00000000000006 and the stated
    formula 486. *)
Lemma swimming_calories_grouping_differs :
  get_spent_calories (mkSwimming 720 (PyInt 3) (PyInt 60) 25 30)
    = Return (PyFloat 486.00000000000006)
  /\ Spec.swimming_calories (Spec.swimming_mean_speed 25 30 (PyInt 3)) (PyInt 60) (PyInt 3)
     = Return (PyFloat 486)
  /\ ~ agree (get_spent_calories (mkSwimming 720 (PyInt 3) (PyInt 60) 25 30))
         (Spec.swimming_calories (Spec.swimming_mean_speed 25 30 (PyInt 3))
            (PyInt 60) (PyInt 3)).
Proof.
  split; [vm_compute; reflexivity|]. split; [vm_compute; reflexivity|].
  vm_compute. apply PyFloat_neq. vm_compute. discriminate.
Qed.

(** C4, amended: for every Swimming workout, [get_mean_speed] returns
    [(p * c) / 1000 / d], [get_spent_calories] returns
    [(mean_speed + 1.1) * (2 * w * d)], and [get_distance] uses the
    step-length formula with step length 1.38. *)
Theorem swimming_formulas (n : Z) (d w : num) (p c : Z) :
  get_mean_speed (mkSwimming n d w p c) = Spec.swimming_mean_speed p c d
  /\ agree (get_spent_calories (mkSwimming n d w p c))
           (Amended.swimming_calories (Spec.swimming_mean_speed p c d) w d)
  /\ get_distance (mkSwimming n d w p c) = Spec.distance_km n (PyFloat 1.38).
Proof.
  split; [reflexivity|]. split; [|reflexivity].
  unfold get_spent_calories, Amended.swimming_calories. cbn [__class__].
  unfold Swimming.get_spent_calories. cbn [duration weight].
  change (Swimming.get_mean_speed (mkSwimming n d w p c))
    with (Spec.swimming_mean_speed p c d).
  unfold Swimming.OFFSET_SPEED, Swimming.SPEED_MULTIPLAYER.
  settle_agree.
Qed.

(** ** The dispatcher *)

Lemma training_types_unknown (workout_type : string) :
  ~ In workout_type ["SWM"; "RUN"; "WLK"] ->
  training_types !! workout_type = None.
Proof.
  intros H. unfold training_types.
  rewrite !lookup_insert_ne, lookup_singleton_ne; [reflexivity|..];
    intros <-; apply H; cbn; tauto.
Qed.

(** C5: for every kind code outside SWM, RUN and WLK and every field list,
    [read_package] fails with the [ValueError] of an unknown workout type and
    not with a key-lookup error; for each of the three tags and a field list
    of matching arity it returns a workout of the corresponding class. *)
Theorem read_package_dispatch :
  (forall (workout_type : string) (data : list Z),
      ~ In workout_type ["SWM"; "RUN"; "WLK"] ->
      read_package workout_type data = Raise (ValueError "Неизвестный тип ренировки")
      /\ forall key, read_package workout_type data <> Raise (KeyError key))
  /\ (forall a d w l n,
        read_package "SWM" [a; d; w; l; n] = Return (mkSwimming a (PyInt d) (PyInt w) l n)
        /\ __class__ (mkSwimming a (PyInt d) (PyInt w) l n) = Swimming)
  /\ (forall a d w,
        read_package "RUN" [a; d; w] = Return (mkRunning a (PyInt d) (PyInt w))
        /\ __class__ (mkRunning a (PyInt d) (PyInt w)) = Running)
  /\ (forall a d w h,
        read_package "WLK" [a; d; w; h] = Return (mkSportsWalking a (PyInt d) (PyInt w) h)
        /\ __class__ (mkSportsWalking a (PyInt d) (PyInt w) h) = SportsWalking).
Proof.
  split; [|repeat split].
  intros workout_type data H. unfold read_package.
  rewrite (training_types_unknown _ H). split; [reflexivity|discriminate].
Qed.

Lemma read_package_dispatch_witness :
  ~ In "XYZ" ["SWM"; "RUN"; "WLK"]
  /\ read_package "XYZ" [1; 1; 1] = Raise (ValueError "Неизвестный тип ренировки").
Proof.
  assert (H : ~ In "XYZ" ["SWM"; "RUN"; "WLK"]).
  { cbn. intros [H|[H|[H|[]]]]; discriminate H. }
  split; [exact H|].
  exact (proj1 (proj1 read_package_dispatch "XYZ" [1; 1; 1] H)).
Defined.

(** ** The running scenario *)

(** C7, as stated, fails: the calories of [RUN], 15000 steps in 1 hour at
    75 kg, are 797.805, which is not 798.86 to two decimals. *)
Lemma run_scenario_calories_not_798_86 :
  ~ exists (t : workout) (c : float),
      read_package "RUN" [15000; 1; 75] = Return t
      /\ get_distance t = Return (PyFloat 9.75)
      /\ get_mean_speed t = Return (PyFloat 9.75)
      /\ get_spent_calories t = Return (PyFloat c)
      /\ approx 0.005 c 798.86 = true.
Proof.
  intros (t & c & Ht & _ & _ & Hc & Happrox).
  assert (t = mkRunning 15000 (PyInt 1) (PyInt 75)) as -> by (vm_compute in Ht; congruence).
  assert (Hv : get_spent_calories (mkRunning 15000 (PyInt 1) (PyInt 75))
               = Return (PyFloat 797.805)) by (vm_compute; reflexivity).
  rewrite Hv in Hc.
  assert (E : PyFloat 797.805 = PyFloat c) by congruence.
  assert (E' : Prim2SF 797.805 = Prim2SF c) by exact (f_equal spec_of_num E).
  apply Prim2SF_inj in E'. subst c. vm_compute in Happrox. discriminate.
Qed.

(** C7, amended: [read_package] on [RUN] with 15000 steps, 1 hour and 75 kg
    yields a workout whose distance is 15000*0.65/1000 = 9.75 km, whose mean
    speed is 9.75 km/h, and whose calories are (18*9.75+1.79)*75/1000*60 =
    797.805. *)
Theorem run_scenario :
  exists t : workout,
    read_package "RUN" [15000; 1; 75] = Return t
    /\ get_distance t = Return (PyFloat 9.75)
    /\ get_mean_speed t = Return (PyFloat 9.75)
    /\ get_spent_calories t = Return (PyFloat 797.805)
    /\ Spec.running_calories (PyFloat 9.75) (PyInt 75) (PyInt 1) = Return (PyFloat 797.805)
    /\ Format.float_f3 797.805 = "797.805".
Proof.
  exists (mkRunning 15000 (PyInt 1) (PyInt 75)).
  repeat split; vm_compute; reflexivity.
Qed.

(** ** The kind of a summary *)

(** C10: the kind of a summary is the name of the workout's class: for a
    workout the dispatcher builds from the tag WLK it is "SportsWalking",
    from RUN "Running", from SWM "Swimming". *)
Theorem summary_kind (tag : string) (data : list Z) (t : workout) (info : InfoMessage.t) :
  read_package tag data = Return t ->
  show_training_info t = Return info ->
  InfoMessage.training_type info = __name__ (__class__ t)
  /\ (tag = "WLK" -> InfoMessage.training_type info = "SportsWalking")
  /\ (tag = "RUN" -> InfoMessage.training_type info = "Running")
  /\ (tag = "SWM" -> InfoMessage.training_type info = "Swimming").
Proof.
  intros Hread Hshow.
  assert (Hkind : InfoMessage.training_type info = __name__ (__class__ t)).
  { unfold show_training_info in Hshow.
    destruct (get_distance t); [|discriminate].
    destruct (get_mean_speed t); [|discriminate].
    destruct (get_spent_calories t); [|discriminate].
    cbn in Hshow. injection Hshow as <-. reflexivity. }
  split; [exact Hkind|].
  assert (Hcls : forall c s, training_types !! tag = Some c ->
                 __init__ c data = Return t -> __name__ c = s ->
                 InfoMessage.training_type info = s).
  { intros c s _ Hinit <-. rewrite Hkind. f_equal.
    destruct c, data as [|a [|d [|w [|h [|n [|? ?]]]]]]; cbn in Hinit;
      try discriminate; injection Hinit as <-; reflexivity. }
  unfold read_package in Hread.
  repeat split; intros ->;
    (eapply Hcls; [vm_compute; reflexivity| |reflexivity]);
    exact Hread.
Qed.

Lemma summary_kind_witness :
  (exists (t : workout) (info : InfoMessage.t),
      read_package "WLK" [9000; 1; 75; 180] = Return t
      /\ show_training_info t = Return info
      /\ InfoMessage.training_type info = "SportsWalking")
  /\ (exists (t : workout) (info : InfoMessage.t),
        read_package "RUN" [15000; 1; 75] = Return t
        /\ show_training_info t = Return info
        /\ InfoMessage.training_type info = "Running")
  /\ (exists (t : workout) (info : InfoMessage.t),
        read_package "SWM" [720; 1; 80; 25; 40] = Return t
        /\ show_training_info t = Return info
        /\ InfoMessage.training_type info = "Swimming").
Proof.
  split; [|split].
  - exists (mkSportsWalking 9000 (PyInt 1) (PyInt 75) 180).
    eexists. split; [reflexivity|]. split; [vm_compute; reflexivity|].
    refine (proj1 (proj2 (summary_kind "WLK" [9000; 1; 75; 180] _ _ _ _)) eq_refl).
    + reflexivity.
    + vm_compute. reflexivity.
  - exists (mkRunning 15000 (PyInt 1) (PyInt 75)).
    eexists. split; [reflexivity|]. split; [vm_compute; reflexivity|].
    refine (proj1 (proj2 (proj2 (summary_kind "RUN" [15000; 1; 75] _ _ _ _))) eq_refl).
    + reflexivity.
    + vm_compute. reflexivity.
  - exists (mkSwimming 720 (PyInt 1) (PyInt 80) 25 40).
    eexists. split; [reflexivity|]. split; [vm_compute; reflexivity|].
    refine (proj2 (proj2 (proj2 (summary_kind "SWM" [720; 1; 80; 25; 40] _ _ _ _))) eq_refl).
    + reflexivity.
    + vm_compute. reflexivity.
Defined.

(** ** The report *)

Section Template.

Variable render : string -> string -> result string.

(** The scanner on [MESSAGE]: five fields, rendered left to right. *)
Lemma scan_MESSAGE :
  Format.scan render [] (Format.InText "") InfoMessage.MESSAGE
  = let* kind := render "training_type" "" in
    let* duration := render "duration" "0.3f" in
    let* distance := render "distance" "0.3f" in
    let* speed := render "speed" "0.3f" in
    let* calories := render "calories" "0.3f" in
    Return (Shape.report kind duration distance speed calories).
Proof. vm_compute. reflexivity. Qed.

End Template.

Lemma asdict_lookups (m : InfoMessage.t) :
  InfoMessage.asdict m !! "training_type" = Some (VStr (InfoMessage.training_type m))
  /\ InfoMessage.asdict m !! "duration" = Some (VNum (InfoMessage.duration m))
  /\ InfoMessage.asdict m !! "distance" = Some (VNum (InfoMessage.distance m))
  /\ InfoMessage.asdict m !! "speed" = Some (VNum (InfoMessage.speed m))
  /\ InfoMessage.asdict m !! "calories" = Some (VNum (InfoMessage.calories m)).
Proof. repeat split; vm_compute; reflexivity. Qed.

(** [get_message] renders the kind as it is and the four numbers with the
    specification [0.3f]. *)
Lemma get_message_fields (m : InfoMessage.t) :
  InfoMessage.get_message m
  = let* duration := Format.format_value (VNum (InfoMessage.duration m)) "0.3f" in
    let* distance := Format.format_value (VNum (InfoMessage.distance m)) "0.3f" in
    let* speed := Format.format_value (VNum (InfoMessage.speed m)) "0.3f" in
    let* calories := Format.format_value (VNum (InfoMessage.calories m)) "0.3f" in
    Return (Shape.report (InfoMessage.training_type m) duration distance speed calories).
Proof.
  unfold InfoMessage.get_message, Format.format. rewrite scan_MESSAGE.
  destruct (asdict_lookups m) as (-> & -> & -> & -> & ->). reflexivity.
Qed.

(** *** Digits *)

Lemma is_digit_digit (d : Z) : 0 <= d < 10 -> Shape.is_digit (Format.digit d) = true.
Proof.
  intros H.
  assert (d = 0 \/ d = 1 \/ d = 2 \/ d = 3 \/ d = 4 \/ d = 5 \/ d = 6 \/ d = 7
          \/ d = 8 \/ d = 9) as Hd by lia.
  repeat (destruct Hd as [->|Hd]; [reflexivity|]). subst d. reflexivity.
Qed.

Lemma all_digits_string_of_uint (u : Decimal.uint) :
  Shape.all_digits (NilEmpty.string_of_uint u) = true.
Proof. induction u; cbn; auto. Qed.

Lemma all_digits_decimal (n : Z) : Shape.all_digits (Format.decimal n) = true.
Proof. apply all_digits_string_of_uint. Qed.

Lemma decimal_nonempty (n : Z) : Format.decimal n <> EmptyString.
Proof.
  unfold Format.decimal. destruct (Z.to_N n) as [|p]; cbn; [discriminate|].
  pose proof (DecimalPos.Unsigned.to_uint_nonnil p) as H.
  destruct (Pos.to_uint p); cbn; congruence.
Qed.

Lemma digits_point_3_digit (c : ascii) (s : string) :
  Shape.is_digit c = true ->
  Shape.digits_point_3 (String c s) = Shape.digits_point_3 s.
Proof.
  intros H. cbn [Shape.digits_point_3].
  destruct (Ascii.eqb_spec c ".") as [->|_]; [discriminate H|].
  rewrite H. reflexivity.
Qed.

Lemma append_nil (s : string) : (EmptyString ++ s)%string = s.
Proof. reflexivity. Qed.

Lemma append_cons (c : ascii) (s t : string) :
  (String c s ++ t)%string = String c (s ++ t).
Proof. reflexivity. Qed.

Lemma digits_point_3_app (ds frac : string) :
  Shape.all_digits ds = true ->
  String.length frac = 3%nat -> Shape.all_digits frac = true ->
  Shape.digits_point_3 (ds ++ String "." frac)%string = true.
Proof.
  intros Hds Hlen Hfrac.
  induction ds as [|c ds IH]; [rewrite append_nil|rewrite append_cons].
  - change (Shape.digits_point_3 (String "." frac))
      with ((String.length frac =? 3)%nat && Shape.all_digits frac).
    rewrite Hlen, Hfrac. reflexivity.
  - cbn in Hds. apply andb_true_iff in Hds as [Hc Hds].
    rewrite digits_point_3_digit by exact Hc. auto.
Qed.

Lemma unsigned_3_fixed3 (n : Z) : Shape.unsigned_3 (Format.fixed3 n) = true.
Proof.
  unfold Format.fixed3.
  assert (Hfrac : 0 <= n mod 1000 < 1000) by (apply Z.mod_pos_bound; lia).
  set (frac := n mod 1000) in *.
  set (f3 := String (Format.digit (frac / 100))
               (String (Format.digit (frac / 10 mod 10))
                  (String (Format.digit (frac mod 10)) ""))).
  assert (Hall : Shape.digits_point_3 (Format.decimal (n / 1000) ++ String "." f3)%string
                 = true).
  { apply digits_point_3_app; [apply all_digits_decimal|reflexivity|].
    unfold f3. cbn [Shape.all_digits].
    rewrite !is_digit_digit; [reflexivity|..].
    - apply Z.mod_pos_bound; lia.
    - apply Z.mod_pos_bound; lia.
    - split; [apply Z.div_pos; lia|apply Z.div_lt_upper_bound; lia]. }
  change (Format.decimal (n / 1000) ++ "." ++ f3)%string
    with (Format.decimal (n / 1000) ++ String "." f3)%string.
  pose proof (decimal_nonempty (n / 1000)) as Hne.
  pose proof (all_digits_decimal (n / 1000)) as Hd.
  destruct (Format.decimal (n / 1000)) as [|c ds]; [congruence|].
  cbn in Hd. apply andb_true_iff in Hd as [Hc _].
  rewrite append_cons in *. unfold Shape.unsigned_3. rewrite Hc, Hall. reflexivity.
Qed.

Lemma three_decimals_signed (s : bool) (body : string) :
  Shape.unsigned_3 body = true ->
  Shape.three_decimals (Format.sign s ++ body)%string = true.
Proof.
  intros H. destruct s; cbn [Format.sign]; rewrite ?append_cons, append_nil; [exact H|].
  destruct body as [|c r]; [discriminate H|]. cbn [Shape.three_decimals].
  destruct (Ascii.eqb_spec c "-") as [->|_]; [discriminate H|exact H].
Qed.

(** A finite float is a zero or has a mantissa and an exponent. *)
Lemma Prim2SF_finite (x : float) :
  is_finite x = true ->
  (exists s, Prim2SF x = S754_zero s) \/ (exists s m e, Prim2SF x = S754_finite s m e).
Proof.
  unfold is_finite. intros H. apply negb_true_iff, orb_false_iff in H as [Hnan Hinf].
  unfold Prim2SF. rewrite Hnan, Hinf.
  destruct (is_zero x); [left; eauto|].
  destruct (Z.frexp x) as [r ex].
  destruct (shr_fexp prec emax _ _ _) as [sh e'].
  destruct (shr_m sh); [left|right|left]; eauto.
Qed.

(** Every finite float is rendered with exactly three digits after the
    point. *)
Lemma three_decimals_float_f3 (x : float) :
  is_finite x = true -> Shape.three_decimals (Format.float_f3 x) = true.
Proof.
  intros H. unfold Format.float_f3.
  destruct (Prim2SF_finite x H) as [[s ->]|(s & m & e & ->)].
  - destruct s; reflexivity.
  - apply three_decimals_signed, unsigned_3_fixed3.
Qed.

Lemma format_value_finite (x : num) :
  Shape.finite_num x ->
  exists s, Format.format_value (VNum x) "0.3f" = Return s
            /\ Shape.three_decimals s = true.
Proof.
  intros (f & Hf & Hfin). exists (Format.float_f3 f). split.
  - cbn. rewrite Hf. reflexivity.
  - apply three_decimals_float_f3, Hfin.
Qed.

(** C6, as stated, fails: 15000 steps in 1 hour at a weight of 10^307 give
    calories that overflow to infinity, and the summary renders them as
    [inf], with no digits after a point. *)
Lemma report_of_infinite_calories :
  (let* t := read_package "RUN" [15000; 1; 10 ^ 307] in show_training_info t)
    = Return (InfoMessage.Build "Running" (PyInt 1) (PyFloat 9.75) (PyFloat 9.75)
                (PyFloat infinity))
  /\ InfoMessage.get_message
       (InfoMessage.Build "Running" (PyInt 1) (PyFloat 9.75) (PyFloat 9.75)
          (PyFloat infinity))
     = Return ("Тип тренировки: Running; Длительность: 1.000 ч.; "
               ++ "Дистанция: 9.750 км; Ср. скорость: 9.750 км/ч; "
               ++ "Потрачено ккал: inf.")%string
  /\ ~ Shape.three_decimal_report
         (InfoMessage.Build "Running" (PyInt 1) (PyFloat 9.75) (PyFloat 9.75)
            (PyFloat infinity)).
Proof.
  split; [vm_compute; reflexivity|]. split; [vm_compute; reflexivity|].
  intros (du & di & sp & ca & _ & _ & _ & Hca & _ & _ & _ & _ & Hshape).
  vm_compute in Hca. injection Hca as <-. vm_compute in Hshape. discriminate.
Qed.

(** C6, amended: for every summary whose duration, distance, speed and
    calories are finite numbers, [get_message] substitutes the five fields
    into the fixed template, each of the four numbers with exactly three
    digits after the point [.], and the kind as it is. *)
Theorem report_three_decimals (m : InfoMessage.t) :
  Shape.finite_num (InfoMessage.duration m) ->
  Shape.finite_num (InfoMessage.distance m) ->
  Shape.finite_num (InfoMessage.speed m) ->
  Shape.finite_num (InfoMessage.calories m) ->
  Shape.three_decimal_report m.
Proof.
  intros Hdu Hdi Hsp Hca.
  destruct (format_value_finite _ Hdu) as (du & Edu & Sdu).
  destruct (format_value_finite _ Hdi) as (di & Edi & Sdi).
  destruct (format_value_finite _ Hsp) as (sp & Esp & Ssp).
  destruct (format_value_finite _ Hca) as (ca & Eca & Sca).
  exists du, di, sp, ca. repeat split; try assumption.
  rewrite get_message_fields, Edu, Edi, Esp, Eca. reflexivity.
Qed.

Lemma report_three_decimals_witness :
  Shape.three_decimal_report
    (InfoMessage.Build "Running" (PyInt 1) (PyFloat 9.75) (PyFloat 9.75) (PyFloat 797.805)).
Proof.
  apply report_three_decimals; cbn;
    eexists; (split; [vm_compute; reflexivity|reflexivity]).
Defined.

(** ** Rounding in binary64

    Facts about the rounding function of [SpecFloat], on which the
    operations of the floats are specified. *)

Module Rounding.

Lemma emin_value : emin = -1074.
Proof. reflexivity. Qed.

Lemma fexp_value (e : Z) : fexp e = Z.max (e - 53) (-1074).
Proof. reflexivity. Qed.

(** *** Digits *)

Lemma digits2_pos_log2 (p : positive) : Zpos (digits2_pos p) = Z.log2 (Zpos p) + 1.
Proof.
  induction p as [p IH|p IH|]; cbn [digits2_pos].
  - rewrite Pos2Z.inj_succ, IH.
    change (Zpos p~1) with (2 * Zpos p + 1).
    rewrite Z.log2_succ_double by lia. lia.
  - rewrite Pos2Z.inj_succ, IH.
    change (Zpos p~0) with (2 * Zpos p).
    rewrite Z.log2_double by lia. lia.
  - reflexivity.
Qed.

Lemma Zdigits2_log2 (m : Z) : 0 < m -> Zdigits2 m = Z.log2 m + 1.
Proof. destruct m; try lia. intros _. apply digits2_pos_log2. Qed.

Lemma Zdigits2_pos (m : Z) : 0 < m -> 0 < Zdigits2 m.
Proof. intros H. rewrite Zdigits2_log2 by exact H. pose proof (Z.log2_nonneg m). lia. Qed.

Lemma Zdigits2_le (a b : Z) : 0 < a -> a <= b -> Zdigits2 a <= Zdigits2 b.
Proof.
  intros Ha Hab. rewrite !Zdigits2_log2 by lia.
  pose proof (Z.log2_le_mono a b Hab). lia.
Qed.

Lemma Zdigits2_bounds (m : Z) : 0 < m -> 2 ^ (Zdigits2 m - 1) <= m < 2 ^ Zdigits2 m.
Proof.
  intros H. rewrite Zdigits2_log2 by exact H.
  replace (Z.log2 m + 1 - 1) with (Z.log2 m) by lia.
  replace (Z.log2 m + 1) with (Z.succ (Z.log2 m)) by lia.
  apply Z.log2_spec, H.
Qed.

Lemma Zdigits2_shiftr (m n : Z) :
  0 < m -> 0 <= n -> n < Zdigits2 m ->
  0 < Z.shiftr m n /\ Zdigits2 (Z.shiftr m n) = Zdigits2 m - n.
Proof.
  intros Hm Hn Hlt. rewrite (Zdigits2_log2 m) in * by exact Hm.
  assert (Hpos : 0 < Z.shiftr m n).
  { rewrite Z.shiftr_div_pow2 by exact Hn.
    apply Z.div_str_pos. split; [apply Z.pow_pos_nonneg; lia|].
    transitivity (2 ^ Z.log2 m).
    - apply Z.pow_le_mono_r; lia.
    - apply Z.log2_spec, Hm. }
  split; [exact Hpos|].
  rewrite Zdigits2_log2 by exact Hpos.
  rewrite Z.log2_shiftr by exact Hm. lia.
Qed.

(** *** Shifting a mantissa to the right *)

Lemma shr_1_m (r : shr_record) : 0 <= shr_m r -> shr_m (shr_1 r) = Z.shiftr (shr_m r) 1.
Proof.
  destruct r as [m rb sb]. cbn [shr_m]. intros H.
  destruct m as [|[p|p|]|p]; try lia; reflexivity.
Qed.

Lemma shr_1_nonneg (r : shr_record) : 0 <= shr_m r -> 0 <= shr_m (shr_1 r).
Proof.
  intros H. rewrite shr_1_m by exact H. apply Z.shiftr_nonneg, H.
Qed.

Lemma iter_shr_1_m (p : positive) (r : shr_record) :
  0 <= shr_m r ->
  shr_m (SpecFloat.iter_pos shr_1 p r) = Z.shiftr (shr_m r) (Zpos p).
Proof.
  revert r. induction p as [p IH|p IH|]; intros r H; cbn [SpecFloat.iter_pos].
  - assert (H1 := shr_1_nonneg r H).
    assert (H2 : 0 <= shr_m (SpecFloat.iter_pos shr_1 p (shr_1 r))).
    { rewrite IH by exact H1. apply Z.shiftr_nonneg, H1. }
    rewrite IH by exact H2. rewrite IH by exact H1. rewrite shr_1_m by exact H.
    rewrite !Z.shiftr_shiftr by lia. f_equal. lia.
  - assert (H2 : 0 <= shr_m (SpecFloat.iter_pos shr_1 p r)).
    { rewrite IH by exact H. apply Z.shiftr_nonneg, H. }
    rewrite IH by exact H2. rewrite IH by exact H.
    rewrite Z.shiftr_shiftr by lia. f_equal. lia.
  - apply shr_1_m, H.
Qed.

Lemma shr_record_of_loc_m (m : Z) (l : location) : shr_m (shr_record_of_loc m l) = m.
Proof. destruct l as [|[]]; reflexivity. Qed.

(** [shr_fexp] shifts by the distance to the canonical exponent when that
    distance is positive. *)
Lemma shr_fexp_spec (m e : Z) (l : location) :
  0 <= m ->
  let n := fexp (Zdigits2 m + e) - e in
  exists r, shr_fexp prec emax m e l = (r, e + Z.max 0 n)
            /\ shr_m r = Z.shiftr m (Z.max 0 n).
Proof.
  intros Hm n. unfold shr_fexp, shr. fold n.
  destruct n as [|p|p] eqn:En.
  - eexists. split; [f_equal; lia|]. rewrite shr_record_of_loc_m. reflexivity.
  - eexists. split; [f_equal; lia|].
    rewrite iter_shr_1_m by (rewrite shr_record_of_loc_m; exact Hm).
    rewrite shr_record_of_loc_m. reflexivity.
  - eexists. split; [f_equal; lia|]. rewrite shr_record_of_loc_m. reflexivity.
Qed.


Lemma canon_canonical (m : positive) (e : Z) :
  canon (Zpos m) e -> canonical_mantissa prec emax m e = true.
Proof.
  intros ([_ Hlt] & He & Hor). unfold canonical_mantissa. apply Z.eqb_eq.
  rewrite fexp_value.
  assert (Hd : Zpos (digits2_pos m) <= 53).
  { rewrite digits2_pos_log2.
    assert (Z.log2 (Zpos m) < 53) by (apply Z.log2_lt_pow2; lia). lia. }
  destruct Hor as [->|Hge]; [lia|].
  assert (53 <= Zpos (digits2_pos m)).
  { rewrite digits2_pos_log2.
    assert (52 <= Z.log2 (Zpos m)) by (apply Z.log2_le_pow2; lia). lia. }
  lia.
Qed.

(** The first shift of [binary_round_aux] puts a mantissa that is precise
    enough into canonical position. *)
Lemma shr_fexp_canon (m e : Z) (l : location) (r : shr_record) (e' : Z) :
  0 <= m -> e <= fexp (Zdigits2 m + e) ->
  shr_fexp prec emax m e l = (r, e') ->
  canon (shr_m r) e'.
Proof.
  intros Hm Hpre Hshr.
  destruct (shr_fexp_spec m e l Hm) as (r0 & Hr0 & Hm0). cbv zeta in Hr0, Hm0.
  rewrite Hr0 in Hshr. injection Hshr as <- <-.
  set (n := fexp (Zdigits2 m + e) - e) in *.
  rewrite Z.max_r in * by lia. rewrite Hm0.
  rewrite Z.shiftr_div_pow2 by lia.
  assert (En : e + n = fexp (Zdigits2 m + e)) by (unfold n; lia).
  rewrite fexp_value in En.
  assert (Hpow : 0 < 2 ^ n) by (apply Z.pow_pos_nonneg; lia).
  destruct (Z.eq_dec m 0) as [->|Hnz].
  - rewrite Z.div_0_l by lia. cbn [Zdigits2] in En. unfold canon. lia.
  - assert (Hmpos : 0 < m) by lia.
    pose proof (Zdigits2_bounds m Hmpos) as [Hlo Hhi].
    pose proof (Zdigits2_pos m Hmpos) as Hdpos.
    set (d := Zdigits2 m) in *.
    unfold canon. split; [split|split].
    + apply Z.div_pos; lia.
    + apply Z.div_lt_upper_bound; [lia|].
      apply Z.lt_le_trans with (1 := Hhi).
      rewrite <- Z.pow_add_r by lia. apply Z.pow_le_mono_r; lia.
    + lia.
    + destruct (Z.eq_dec (e + n) (-1074)) as [E|E]; [left; exact E|right].
      assert (Hn : n = d - 53) by lia.
      apply Z.div_le_lower_bound; [lia|].
      rewrite <- Z.pow_add_r by lia.
      replace (n + 52) with (d - 1) by lia. exact Hlo.
Qed.

(** A shift never changes the magnitude [digits + exponent] of a number
    above the least one. *)
Lemma shr_fexp_mag (m e : Z) (l : location) (r : shr_record) (e' : Z) :
  0 < m -> -1074 < Zdigits2 m + e ->
  shr_fexp prec emax m e l = (r, e') ->
  0 < shr_m r /\ Zdigits2 (shr_m r) + e' = Zdigits2 m + e.
Proof.
  intros Hm Hmag Hshr.
  destruct (shr_fexp_spec m e l) as (r0 & Hr0 & Hm0); [lia|]. cbv zeta in Hr0, Hm0.
  rewrite Hr0 in Hshr. injection Hshr as <- <-. rewrite Hm0.
  set (n := fexp (Zdigits2 m + e) - e) in *.
  assert (Hn : Z.max 0 n < Zdigits2 m).
  { pose proof (Zdigits2_pos m Hm). unfold n. rewrite fexp_value. lia. }
  destruct (Zdigits2_shiftr m (Z.max 0 n)) as [Hpos Hd]; [lia..|].
  split; [exact Hpos|]. rewrite Hd. lia.
Qed.

Lemma shr_fexp_nonneg (m e : Z) (l : location) (r : shr_record) (e' : Z) :
  0 <= m -> shr_fexp prec emax m e l = (r, e') -> 0 <= shr_m r.
Proof.
  intros Hm Hshr.
  destruct (shr_fexp_spec m e l Hm) as (r0 & Hr0 & Hm0). cbv zeta in Hr0, Hm0.
  rewrite Hr0 in Hshr. injection Hshr as <- <-. rewrite Hm0.
  apply Z.shiftr_nonneg, Hm.
Qed.

Lemma round_nearest_even_cases (m : Z) (l : location) :
  round_nearest_even m l = m \/ round_nearest_even m l = m + 1.
Proof.
  destruct l as [|[]]; cbn; auto. destruct (Z.even m); auto.
Qed.


Lemma round_nearest_even_ge (m : Z) (l : location) : m <= round_nearest_even m l.
Proof. destruct (round_nearest_even_cases m l) as [->| ->]; lia. Qed.

Lemma fexp_le (a b : Z) : a <= b -> fexp a <= fexp b.
Proof. rewrite !fexp_value. lia. Qed.

(** The two shifts of [binary_round_aux] and the mantissa it ends with. *)
Lemma binary_round_aux_unfold (s : bool) (m e : Z) (l : location) :
  0 <= m ->
  exists r1 e1 r2 e2,
    shr_fexp prec emax m e l = (r1, e1)
    /\ shr_fexp prec emax
         (round_nearest_even (shr_m r1) (loc_of_shr_record r1)) e1 loc_Exact = (r2, e2)
    /\ 0 <= shr_m r1 /\ 0 <= shr_m r2
    /\ binary_round_aux prec emax s m e l
       = match shr_m r2 with
         | Z0 => S754_zero s
         | Zpos p =>
             if e2 <=? emax - prec then S754_finite s p e2 else S754_infinity s
         | Zneg _ => S754_nan
         end.
Proof.
  intros Hm. unfold binary_round_aux.
  destruct (shr_fexp prec emax m e l) as [r1 e1] eqn:E1.
  destruct (shr_fexp prec emax _ e1 loc_Exact) as [r2 e2] eqn:E2.
  exists r1, e1, r2, e2.
  assert (H1 : 0 <= shr_m r1) by (eapply shr_fexp_nonneg; eassumption).
  assert (H2 : 0 <= shr_m r2).
  { eapply shr_fexp_nonneg; [|exact E2].
    pose proof (round_nearest_even_ge (shr_m r1) (loc_of_shr_record r1)). lia. }
  repeat split; assumption.
Qed.

(** Rounding keeps the sign and never yields a NaN. *)
Lemma binary_round_aux_sign (s : bool) (m e : Z) (l : location) :
  0 <= m ->
  binary_round_aux prec emax s m e l = S754_zero s
  \/ binary_round_aux prec emax s m e l = S754_infinity s
  \/ exists m' e', binary_round_aux prec emax s m e l = S754_finite s m' e'.
Proof.
  intros Hm.
  destruct (binary_round_aux_unfold s m e l Hm) as (r1 & e1 & r2 & e2 & _ & _ & _ & H2 & ->).
  destruct (shr_m r2) as [|p|p]; [auto| |lia].
  destruct (e2 <=? emax - prec); eauto.
Qed.

(** Rounding never lowers the magnitude of a number above the least one; in
    particular such a number does not round to zero. *)
Lemma binary_round_aux_mag (s : bool) (m e : Z) (l : location) :
  0 < m -> -1074 < Zdigits2 m + e ->
  binary_round_aux prec emax s m e l = S754_infinity s
  \/ exists m' e', binary_round_aux prec emax s m e l = S754_finite s m' e'
                   /\ Zdigits2 m + e <= Zpos (digits2_pos m') + e'.
Proof.
  intros Hm Hmag.
  destruct (binary_round_aux_unfold s m e l) as (r1 & e1 & r2 & e2 & E1 & E2 & _ & _ & ->);
    [lia|].
  destruct (shr_fexp_mag m e l r1 e1 Hm Hmag E1) as [Hpos1 Hmag1].
  set (m2 := round_nearest_even (shr_m r1) (loc_of_shr_record r1)) in *.
  assert (Hge : shr_m r1 <= m2) by apply round_nearest_even_ge.
  assert (Hd2 : Zdigits2 (shr_m r1) <= Zdigits2 m2) by (apply Zdigits2_le; lia).
  destruct (shr_fexp_mag m2 e1 loc_Exact r2 e2) as [Hpos2 Hmag2]; [lia|lia|exact E2|].
  destruct (shr_m r2) as [|p|p] eqn:Ep; [lia| |lia].
  destruct (e2 <=? emax - prec); [right|left; reflexivity].
  exists p, e2. split; [reflexivity|]. cbn [Zdigits2] in Hmag2. lia.
Qed.

(** Rounding a mantissa that is precise enough yields a valid float. *)
Lemma binary_round_aux_valid (s : bool) (m e : Z) (l : location) :
  0 <= m -> e <= fexp (Zdigits2 m + e) ->
  valid_binary (binary_round_aux prec emax s m e l) = true.
Proof.
  intros Hm Hpre.
  destruct (binary_round_aux_unfold s m e l Hm)
    as (r1 & e1 & r2 & e2 & E1 & E2 & H1 & H2 & ->).
  pose proof (shr_fexp_canon m e l r1 e1 Hm Hpre E1) as Hc1.
  set (m2 := round_nearest_even (shr_m r1) (loc_of_shr_record r1)) in *.
  assert (Hge : shr_m r1 <= m2) by apply round_nearest_even_ge.
  assert (Hpre2 : e1 <= fexp (Zdigits2 m2 + e1)).
  { destruct Hc1 as (_ & He1 & [->|Hfull]); [rewrite fexp_value; lia|].
    assert (0 < shr_m r1) by lia.
    assert (53 <= Zdigits2 (shr_m r1)).
    { rewrite Zdigits2_log2 by lia.
      assert (52 <= Z.log2 (shr_m r1)) by (apply Z.log2_le_pow2; lia). lia. }
    assert (Zdigits2 (shr_m r1) <= Zdigits2 m2) by (apply Zdigits2_le; lia).
    rewrite fexp_value. lia. }
  assert (Hc2 : canon (shr_m r2) e2).
  { eapply shr_fexp_canon; [|exact Hpre2|exact E2]. lia. }
  destruct (shr_m r2) as [|p|p] eqn:Ep; [reflexivity| |reflexivity].
  destruct (e2 <=? emax - prec) eqn:Ee; [|reflexivity].
  cbn [valid_binary]. unfold bounded. rewrite Ee, canon_canonical by exact Hc2.
  reflexivity.
Qed.


(** *** Rounding an integer mantissa: [binary_round] *)

Lemma shl_align_spec (mx : positive) (ex ex' : Z) :
  exists (mz : positive) (ez : Z),
    shl_align mx ex ex' = (mz, ez)
    /\ ez = Z.min ex ex'
    /\ Zpos mz = Zpos mx * 2 ^ (ex - ez)
    /\ Zpos (digits2_pos mz) + ez = Zpos (digits2_pos mx) + ex.
Proof.
  unfold shl_align. destruct (ex' - ex) as [|d|d] eqn:Ed.
  - exists mx, ex. repeat split; try lia. rewrite Z.sub_diag. cbn. lia.
  - exists mx, ex. repeat split; try lia. rewrite Z.sub_diag. cbn. lia.
  - exists (Pos.iter xO mx d), ex'.
    assert (Hval : Zpos (Pos.iter xO mx d) = Zpos mx * 2 ^ Zpos d).
    { change (Pos.iter xO mx d) with (shift_pos d mx).
      rewrite shift_pos_correct, Z.pow_pos_fold. lia. }
    repeat split; try lia.
    + rewrite Hval. f_equal. f_equal. lia.
    + rewrite !digits2_pos_log2, Hval, Z.log2_mul_pow2 by lia. lia.
Qed.

Lemma binary_round_spec (s : bool) (m : positive) (e : Z) :
  exists (mz : positive) (ez : Z),
    binary_round prec emax s m e = binary_round_aux prec emax s (Zpos mz) ez loc_Exact
    /\ ez <= fexp (Zdigits2 (Zpos mz) + ez)
    /\ Zdigits2 (Zpos mz) + ez = Zpos (digits2_pos m) + e.
Proof.
  unfold binary_round.
  destruct (shl_align_spec m e (fexp (Zpos (digits2_pos m) + e)))
    as (mz & ez & -> & Hez & _ & Hmag).
  exists mz, ez. cbn [Zdigits2]. split; [reflexivity|]. split; [|exact Hmag].
  rewrite Hmag. lia.
Qed.

Lemma binary_normalize_valid (z e : Z) (szero : bool) :
  valid_binary (binary_normalize prec emax z e szero) = true.
Proof.
  destruct z as [|m|m]; cbn [binary_normalize]; [reflexivity|..];
    destruct (binary_round_spec false m e) as (mz & ez & E & Hpre & _);
    destruct (binary_round_spec true m e) as (mz' & ez' & E' & Hpre' & _).
  - rewrite E. apply binary_round_aux_valid; [lia|exact Hpre].
  - rewrite E'. apply binary_round_aux_valid; [lia|exact Hpre'].
Qed.

(** A positive integer mantissa rounds to a positive float, or to
    infinity. *)
Lemma binary_normalize_pos (z e : Z) (szero : bool) :
  0 < z -> -1074 < Zdigits2 z + e ->
  binary_normalize prec emax z e szero = S754_infinity false
  \/ exists m' e', binary_normalize prec emax z e szero = S754_finite false m' e'
                   /\ Zdigits2 z + e <= Zpos (digits2_pos m') + e'.
Proof.
  intros Hz Hmag. destruct z as [|m|m]; try lia. cbn [binary_normalize].
  destruct (binary_round_spec false m e) as (mz & ez & -> & _ & Hm).
  cbn [Zdigits2] in Hmag |- *.
  destruct (binary_round_aux_mag false (Zpos mz) ez loc_Exact) as [H|(m' & e' & H & Hle)];
    [lia|lia|left; exact H|right].
  exists m', e'. split; [exact H|lia].
Qed.

(** *** Division *)

Lemma SFdiv_core_binary_spec (m1 m2 : positive) (e1 e2 : Z) :
  exists q e' l,
    SFdiv_core_binary prec emax (Zpos m1) e1 (Zpos m2) e2 = (q, e', l)
    /\ 0 <= q
    /\ e' <= fexp (Zdigits2 q + e')
    /\ (-1074 < Zpos (digits2_pos m1) + e1 - (Zpos (digits2_pos m2) + e2) ->
        0 < q
        /\ Zpos (digits2_pos m1) + e1 - (Zpos (digits2_pos m2) + e2) <= Zdigits2 q + e').
Proof.
  unfold SFdiv_core_binary. cbn [Zdigits2].
  set (d1 := Zpos (digits2_pos m1)). set (d2 := Zpos (digits2_pos m2)).
  set (X := d1 + e1 - (d2 + e2)).
  set (e' := Z.min (fexp X) (e1 - e2)).
  set (sh := e1 - e2 - e').
  assert (Hsh : 0 <= sh) by (unfold sh, e'; lia).
  set (m' := match sh with Zpos _ => Z.shiftl (Zpos m1) sh | Z0 => Zpos m1 | Zneg _ => 0 end).
  assert (Hm' : m' = Zpos m1 * 2 ^ sh).
  { unfold m'. destruct sh as [|p|p] eqn:E; [cbn; lia| |lia].
    rewrite Z.shiftl_mul_pow2 by lia. reflexivity. }
  pose proof (Z_div_mod m' (Zpos m2) eq_refl) as Hdiv.
  destruct (Z.div_eucl m' (Zpos m2)) as [q r] eqn:Eqr.
  destruct Hdiv as [Hq Hr].
  exists q, e', (new_location (Zpos m2) r).
  split; [reflexivity|].
  assert (H1 : 2 ^ (d1 - 1) <= Zpos m1 < 2 ^ d1) by (apply (Zdigits2_bounds (Zpos m1)); lia).
  assert (H2 : 2 ^ (d2 - 1) <= Zpos m2 < 2 ^ d2) by (apply (Zdigits2_bounds (Zpos m2)); lia).
  assert (Hd1 : 0 < d1) by (unfold d1; lia).
  assert (Hd2 : 0 < d2) by (unfold d2; lia).
  assert (Hpow : 0 < 2 ^ sh) by (apply Z.pow_pos_nonneg; lia).
  assert (Hm'pos : 0 < m') by (rewrite Hm'; lia).
  assert (Hq0 : 0 <= q) by nia.
  (* a lower bound on the quotient *)
  assert (Hlow : 0 <= d1 + sh - d2 - 1 -> 2 ^ (d1 + sh - d2 - 1) <= q).
  { intros Hk.
    assert (Hbig : 2 ^ (d1 + sh - d2 - 1) * 2 ^ d2 <= m').
    { rewrite <- Z.pow_add_r by lia. rewrite Hm'.
      replace (d1 + sh - d2 - 1 + d2) with ((d1 - 1) + sh) by lia.
      rewrite Z.pow_add_r by lia. nia. }
    assert (Hp : 0 < 2 ^ (d1 + sh - d2 - 1)) by (apply Z.pow_pos_nonneg; lia).
    nia. }
  assert (Hdig : 0 < q -> d1 + sh - d2 <= Zdigits2 q).
  { intros Hqpos. rewrite Zdigits2_log2 by exact Hqpos.
    destruct (Z_le_gt_dec 0 (d1 + sh - d2 - 1)) as [Hk|Hk].
    - specialize (Hlow Hk). apply Z.log2_le_pow2 in Hlow; lia.
    - pose proof (Z.log2_nonneg q). lia. }
  split; [exact Hq0|]. split.
  - destruct (Z.eq_dec q 0) as [->|Hnz].
    + cbn [Zdigits2]. rewrite fexp_value.
      assert (d1 + sh - d2 - 1 < 0).
      { destruct (Z_le_gt_dec 0 (d1 + sh - d2 - 1)) as [Hk|Hk]; [|lia].
        specialize (Hlow Hk).
        assert (0 < 2 ^ (d1 + sh - d2 - 1)) by (apply Z.pow_pos_nonneg; lia). lia. }
      assert (X <= e') by (unfold X, sh in *; lia).
      assert (e' <= fexp X) by (unfold e'; lia).
      rewrite fexp_value in *. lia.
    + assert (Hqpos : 0 < q) by lia. specialize (Hdig Hqpos).
      assert (X <= Zdigits2 q + e') by (unfold X, sh in *; lia).
      assert (e' <= fexp X) by (unfold e'; lia).
      pose proof (fexp_le X (Zdigits2 q + e')). lia.
  - intros HX. fold X in HX.
    assert (He'X : e' < X).
    { assert (e' <= fexp X) by (unfold e'; lia). rewrite fexp_value in *. lia. }
    assert (Hk : 0 <= d1 + sh - d2 - 1) by (unfold X, sh in *; lia).
    specialize (Hlow Hk).
    assert (Hqpos : 0 < q).
    { assert (0 < 2 ^ (d1 + sh - d2 - 1)) by (apply Z.pow_pos_nonneg; lia). lia. }
    split; [exact Hqpos|]. specialize (Hdig Hqpos). unfold X, sh in *. lia.
Qed.

End Rounding.

(** ** Signs and magnitudes through the operations *)

Module SFFacts.

Import Rounding.

Lemma mag_ge_weaken (a b : Z) (s : spec_float) : b <= a -> SF.mag_ge a s -> SF.mag_ge b s.
Proof.
  intros Hle [->|(m & e & -> & H)]; [left; reflexivity|right].
  exists m, e. split; [reflexivity|lia].
Qed.

Lemma mag_ge_nonneg (a : Z) (s : spec_float) : SF.mag_ge a s -> SF.nonneg s.
Proof.
  intros [->|(m & e & -> & _)]; unfold SF.nonneg; eauto.
Qed.

Lemma digits2_pos_mul (a b : positive) :
  Zpos (digits2_pos a) + Zpos (digits2_pos b) - 1 <= Zpos (digits2_pos (a * b)).
Proof.
  rewrite !digits2_pos_log2, Pos2Z.inj_mul.
  pose proof (Z.log2_mul_below (Zpos a) (Zpos b)). lia.
Qed.

(** A product of positive floats is at least the product of their lower
    bounds, and does not underflow to zero above the least magnitude. *)
Lemma mul_mag (a b : Z) (x y : spec_float) :
  SF.mag_ge a x -> SF.mag_ge b y -> -1074 < a + b - 1 ->
  SF.mag_ge (a + b - 1) (SFmul prec emax x y).
Proof.
  intros [->|(mx & ex & -> & Hx)] [->|(my & ey & -> & Hy)] Hlow;
    try (left; reflexivity).
  cbn [SFmul xorb].
  pose proof (digits2_pos_mul mx my) as Hd.
  destruct (binary_round_aux_mag false (Zpos (mx * my)) (ex + ey) loc_Exact)
    as [H|(m' & e' & H & Hle)]; [lia|cbn [Zdigits2]; lia|left; exact H|right].
  exists m', e'. split; [exact H|]. cbn [Zdigits2] in Hle. lia.
Qed.

Lemma mul_nonneg (b : Z) (x y : spec_float) :
  SF.nonneg x -> SF.mag_ge b y -> SF.nonneg_or_nan (SFmul prec emax x y).
Proof.
  unfold SF.nonneg_or_nan, SF.nonneg.
  intros [->|[->|(mx & ex & ->)]] [->|(my & ey & -> & Hy)]; cbn [SFmul xorb];
    try (left; reflexivity);
    try (right; left; reflexivity);
    try (right; right; left; reflexivity).
  right.
  destruct (binary_round_aux_sign false (Zpos (mx * my)) (ex + ey) loc_Exact)
    as [H|[H|H]]; [lia|auto..].
Qed.

(** A quotient by a positive finite float. *)
Lemma div_mag (a : Z) (x : spec_float) (my : positive) (ey : Z) :
  SF.mag_ge a x -> -1074 < a - (Zpos (digits2_pos my) + ey) ->
  SF.mag_ge (a - (Zpos (digits2_pos my) + ey))
    (SFdiv prec emax x (S754_finite false my ey)).
Proof.
  intros [->|(mx & ex & -> & Hx)] Hlow; [left; reflexivity|].
  cbn [SFdiv xorb].
  destruct (SFdiv_core_binary_spec mx my ex ey) as (q & e' & l & -> & Hq & _ & Hmag).
  destruct Hmag as [Hqpos Hle]; [lia|].
  destruct (binary_round_aux_mag false q e' l) as [H|(m' & e'' & H & Hle')];
    [lia|lia|left; exact H|right].
  exists m', e''. split; [exact H|lia].
Qed.

Lemma div_nonneg (x : spec_float) (my : positive) (ey : Z) :
  SF.nonneg x -> SF.nonneg (SFdiv prec emax x (S754_finite false my ey)).
Proof.
  unfold SF.nonneg. intros [->|[->|(mx & ex & ->)]]; cbn [SFdiv xorb]; auto.
  destruct (SFdiv_core_binary_spec mx my ex ey) as (q & e' & l & -> & Hq & _ & _).
  destruct (binary_round_aux_sign false q e' l) as [H|[H|H]]; auto.
Qed.

(** Adding a non-negative float does not lower the magnitude. *)
Lemma add_mag (b : Z) (x y : spec_float) :
  SF.nonneg x -> SF.mag_ge b y -> -1074 < b ->
  SF.mag_ge b (SFadd prec emax x y).
Proof.
  intros [->|[->|(mx & ex & ->)]] Hy Hlow.
  - destruct Hy as [->|(my & ey & -> & Hy)]; [left; reflexivity|].
    right. exists my, ey. split; [reflexivity|exact Hy].
  - destruct Hy as [->|(my & ey & -> & Hy)]; left; reflexivity.
  - destruct Hy as [->|(my & ey & -> & Hy)]; [left; reflexivity|].
    cbn [SFadd cond_Zopp].
    set (ez := Z.min ex ey).
    destruct (shl_align_spec mx ex ez) as (mx' & ex' & -> & _ & _ & _).
    destruct (shl_align_spec my ey ez) as (my' & ey' & -> & Hey' & _ & Hmy).
    cbn [fst].
    assert (Hez : ey' = ez) by (unfold ez in *; lia). subst ey'.
    assert (Hd : Zpos (digits2_pos my') <= Zdigits2 (Zpos mx' + Zpos my')).
    { change (Zpos (digits2_pos my')) with (Zdigits2 (Zpos my')).
      apply Zdigits2_le; lia. }
    destruct (binary_normalize_pos (Zpos mx' + Zpos my') ez false)
      as [H|(m' & e' & H & Hle)]; [lia|lia|left; exact H|right].
    exists m', e'. split; [exact H|lia].
Qed.

End SFFacts.

(** ** Primitive floats, through their specification *)

Module FloatFacts.

Import Rounding SFFacts.

Lemma Prim2SF_zero : Prim2SF 0 = S754_zero false.
Proof. reflexivity. Qed.

(** The magnitude of a valid float is above the least exponent. *)
Lemma valid_mag (s : bool) (m : positive) (e : Z) :
  valid_binary (S754_finite s m e) = true ->
  e = fexp (Zpos (digits2_pos m) + e) /\ -1073 <= Zpos (digits2_pos m) + e.
Proof.
  cbn [valid_binary]. unfold bounded, canonical_mantissa.
  intros H. apply andb_true_iff in H as [H _]. apply Z.eqb_eq in H.
  split; [lia|]. rewrite fexp_value in H. lia.
Qed.

Lemma gt0_mag (x : float) :
  (0 <? x)%float = true -> SF.mag_ge (-1073) (Prim2SF x).
Proof.
  intros H. rewrite FloatAxioms.ltb_spec, Prim2SF_zero in H. unfold SFltb in H.
  pose proof (Prim2SF_valid x) as Hv.
  destruct (Prim2SF x) as [s|[]| |[] m e]; cbn in H; try discriminate H.
  - left. reflexivity.
  - right. exists m, e. split; [reflexivity|]. apply (valid_mag false), Hv.
Qed.

Lemma mag_gt0 (k : Z) (x : float) :
  SF.mag_ge k (Prim2SF x) -> (0 <? x)%float = true.
Proof.
  intros H. rewrite FloatAxioms.ltb_spec, Prim2SF_zero. unfold SFltb.
  destruct H as [->|(m & e & -> & _)]; reflexivity.
Qed.

Lemma mag_eqb0 (k : Z) (x : float) :
  SF.mag_ge k (Prim2SF x) -> (x =? 0)%float = false.
Proof.
  intros H. rewrite FloatAxioms.eqb_spec, Prim2SF_zero. unfold SFeqb.
  destruct H as [->|(m & e & -> & _)]; reflexivity.
Qed.

Lemma gt0_eqb0 (x : float) : (0 <? x)%float = true -> (x =? 0)%float = false.
Proof. intros H. exact (mag_eqb0 _ _ (gt0_mag x H)). Qed.

(** A float of at least 2^-500 has magnitude at least -499. *)
Lemma threshold_mag (x : float) :
  (0x1p-500 <=? x)%float = true -> SF.mag_ge (-499) (Prim2SF x).
Proof.
  intros H. rewrite FloatAxioms.leb_spec in H.
  change (Prim2SF 0x1p-500) with (S754_finite false 4503599627370496 (-552)) in H.
  unfold SFleb in H. pose proof (Prim2SF_valid x) as Hv.
  destruct (Prim2SF x) as [s|[]| |[] m e]; cbn [SFcompare] in H; try discriminate H.
  - left. reflexivity.
  - right. exists m, e. split; [reflexivity|].
    destruct (valid_mag false m e Hv) as [He Hmag]. rewrite fexp_value in He.
    revert H.
    destruct (Z.compare_spec (-552) e) as [<-|Hlt|Hgt]; intros H;
      [|lia|discriminate H].
    assert (Hle : (4503599627370496 <= m)%positive).
    { unfold Pos.le. change (4503599627370496 ?= m)%positive
        with (Pos.compare_cont Eq 4503599627370496 m).
      destruct (Pos.compare_cont Eq 4503599627370496 m); [discriminate..|].
      discriminate H. }
    assert (Hd : Zdigits2 4503599627370496 <= Zdigits2 (Zpos m)).
    { apply Zdigits2_le; [lia|]. exact Hle. }
    cbn in Hd. lia.
Qed.

End FloatFacts.

(** ** The arithmetic of Python numbers *)

Module PyFacts.

Import Rounding SFFacts FloatFacts.

(** [float(z)] is the rounded integer, unless the rounding overflows. *)
Lemma float_of_int_cases (z : Z) :
  Py.float_of_int z = Raise OverflowError
  \/ exists f, Py.float_of_int z = Return f
               /\ Prim2SF f = binary_normalize prec emax z 0 false.
Proof.
  unfold Py.float_of_int.
  pose proof (binary_normalize_valid z 0 false) as Hv.
  destruct (binary_normalize prec emax z 0 false) as [s|s| |s m e] eqn:E;
    [right|left; reflexivity|right|right];
    (eexists; split; [reflexivity|apply Prim2SF_SF2Prim, Hv]).
Qed.

Lemma float_of_int_pos (z : Z) (f : float) :
  0 < z -> Py.float_of_int z = Return f -> SF.mag_ge (Zdigits2 z) (Prim2SF f).
Proof.
  intros Hz Hf.
  destruct (float_of_int_cases z) as [E|(f' & E & Hsf)]; [congruence|].
  assert (f' = f) as -> by congruence. rewrite Hsf.
  pose proof (Zdigits2_pos z Hz) as Hd.
  destruct (binary_normalize_pos z 0 false Hz) as [H|(m & e & H & Hle)]; [lia|left|right].
  - exact H.
  - exists m, e. split; [exact H|lia].
Qed.

(** A number that compares greater than zero converts to a positive
    float. *)
Lemma to_float_gt0 (y : num) (f : float) :
  Py.gt0 y = true -> Py.to_float y = Return f -> SF.mag_ge (-1073) (Prim2SF f).
Proof.
  destruct y as [z|g]; cbn [Py.gt0 Py.to_float]; intros Hpos Hf.
  - apply Z.ltb_lt in Hpos. pose proof (Zdigits2_pos z Hpos).
    apply mag_ge_weaken with (a := Zdigits2 z); [lia|].
    apply float_of_int_pos; assumption.
  - injection Hf as <-. apply gt0_mag, Hpos.
Qed.

(** *** No division by zero *)

Lemma bind_not_raises {A B : Type} (r : result A) (k : A -> result B) (e : exn) :
  ~ raises r e -> (forall a, r = Return a -> ~ raises (k a) e) ->
  ~ raises (bind r k) e.
Proof.
  unfold raises. intros Hr Hk. destruct r as [a|e']; cbn [bind].
  - apply Hk. reflexivity.
  - intros E. apply Hr. congruence.
Qed.

Lemma float_of_int_not_zde (z : Z) : ~ raises (Py.float_of_int z) ZeroDivisionError.
Proof.
  unfold raises. destruct (float_of_int_cases z) as [->|(f & -> & _)]; discriminate.
Qed.

Lemma to_float_not_zde (x : num) : ~ raises (Py.to_float x) ZeroDivisionError.
Proof.
  destruct x; cbn [Py.to_float]; [apply float_of_int_not_zde|discriminate].
Qed.

Lemma float_op_not_zde (op : float -> float -> float) (x y : num) :
  ~ raises (let* a := Py.to_float x in let* b := Py.to_float y in
            Return (PyFloat (op a b))) ZeroDivisionError.
Proof.
  apply bind_not_raises; [apply to_float_not_zde|]. intros a _.
  apply bind_not_raises; [apply to_float_not_zde|]. intros b _. discriminate.
Qed.

Lemma mul_not_zde (x y : num) : ~ raises (Py.mul x y) ZeroDivisionError.
Proof.
  destruct x, y; cbn [Py.mul]; try discriminate; apply float_op_not_zde.
Qed.

Lemma add_not_zde (x y : num) : ~ raises (Py.add x y) ZeroDivisionError.
Proof.
  destruct x, y; cbn [Py.add]; try discriminate; apply float_op_not_zde.
Qed.

Lemma pow2_not_zde (x : num) : ~ raises (Py.pow2 x) ZeroDivisionError.
Proof.
  destruct x as [z|f]; cbn [Py.pow2]; [discriminate|].
  destruct (is_nan f); [discriminate|]. destruct (is_infinity f); [discriminate|].
  destruct (is_infinity (f * f)); discriminate.
Qed.

Lemma int_true_divide_not_zde (a b : Z) :
  b <> 0 -> ~ raises (Py.int_true_divide a b) ZeroDivisionError.
Proof.
  intros Hb. unfold Py.int_true_divide, raises.
  destruct (Z.eqb_spec b 0) as [E|_]; [contradiction|].
  destruct (Z.abs a); [discriminate| |discriminate].
  destruct (Z.abs b); [discriminate| |discriminate].
  destruct (SFdiv prec emax _ _); discriminate.
Qed.

(** A division by a number that compares greater than zero does not raise
    [ZeroDivisionError]. *)
Lemma truediv_not_zde (x y : num) :
  Py.gt0 y = true -> ~ raises (Py.truediv x y) ZeroDivisionError.
Proof.
  intros Hy.
  assert (Hfloat : ~ raises (let* a := Py.to_float x in let* b := Py.to_float y in
                             if (b =? 0)%float then Raise ZeroDivisionError
                             else Return (PyFloat (a / b)%float)) ZeroDivisionError).
  { apply bind_not_raises; [apply to_float_not_zde|]. intros a _.
    apply bind_not_raises; [apply to_float_not_zde|]. intros b Hb.
    rewrite (mag_eqb0 _ _ (to_float_gt0 y b Hy Hb)). discriminate. }
  destruct x as [a|a], y as [b|b]; cbn [Py.truediv]; try exact Hfloat.
  apply bind_not_raises; [|discriminate].
  apply int_true_divide_not_zde. cbn in Hy. apply Z.ltb_lt in Hy. lia.
Qed.

(** *** Division by zero *)

Lemma to_float_eq0 (y : num) :
  Py.eq0 y = true -> exists f, Py.to_float y = Return f /\ (f =? 0)%float = true.
Proof.
  destruct y as [z|f]; cbn [Py.eq0 Py.to_float]; intros H.
  - apply Z.eqb_eq in H. subst z. exists 0%float. split; reflexivity.
  - exists f. split; [reflexivity|exact H].
Qed.

(** Dividing a float by a number that compares equal to zero raises
    [ZeroDivisionError]. *)
Lemma truediv_float_by_zero (x : float) (y : num) :
  Py.eq0 y = true -> Py.truediv (PyFloat x) y = Raise ZeroDivisionError.
Proof.
  intros Hy. destruct (to_float_eq0 y Hy) as (f & Hf & Hz).
  assert (E : Py.truediv (PyFloat x) y
              = let* b := Py.to_float y in
                if (b =? 0)%float then Raise ZeroDivisionError
                else Return (PyFloat (x / b)%float)) by (destruct y; reflexivity).
  rewrite E, Hf. cbn [bind]. rewrite Hz. reflexivity.
Qed.

(** A true division returns a float. *)
Lemma truediv_returns_float (x y r : num) :
  Py.truediv x y = Return r -> exists f, r = PyFloat f.
Proof.
  intros H.
  destruct x as [a|a], y as [b|b]; cbn [Py.truediv Py.to_float bind] in H;
    repeat match type of H with
           | context [bind ?c _] => destruct c; cbn [bind] in H
           | context [if ?c then _ else _] => destruct c
           end;
    try discriminate H; injection H as <-; eauto.
Qed.

(** *** Division of ints *)

Lemma SFdiv_finite_valid (sa sb : bool) (ma mb : positive) (ea eb : Z) :
  valid_binary (SFdiv prec emax (S754_finite sa ma ea) (S754_finite sb mb eb)) = true.
Proof.
  cbn [SFdiv].
  destruct (SFdiv_core_binary_spec ma mb ea eb) as (q & e' & l & -> & Hq & Hpre & _).
  apply binary_round_aux_valid; assumption.
Qed.

(** The quotient of two positive ints is a positive float. *)
Lemma int_true_divide_pos (a b : Z) (f : float) :
  0 < a -> 0 < b -> -1074 < Zdigits2 a - Zdigits2 b ->
  Py.int_true_divide a b = Return f ->
  SF.mag_ge (Zdigits2 a - Zdigits2 b) (Prim2SF f).
Proof.
  intros Ha Hb Hlow. unfold Py.int_true_divide.
  destruct (Z.eqb_spec b 0) as [E|_]; [lia|].
  destruct a as [|ma|ma]; try lia. destruct b as [|mb|mb]; try lia.
  change (Z.abs (Zpos ma)) with (Zpos ma). change (Z.abs (Zpos mb)) with (Zpos mb).
  change (Zpos ma <? 0) with false. change (Zpos mb <? 0) with false.
  cbn [Zdigits2 xorb] in *. cbv iota beta.
  pose proof (SFdiv_finite_valid false false ma mb 0 0) as Hv.
  pose proof (div_mag (Zpos (digits2_pos ma)) (S754_finite false ma 0) mb 0) as Hmag.
  replace (Zpos (digits2_pos mb) + 0) with (Zpos (digits2_pos mb)) in Hmag by lia.
  specialize (Hmag ltac:(right; exists ma, 0; split; [reflexivity|lia]) Hlow).
  destruct (SFdiv prec emax _ _) as [s|s| |s m e] eqn:E; intros Hf;
    try discriminate Hf; apply Return_inj in Hf; subst f;
    rewrite Prim2SF_SF2Prim by exact Hv; exact Hmag.
Qed.

End PyFacts.

(** ** Divisions *)

Section Divisions.

Import Rounding SFFacts FloatFacts PyFacts.

Lemma bind_Return_inv {A B : Type} (r : result A) (k : A -> result B) (b : B) :
  bind r k = Return b -> exists a, r = Return a /\ k a = Return b.
Proof. destruct r as [a|e]; cbn [bind]; [eauto|discriminate]. Qed.

Lemma bind_not_returns {A B : Type} (r : result A) (k : A -> result B) :
  (forall a, r = Return a -> ~ returns (k a)) -> ~ returns (bind r k).
Proof.
  intros Hk [b Hb]. apply bind_Return_inv in Hb as (a & Ha & Hb).
  apply (Hk a Ha). exists b. exact Hb.
Qed.

Lemma raises_not_returns {A : Type} (r : result A) (e : exn) :
  raises r e -> ~ returns r.
Proof. unfold raises. intros -> [a Ha]. discriminate Ha. Qed.

Lemma get_distance_not_zde (self : workout) :
  ~ raises (get_distance self) ZeroDivisionError.
Proof.
  unfold get_distance, Training.get_distance.
  apply bind_not_raises; [apply mul_not_zde|]. intros steps _.
  apply truediv_not_zde. reflexivity.
Qed.

Lemma get_distance_float (self : workout) (dist : num) :
  get_distance self = Return dist -> exists f, dist = PyFloat f.
Proof.
  unfold get_distance, Training.get_distance. intros H.
  apply bind_Return_inv in H as (steps & _ & H).
  exact (truediv_returns_float _ _ _ H).
Qed.

(** With a positive duration no division of [get_mean_speed] is by zero. *)
Lemma get_mean_speed_not_zde (self : workout) :
  Py.gt0 (duration self) = true ->
  ~ raises (get_mean_speed self) ZeroDivisionError.
Proof.
  intros Hd.
  assert (Hbase : ~ raises (Training.get_mean_speed self) ZeroDivisionError).
  { unfold Training.get_mean_speed.
    apply bind_not_raises; [apply get_distance_not_zde|]. intros dist _.
    apply truediv_not_zde, Hd. }
  destruct self as [n d w|n d w|n d w h|n d w l c]; try exact Hbase.
  unfold get_mean_speed, Swimming.get_mean_speed.
  cbn [__class__ length_pool count_pool duration bind Py.mul] in *.
  apply bind_not_raises; [apply truediv_not_zde; reflexivity|]. intros km _.
  apply truediv_not_zde, Hd.
Qed.

(** With a positive duration and a positive height no division of the
    walking calories is by zero. *)
Lemma walking_calories_not_zde (n : Z) (d w : num) (h : Z) :
  Py.gt0 d = true -> 0 < h ->
  ~ raises (get_spent_calories (mkSportsWalking n d w h)) ZeroDivisionError.
Proof.
  intros Hd Hh. unfold get_spent_calories. cbn [__class__].
  unfold SportsWalking.get_spent_calories. cbn [height weight duration].
  apply bind_not_raises; [apply get_mean_speed_not_zde, Hd|]. intros speed _.
  apply bind_not_raises; [apply mul_not_zde|]. intros avg_speed _. cbn [bind].
  apply bind_not_raises; [apply truediv_not_zde; reflexivity|]. intros height_in_m Hm.
  apply bind_not_raises; [apply mul_not_zde|]. intros by_weight _.
  apply bind_not_raises; [apply pow2_not_zde|]. intros squared _.
  apply bind_not_raises.
  { apply truediv_not_zde. unfold SportsWalking.SM_IN_M in Hm. cbn [Py.truediv] in Hm.
    apply bind_Return_inv in Hm as (q & Hq & Hm). apply Return_inj in Hm. subst.
    cbn [Py.gt0]. apply mag_gt0 with (k := Zdigits2 h - Zdigits2 100).
    pose proof (Zdigits2_pos h Hh) as Hdig.
    apply int_true_divide_pos; [exact Hh|lia|cbn; lia|exact Hq]. }
  intros ratio _.
  apply bind_not_raises; [apply mul_not_zde|]. intros scaled _.
  apply bind_not_raises; [apply mul_not_zde|]. intros by_speed _.
  apply bind_not_raises; [apply add_not_zde|]. intros per_minute _.
  apply bind_not_raises; [apply mul_not_zde|]. intros per_hour _.
  apply mul_not_zde.
Qed.

(** With a zero duration [get_mean_speed] divides by zero as soon as the
    dividend is there. *)
Lemma get_mean_speed_zero_duration (self : workout) (dist : num) :
  Py.eq0 (duration self) = true -> __class__ self <> Swimming ->
  get_distance self = Return dist ->
  raises (get_mean_speed self) ZeroDivisionError.
Proof.
  intros Hd Hc Hdist.
  assert (E : get_mean_speed self = Training.get_mean_speed self)
    by (destruct self; try reflexivity; contradiction Hc; reflexivity).
  unfold raises. rewrite E. unfold Training.get_mean_speed.
  change (Training.get_distance self) with (get_distance self). rewrite Hdist.
  destruct (get_distance_float self dist Hdist) as [f ->]. cbn [bind].
  apply truediv_float_by_zero, Hd.
Qed.

Lemma swimming_mean_speed_zero_duration (n : Z) (d w : num) (l c : Z) (km : num) :
  Py.eq0 d = true ->
  Py.truediv (PyInt (l * c)) M_IN_KM = Return km ->
  raises (get_mean_speed (mkSwimming n d w l c)) ZeroDivisionError.
Proof.
  intros Hd Hkm. unfold raises, get_mean_speed, Swimming.get_mean_speed.
  cbn [__class__ length_pool count_pool duration bind Py.mul].
  rewrite Hkm. destruct (truediv_returns_float _ _ _ Hkm) as [f ->]. cbn [bind].
  apply truediv_float_by_zero, Hd.
Qed.

Lemma get_mean_speed_never_returns (self : workout) :
  Py.eq0 (duration self) = true -> ~ returns (get_mean_speed self).
Proof.
  intros Hd.
  destruct self as [n d w|n d w|n d w h|n d w l c];
    unfold get_mean_speed; cbn [__class__].
  1-3: unfold Training.get_mean_speed; apply bind_not_returns; intros dist Hdist;
       destruct (get_distance_float _ dist Hdist) as [f ->];
       apply raises_not_returns with (e := ZeroDivisionError);
       apply truediv_float_by_zero, Hd.
  unfold Swimming.get_mean_speed. cbn [length_pool count_pool duration bind Py.mul] in *.
  apply bind_not_returns. intros km Hkm.
  destruct (truediv_returns_float _ _ _ Hkm) as [f ->].
  apply raises_not_returns with (e := ZeroDivisionError).
  apply truediv_float_by_zero, Hd.
Qed.

(** An exception of [get_mean_speed] leaves [show_training_info] and
    [main]. *)
Lemma mean_speed_fault_propagates (self : workout) (dist : num) (e : exn) :
  get_distance self = Return dist ->
  raises (get_mean_speed self) e ->
  raises (show_training_info self) e /\ raises (main self) e.
Proof.
  unfold raises, main, show_training_info. intros -> ->. split; reflexivity.
Qed.

Lemma show_training_info_needs_mean_speed (self : workout) :
  ~ returns (get_mean_speed self) ->
  ~ returns (show_training_info self) /\ ~ returns (main self).
Proof.
  intros H.
  assert (Hshow : ~ returns (show_training_info self)).
  { unfold show_training_info. apply bind_not_returns. intros dist _.
    intros [info Hinfo]. apply bind_Return_inv in Hinfo as (speed & Hs & _).
    apply H. exists speed. exact Hs. }
  split; [exact Hshow|].
  unfold main. intros [line Hline]. apply bind_Return_inv in Hline as (info & Hi & _).
  apply Hshow. exists info. exact Hi.
Qed.

Lemma get_mean_speed_float (self : workout) (speed : num) :
  get_mean_speed self = Return speed -> exists f, speed = PyFloat f.
Proof.
  destruct self as [n d w|n d w|n d w h|n d w l c];
    unfold get_mean_speed, Training.get_mean_speed, Swimming.get_mean_speed;
    cbn [__class__ length_pool count_pool duration bind Py.mul]; intros H;
    apply bind_Return_inv in H as (x & _ & H);
    exact (truediv_returns_float _ _ _ H).
Qed.

Lemma pow2_float (x : float) (r : num) :
  Py.pow2 (PyFloat x) = Return r -> exists f, r = PyFloat f.
Proof.
  cbn [Py.pow2]. destruct (is_nan x); [intros H; apply Return_inj in H; eauto|].
  destruct (is_infinity x); [intros H; apply Return_inj in H; eauto|].
  destruct (is_infinity (x * x)); [discriminate|].
  intros H; apply Return_inj in H; eauto.
Qed.

(** The square of the walking speed is a float. *)
Lemma walking_square_float (speed squared : num) :
  (exists f, speed = PyFloat f) ->
  (let* avg_speed := Py.mul speed SportsWalking.KM_H_IN_M_S in Py.pow2 avg_speed)
    = Return squared ->
  exists avg_speed f,
    Py.mul speed SportsWalking.KM_H_IN_M_S = Return avg_speed
    /\ Py.pow2 avg_speed = Return (PyFloat f) /\ squared = PyFloat f.
Proof.
  intros [s ->] H. apply bind_Return_inv in H as (avg & Havg & Hsq).
  cbn in Havg. apply Return_inj in Havg. subst avg.
  destruct (pow2_float _ _ Hsq) as [f ->]. eauto.
Qed.

(** With a zero height the walking calories divide by zero as soon as the
    dividend is there. *)
Lemma walking_calories_zero_height (n : Z) (d w speed by_weight squared : num) :
  get_mean_speed (mkSportsWalking n d w 0) = Return speed ->
  Py.mul SportsWalking.WEIGHT_MULTIPLAYER w = Return by_weight ->
  (let* avg_speed := Py.mul speed SportsWalking.KM_H_IN_M_S in Py.pow2 avg_speed)
    = Return squared ->
  raises (get_spent_calories (mkSportsWalking n d w 0)) ZeroDivisionError.
Proof.
  intros Hspeed Hbw Hsq.
  destruct (walking_square_float speed squared (get_mean_speed_float _ _ Hspeed) Hsq)
    as (avg & f & Havg & Hpow & ->).
  unfold raises, get_spent_calories. cbn [__class__].
  unfold SportsWalking.get_spent_calories. cbn [height weight duration].
  rewrite Hspeed. cbn [bind]. rewrite Havg. cbn [bind].
  change (Py.truediv (PyInt 0) SportsWalking.SM_IN_M) with (Return (PyFloat 0)).
  cbn [bind]. rewrite Hbw. cbn [bind]. rewrite Hpow. cbn [bind].
  rewrite truediv_float_by_zero by reflexivity. reflexivity.
Qed.

Lemma walking_calories_zero_height_never_returns (n : Z) (d w : num) :
  ~ returns (get_spent_calories (mkSportsWalking n d w 0)).
Proof.
  unfold get_spent_calories. cbn [__class__].
  unfold SportsWalking.get_spent_calories. cbn [height weight duration].
  apply bind_not_returns. intros speed Hspeed.
  destruct (get_mean_speed_float _ _ Hspeed) as [s ->].
  apply bind_not_returns. intros avg Havg. cbn in Havg. apply Return_inj in Havg.
  subst avg. cbn [bind].
  change (Py.truediv (PyInt 0) SportsWalking.SM_IN_M) with (Return (PyFloat 0)).
  cbn [bind].
  apply bind_not_returns. intros by_weight _.
  apply bind_not_returns. intros squared Hsq.
  destruct (pow2_float _ _ Hsq) as [f ->].
  rewrite truediv_float_by_zero by reflexivity. cbn [bind].
  apply raises_not_returns with (e := ZeroDivisionError). reflexivity.
Qed.

(** An exception of [get_spent_calories] leaves [show_training_info] and
    [main]. *)
Lemma calories_fault_propagates (self : workout) (speed : num) (e : exn) :
  get_mean_speed self = Return speed ->
  returns (get_distance self) ->
  raises (get_spent_calories self) e ->
  raises (show_training_info self) e /\ raises (main self) e.
Proof.
  unfold raises, main, show_training_info. intros -> [dist ->] ->.
  split; reflexivity.
Qed.

Lemma walking_distance_returns (n : Z) (d w : num) (h : Z) (speed : num) :
  get_mean_speed (mkSportsWalking n d w h) = Return speed ->
  returns (get_distance (mkSportsWalking n d w h)).
Proof.
  unfold get_mean_speed, Training.get_mean_speed. cbn [__class__]. intros H.
  apply bind_Return_inv in H as (dist & Hdist & _). exists dist. exact Hdist.
Qed.

End Divisions.

(** C9: the divisions are unguarded.  With a duration greater than zero
    (and, for Walking, a height greater than zero) no division of
    [get_mean_speed] or of Walking's [get_spent_calories] is by zero.  With
    a duration equal to zero, or a height equal to zero, nothing detects the
    condition: the methods never return, the division raises
    [ZeroDivisionError] as soon as its dividend is computed, and the
    exception leaves [show_training_info] and [main]. *)
Theorem divisions_unguarded :
  (forall self : workout,
      Py.gt0 (duration self) = true ->
      ~ raises (get_mean_speed self) ZeroDivisionError)
  /\ (forall (n : Z) (d w : num) (h : Z),
        Py.gt0 d = true -> 0 < h ->
        ~ raises (get_spent_calories (mkSportsWalking n d w h)) ZeroDivisionError)
  /\ (forall self : workout,
        Py.eq0 (duration self) = true ->
        ~ returns (get_mean_speed self)
        /\ ~ returns (show_training_info self)
        /\ ~ returns (main self))
  /\ (forall (self : workout) (dist : num),
        Py.eq0 (duration self) = true -> __class__ self <> Swimming ->
        get_distance self = Return dist ->
        raises (get_mean_speed self) ZeroDivisionError
        /\ raises (show_training_info self) ZeroDivisionError
        /\ raises (main self) ZeroDivisionError)
  /\ (forall (n : Z) (d w : num) (l c : Z) (dist km : num),
        Py.eq0 d = true ->
        get_distance (mkSwimming n d w l c) = Return dist ->
        Py.truediv (PyInt (l * c)) M_IN_KM = Return km ->
        raises (get_mean_speed (mkSwimming n d w l c)) ZeroDivisionError
        /\ raises (show_training_info (mkSwimming n d w l c)) ZeroDivisionError
        /\ raises (main (mkSwimming n d w l c)) ZeroDivisionError)
  /\ (forall (n : Z) (d w : num),
        ~ returns (get_spent_calories (mkSportsWalking n d w 0)))
  /\ (forall (n : Z) (d w speed by_weight squared : num),
        get_mean_speed (mkSportsWalking n d w 0) = Return speed ->
        Py.mul SportsWalking.WEIGHT_MULTIPLAYER w = Return by_weight ->
        (let* avg_speed := Py.mul speed SportsWalking.KM_H_IN_M_S in Py.pow2 avg_speed)
          = Return squared ->
        raises (get_spent_calories (mkSportsWalking n d w 0)) ZeroDivisionError
        /\ raises (show_training_info (mkSportsWalking n d w 0)) ZeroDivisionError
        /\ raises (main (mkSportsWalking n d w 0)) ZeroDivisionError).
Proof.
  split; [exact get_mean_speed_not_zde|].
  split; [exact walking_calories_not_zde|].
  split.
  { intros self Hd. pose proof (get_mean_speed_never_returns self Hd) as H.
    split; [exact H|]. apply show_training_info_needs_mean_speed, H. }
  split.
  { intros self dist Hd Hc Hdist.
    pose proof (get_mean_speed_zero_duration self dist Hd Hc Hdist) as H.
    split; [exact H|]. exact (mean_speed_fault_propagates self dist _ Hdist H). }
  split.
  { intros n d w l c dist km Hd Hdist Hkm.
    pose proof (swimming_mean_speed_zero_duration n d w l c km Hd Hkm) as H.
    split; [exact H|]. exact (mean_speed_fault_propagates _ dist _ Hdist H). }
  split; [exact walking_calories_zero_height_never_returns|].
  intros n d w speed by_weight squared Hspeed Hbw Hsq.
  pose proof (walking_calories_zero_height n d w speed by_weight squared Hspeed Hbw Hsq) as H.
  split; [exact H|].
  exact (calories_fault_propagates _ speed _ Hspeed
           (walking_distance_returns n d w 0 speed Hspeed) H).
Qed.

Lemma divisions_unguarded_witness :
  ~ raises (get_mean_speed (mkRunning 15000 (PyInt 1) (PyInt 75))) ZeroDivisionError
  /\ ~ raises (get_spent_calories (mkSportsWalking 9000 (PyInt 1) (PyInt 75) 180))
         ZeroDivisionError
  /\ raises (main (mkRunning 15000 (PyInt 0) (PyInt 75))) ZeroDivisionError
  /\ raises (main (mkSwimming 720 (PyFloat 0) (PyInt 80) 25 40)) ZeroDivisionError
  /\ raises (main (mkSportsWalking 9000 (PyInt 1) (PyInt 75) 0)) ZeroDivisionError.
Proof.
  destruct divisions_unguarded as (Hspeed & Hwalk & _ & Hzero & Hswim & _ & Hheight).
  split; [apply Hspeed; reflexivity|].
  split; [apply Hwalk; [reflexivity|lia]|].
  split.
  { edestruct (Hzero (mkRunning 15000 (PyInt 0) (PyInt 75))) as (_ & _ & H);
      [reflexivity|discriminate|vm_compute; reflexivity|exact H]. }
  split.
  { edestruct (Hswim 720 (PyFloat 0) (PyInt 80) 25 40) as (_ & _ & H);
      [reflexivity|vm_compute; reflexivity|vm_compute; reflexivity|exact H]. }
  edestruct (Hheight 9000 (PyInt 1) (PyInt 75)) as (_ & _ & H);
    [vm_compute; reflexivity|vm_compute; reflexivity|vm_compute; reflexivity|exact H].
Defined.

(** ** The sign of the running calories *)

Section RunningSign.

Import Rounding SFFacts FloatFacts PyFacts.

(** The value of the running formula on a positive speed [s], a weight
    [wf] of magnitude at least [kw] and a minute count [mf] of magnitude at
    least [km]. *)
Lemma running_value_sign (s wf mf : float) (kw km : Z) :
  SF.mag_ge (-1073) (Prim2SF s) ->
  -1074 < kw -> SF.mag_ge kw (Prim2SF wf) -> SF.mag_ge km (Prim2SF mf) ->
  SF.nonneg_or_nan (Prim2SF ((18 * s + 1.79) * wf / 1000 * mf)%float)
  /\ (-1074 < kw - 10 -> -1074 < kw + km - 11 ->
      SF.mag_ge (kw + km - 11) (Prim2SF ((18 * s + 1.79) * wf / 1000 * mf)%float)).
Proof.
  intros Hs Hkw Hw Hm.
  assert (Hscaled : SF.mag_ge (-1069) (Prim2SF (18 * s)%float)).
  { rewrite mul_spec.
    change (Prim2SF 18) with (S754_finite false 5066549580791808 (-48)).
    apply (mul_mag 5 (-1073)); [|exact Hs|lia].
    right. eexists _, _. split; [reflexivity|]. cbn. lia. }
  assert (Hshifted : SF.mag_ge 1 (Prim2SF (18 * s + 1.79)%float)).
  { rewrite add_spec. apply add_mag; [exact (mag_ge_nonneg _ _ Hscaled)| |lia].
    change (Prim2SF 1.79) with (S754_finite false 8061443332993188 (-52)).
    right. eexists _, _. split; [reflexivity|]. cbn. lia. }
  assert (Hbw : SF.mag_ge kw (Prim2SF ((18 * s + 1.79) * wf)%float)).
  { rewrite mul_spec. replace kw with (1 + kw - 1) at 1 by lia.
    apply mul_mag; [exact Hshifted|exact Hw|lia]. }
  assert (E1000 : Prim2SF 1000 = S754_finite false 8796093022208000 (-43))
    by reflexivity.
  assert (Hd1000 : Zpos (digits2_pos 8796093022208000) + -43 = 10) by reflexivity.
  split.
  - rewrite mul_spec, div_spec, E1000.
    apply mul_nonneg with (b := km); [|exact Hm].
    apply div_nonneg. exact (mag_ge_nonneg _ _ Hbw).
  - intros Hlow1 Hlow2.
    rewrite mul_spec, div_spec, E1000.
    replace (kw + km - 11) with ((kw - 10) + km - 1) by lia.
    apply mul_mag; [|exact Hm|lia].
    rewrite <- Hd1000. apply div_mag; [exact Hbw|rewrite Hd1000; lia].
Qed.

(** A float that is zero, positive or NaN on its specification. *)
Lemma nonneg_or_nan_cases (x : float) :
  SF.nonneg_or_nan (Prim2SF x) ->
  (0 <? x)%float = true \/ x = 0%float \/ x = nan.
Proof.
  intros [H|[H|H]].
  - right. right. rewrite <- (SF2Prim_Prim2SF x), H. reflexivity.
  - right. left. rewrite <- (SF2Prim_Prim2SF x), H. reflexivity.
  - left. destruct H as [H|(m & e & H)].
    + apply (mag_gt0 0). left. exact H.
    + apply (mag_gt0 (Zpos (digits2_pos m) + e)). right.
      exists m, e. split; [exact H|lia].
Qed.

Lemma mul_float_l (a : float) (y : num) :
  Py.mul (PyFloat a) y = let* b := Py.to_float y in Return (PyFloat (a * b)%float).
Proof. destruct y; reflexivity. Qed.

(** The running calories, once the mean speed is known to be the float
    [s]: the weight and the minute count are converted to floats, in this
    order, and the formula is evaluated on floats. *)
Lemma running_calories_value (n : Z) (d w : num) (s : float) :
  get_mean_speed (mkRunning n d w) = Return (PyFloat s) ->
  get_spent_calories (mkRunning n d w)
  = let* minutes := Py.mul d MINUTES_IN_HOUR in
    let* wf := Py.to_float w in
    let* mf := Py.to_float minutes in
    Return (PyFloat ((18 * s + 1.79) * wf / 1000 * mf)%float).
Proof.
  intros Hs. unfold get_spent_calories. cbn [__class__].
  unfold Running.get_spent_calories. cbn [duration weight].
  rewrite Hs. destruct (Py.mul d MINUTES_IN_HOUR) as [minutes|e]; [|reflexivity].
  cbn [bind].
  change (Py.mul Running.CALORIES_MEAN_SPEED_MULTIPLIER (PyFloat s))
    with (Return (PyFloat (18 * s)%float)).
  cbn [bind].
  change (Py.add (PyFloat (18 * s)%float) Running.CALORIES_MEAN_SPEED_SHIFT)
    with (Return (PyFloat (18 * s + 1.79)%float)).
  cbn [bind]. rewrite mul_float_l.
  destruct (Py.to_float w) as [wf|e]; [|reflexivity]. cbn [bind].
  change (Py.truediv (PyFloat ((18 * s + 1.79) * wf)%float) M_IN_KM)
    with (Return (PyFloat ((18 * s + 1.79) * wf / 1000)%float)).
  cbn [bind]. rewrite mul_float_l. reflexivity.
Qed.

Lemma weight_mag (w : num) (wf : float) :
  Py.to_float w = Return wf -> Py.gt0 w = true ->
  SF.mag_ge (-1073) (Prim2SF wf)
  /\ (well_above_zero w = true -> SF.mag_ge (-499) (Prim2SF wf)).
Proof.
  intros Hwf Hpos. split; [exact (to_float_gt0 w wf Hpos Hwf)|].
  destruct w as [z|f]; cbn [well_above_zero Py.to_float Py.gt0] in *; intros H.
  - apply Z.ltb_lt in H. pose proof (Zdigits2_pos z H).
    apply mag_ge_weaken with (a := Zdigits2 z); [lia|].
    apply float_of_int_pos; assumption.
  - apply Return_inj in Hwf. subst wf. apply threshold_mag, H.
Qed.

Lemma minutes_mag (d minutes : num) (mf : float) :
  Py.mul d MINUTES_IN_HOUR = Return minutes -> Py.to_float minutes = Return mf ->
  Py.gt0 d = true ->
  SF.mag_ge (-1068) (Prim2SF mf)
  /\ (well_above_zero d = true -> SF.mag_ge (-494) (Prim2SF mf)).
Proof.
  intros Hmin Hmf Hpos.
  assert (E60 : Prim2SF 60 = S754_finite false 8444249301319680 (-47)) by reflexivity.
  assert (H60 : SF.mag_ge 6 (Prim2SF 60)).
  { rewrite E60. right. eexists _, _. split; [reflexivity|]. cbn. lia. }
  destruct d as [z|f]; cbn [well_above_zero Py.gt0] in *.
  - cbn in Hmin. apply Return_inj in Hmin. subst minutes. cbn [Py.to_float] in Hmf.
    apply Z.ltb_lt in Hpos.
    assert (Hbig : SF.mag_ge 6 (Prim2SF mf)).
    { apply mag_ge_weaken with (a := Zdigits2 (z * 60)).
      - rewrite Zdigits2_log2 by lia.
        assert (5 <= Z.log2 (z * 60)) by (apply Z.log2_le_pow2; lia). lia.
      - apply float_of_int_pos; [lia|exact Hmf]. }
    split; [|intros _]; apply mag_ge_weaken with (a := 6); (lia || exact Hbig).
  - assert (E : minutes = PyFloat (f * 60)%float).
    { unfold MINUTES_IN_HOUR in Hmin.
      change (Py.mul (PyFloat f) (PyInt 60)) with (Return (PyFloat (f * 60)%float)) in Hmin.
      apply Return_inj in Hmin. congruence. }
    subst minutes. cbn [Py.to_float] in Hmf. apply Return_inj in Hmf. subst mf.
    rewrite mul_spec. split.
    + replace (-1068) with (-1073 + 6 - 1) by lia.
      apply mul_mag; [apply gt0_mag, Hpos|exact H60|lia].
    + intros Hbig. replace (-494) with (-499 + 6 - 1) by lia.
      apply mul_mag; [apply threshold_mag, Hbig|exact H60|lia].
Qed.

End RunningSign.

(** C8, as stated, fails: for 15000 steps in 1 hour and the weight 5e-324,
    the least positive float, the mean speed 9.75 and the weight are
    positive, and the calories underflow to 0.0. *)
Lemma running_calories_underflow :
  Py.gt0 (PyInt 1) = true
  /\ get_mean_speed (mkRunning 15000 (PyInt 1) (PyFloat 5e-324)) = Return (PyFloat 9.75)
  /\ Py.gt0 (PyFloat 9.75) = true
  /\ Py.gt0 (PyFloat 5e-324) = true
  /\ get_spent_calories (mkRunning 15000 (PyInt 1) (PyFloat 5e-324)) = Return (PyFloat 0)
  /\ ~ exists c : num,
         get_spent_calories (mkRunning 15000 (PyInt 1) (PyFloat 5e-324)) = Return c
         /\ Py.gt0 c = true.
Proof.
  assert (Hc : get_spent_calories (mkRunning 15000 (PyInt 1) (PyFloat 5e-324))
               = Return (PyFloat 0)) by (vm_compute; reflexivity).
  repeat split; try (vm_compute; reflexivity).
  intros (c & Hret & Hpos). rewrite Hc in Hret. apply Return_inj in Hret. subst c.
  vm_compute in Hpos. discriminate Hpos.
Qed.

(** C8, amended: for every valid Running record (duration greater than
    zero) with [get_mean_speed() > 0] and [weight > 0], a value that
    [get_spent_calories] returns is never negative: it is greater than zero,
    or it is 0.0 or NaN after an underflow.  It is strictly greater than
    zero whenever the weight and the duration are positive ints or floats of
    at least 2^-500.  [get_spent_calories] returns whenever the weight and
    the minute count convert to floats. *)
Theorem running_calories_sign (n : Z) (d w speed : num) :
  Py.gt0 d = true ->
  get_mean_speed (mkRunning n d w) = Return speed ->
  Py.gt0 speed = true ->
  Py.gt0 w = true ->
  (forall c : num,
      get_spent_calories (mkRunning n d w) = Return c ->
      exists x : float,
        c = PyFloat x
        /\ ((0 <? x)%float = true \/ x = 0%float \/ x = nan)
        /\ (well_above_zero w = true -> well_above_zero d = true ->
            Py.gt0 c = true))
  /\ (forall (minutes : num),
        Py.mul d MINUTES_IN_HOUR = Return minutes ->
        returns (Py.to_float w) -> returns (Py.to_float minutes) ->
        returns (get_spent_calories (mkRunning n d w))).
Proof.
  intros Hd Hspeed Hpos Hw.
  destruct (get_mean_speed_float _ _ Hspeed) as [s ->].
  pose proof (running_calories_value n d w s Hspeed) as Hval.
  cbn [Py.gt0] in Hpos. apply FloatFacts.gt0_mag in Hpos.
  split.
  - intros c Hc. rewrite Hval in Hc.
    apply bind_Return_inv in Hc as (minutes & Hmin & Hc).
    apply bind_Return_inv in Hc as (wf & Hwf & Hc).
    apply bind_Return_inv in Hc as (mf & Hmf & Hc).
    apply Return_inj in Hc. subst c.
    destruct (weight_mag w wf Hwf Hw) as [Hw1 Hw2].
    destruct (minutes_mag d minutes mf Hmin Hmf Hd) as [Hm1 Hm2].
    eexists. split; [reflexivity|]. split.
    + apply nonneg_or_nan_cases.
      apply (running_value_sign s wf mf (-1073) (-1068)); [exact Hpos|lia|exact Hw1|exact Hm1].
    + intros Hwbig Hdbig. cbn [Py.gt0].
      apply (FloatFacts.mag_gt0 (-499 + -494 - 11)).
      apply (running_value_sign s wf mf (-499) (-494));
        [exact Hpos|lia|exact (Hw2 Hwbig)|exact (Hm2 Hdbig)|lia|lia].
  - intros minutes Hmin [wf Hwf] [mf Hmf].
    exists (PyFloat ((18 * s + 1.79) * wf / 1000 * mf)%float).
    rewrite Hval, Hmin. cbn [bind]. rewrite Hwf. cbn [bind]. rewrite Hmf. reflexivity.
Qed.

Lemma running_calories_sign_witness :
  exists x : float,
    get_spent_calories (mkRunning 15000 (PyInt 1) (PyInt 75)) = Return (PyFloat x)
    /\ Py.gt0 (PyFloat x) = true.
Proof.
  exists 797.805%float. split; [vm_compute; reflexivity|].
  assert (H1 : Py.gt0 (PyInt 1) = true) by reflexivity.
  assert (H2 : get_mean_speed (mkRunning 15000 (PyInt 1) (PyInt 75))
               = Return (PyFloat 9.75)) by (vm_compute; reflexivity).
  assert (H3 : Py.gt0 (PyFloat 9.75) = true) by reflexivity.
  assert (H4 : Py.gt0 (PyInt 75) = true) by reflexivity.
  destruct (proj1 (running_calories_sign 15000 (PyInt 1) (PyInt 75) (PyFloat 9.75)
                     H1 H2 H3 H4) (PyFloat 797.805))
    as (x & Hx & _ & Hgt); [vm_compute; reflexivity|].
  apply Hgt; reflexivity.
Defined.

(** The other outcomes of the amended C8 do occur: a NaN, when the quotient
    underflows to zero and the minute count is infinite, and an
    [OverflowError], when the weight or the minute count is an int beyond
    the floats. *)
Example running_calories_nan_and_overflow :
  get_spent_calories (mkRunning (10 ^ 300) (PyFloat 1e308) (PyFloat 5e-324))
    = Return (PyFloat nan)
  /\ get_spent_calories (mkRunning 15000 (PyInt 1) (PyInt (10 ^ 400)))
     = Raise OverflowError
  /\ get_spent_calories (mkRunning (10 ^ 308) (PyInt (10 ^ 308)) (PyInt 75))
     = Raise OverflowError.
Proof. repeat split; vm_compute; reflexivity. Qed.

(** ** Outcomes of the methods

    Which exceptions can leave each method, and what kind of number it
    returns. *)

Section Outcomes.

Import Rounding SFFacts FloatFacts PyFacts.

Lemma bind_Raise_inv {A B : Type} (r : result A) (k : A -> result B) (e : exn) :
  bind r k = Raise e -> r = Raise e \/ exists a, r = Return a /\ k a = Raise e.
Proof. destruct r as [a|e']; cbn [bind]; intros H; [right; eauto|left; injection H as ->; reflexivity]. Qed.

Lemma raises_only_bind {A B : Type} (P : exn -> Prop) (r : result A) (k : A -> result B) :
  raises_only P r -> (forall a, r = Return a -> raises_only P (k a)) ->
  raises_only P (bind r k).
Proof.
  intros Hr Hk e H. apply bind_Raise_inv in H as [H|(a & Ha & H)].
  - exact (Hr e H).
  - exact (Hk a Ha e H).
Qed.

Lemma raises_only_weaken {A : Type} (P Q : exn -> Prop) (r : result A) :
  (forall e, P e -> Q e) -> raises_only P r -> raises_only Q r.
Proof. intros HPQ Hr e H. apply HPQ, Hr, H. Qed.

Lemma raises_only_Return {A : Type} (P : exn -> Prop) (a : A) : raises_only P (Return a).
Proof. intros e H. discriminate H. Qed.

Lemma overflow_arithmetic {A : Type} (r : result A) :
  raises_only overflow_error r -> raises_only arithmetic_error r.
Proof. apply raises_only_weaken. intros e ->. right. reflexivity. Qed.

(** *** The operators *)

Lemma float_of_int_overflow (z : Z) : raises_only overflow_error (Py.float_of_int z).
Proof.
  intros e H. destruct (float_of_int_cases z) as [E|(f & E & _)]; rewrite E in H.
  - injection H as <-. reflexivity.
  - discriminate H.
Qed.

Lemma to_float_overflow (x : num) : raises_only overflow_error (Py.to_float x).
Proof.
  destruct x; cbn [Py.to_float]; [apply float_of_int_overflow|apply raises_only_Return].
Qed.

Lemma float_op_overflow (op : float -> float -> float) (x y : num) :
  raises_only overflow_error
    (let* a := Py.to_float x in let* b := Py.to_float y in Return (PyFloat (op a b))).
Proof.
  apply raises_only_bind; [apply to_float_overflow|]. intros a _.
  apply raises_only_bind; [apply to_float_overflow|]. intros b _.
  apply raises_only_Return.
Qed.

Lemma mul_overflow (x y : num) : raises_only overflow_error (Py.mul x y).
Proof.
  destruct x, y; cbn [Py.mul]; try apply raises_only_Return; apply float_op_overflow.
Qed.

Lemma add_overflow (x y : num) : raises_only overflow_error (Py.add x y).
Proof.
  destruct x, y; cbn [Py.add]; try apply raises_only_Return; apply float_op_overflow.
Qed.

Lemma pow2_overflow (x : num) : raises_only overflow_error (Py.pow2 x).
Proof.
  destruct x as [z|f]; cbn [Py.pow2]; [apply raises_only_Return|].
  destruct (is_nan f); [apply raises_only_Return|].
  destruct (is_infinity f); [apply raises_only_Return|].
  destruct (is_infinity (f * f)); [|apply raises_only_Return].
  intros e H. injection H as <-. reflexivity.
Qed.

Lemma int_true_divide_arithmetic (a b : Z) :
  raises_only arithmetic_error (Py.int_true_divide a b).
Proof.
  unfold Py.int_true_divide. intros e.
  destruct (b =? 0); [intros H; injection H as <-; left; reflexivity|].
  destruct (Z.abs a); [discriminate| |discriminate].
  destruct (Z.abs b); [discriminate| |discriminate].
  destruct (SFdiv prec emax _ _); try discriminate.
  intros H; injection H as <-; right; reflexivity.
Qed.

Lemma truediv_arithmetic (x y : num) : raises_only arithmetic_error (Py.truediv x y).
Proof.
  assert (Hfloat : raises_only arithmetic_error
                     (let* a := Py.to_float x in let* b := Py.to_float y in
                      if (b =? 0)%float then Raise ZeroDivisionError
                      else Return (PyFloat (a / b)%float))).
  { apply raises_only_bind; [apply overflow_arithmetic, to_float_overflow|]. intros a _.
    apply raises_only_bind; [apply overflow_arithmetic, to_float_overflow|]. intros b _.
    destruct (b =? 0)%float; [|apply raises_only_Return].
    intros e H. injection H as <-. left. reflexivity. }
  destruct x as [a|a], y as [b|b]; cbn [Py.truediv]; try exact Hfloat.
  apply raises_only_bind; [apply int_true_divide_arithmetic|]. intros q _.
  apply raises_only_Return.
Qed.

Lemma mul_arithmetic (x y : num) : raises_only arithmetic_error (Py.mul x y).
Proof. apply overflow_arithmetic, mul_overflow. Qed.

Lemma add_arithmetic (x y : num) : raises_only arithmetic_error (Py.add x y).
Proof. apply overflow_arithmetic, add_overflow. Qed.

Lemma pow2_arithmetic (x : num) : raises_only arithmetic_error (Py.pow2 x).
Proof. apply overflow_arithmetic, pow2_overflow. Qed.

(** One step through a chain of operators. *)
Ltac arithmetic_chain :=
  repeat first
    [ apply mul_arithmetic | apply add_arithmetic | apply pow2_arithmetic
    | apply truediv_arithmetic | apply raises_only_Return
    | apply raises_only_bind; [|intros ? _] ].

(** A float operand makes the result a float. *)
Lemma mul_returns_float (x y r : num) :
  (exists f, x = PyFloat f) \/ (exists f, y = PyFloat f) ->
  Py.mul x y = Return r -> exists f, r = PyFloat f.
Proof.
  intros Hxy H.
  destruct x as [a|a], y as [b|b];
    [destruct Hxy as [[f E]|[f E]]; discriminate E|..];
    cbn [Py.mul Py.to_float bind] in H;
    repeat match type of H with
           | context [bind ?c _] => destruct c; cbn [bind] in H
           end;
    try discriminate H; injection H as <-; eauto.
Qed.

Lemma add_returns_float (x y r : num) :
  (exists f, x = PyFloat f) \/ (exists f, y = PyFloat f) ->
  Py.add x y = Return r -> exists f, r = PyFloat f.
Proof.
  intros Hxy H.
  destruct x as [a|a], y as [b|b];
    [destruct Hxy as [[f E]|[f E]]; discriminate E|..];
    cbn [Py.add Py.to_float bind] in H;
    repeat match type of H with
           | context [bind ?c _] => destruct c; cbn [bind] in H
           end;
    try discriminate H; injection H as <-; eauto.
Qed.

(** *** The methods *)

Lemma LEN_STEP_float (self : workout) : exists f, LEN_STEP self = PyFloat f.
Proof. unfold LEN_STEP. destruct (__class__ self); eauto. Qed.

(** The distance fails only where the action count does not convert. *)
Lemma get_distance_overflow (self : workout) :
  raises_only overflow_error (get_distance self).
Proof.
  unfold get_distance, Training.get_distance.
  apply raises_only_bind; [apply mul_overflow|]. intros steps Hsteps.
  destruct (mul_returns_float _ _ _ (or_intror (LEN_STEP_float self)) Hsteps) as [f ->].
  change (Py.truediv (PyFloat f) M_IN_KM) with (Return (PyFloat (f / 1000)%float)).
  apply raises_only_Return.
Qed.

Lemma get_mean_speed_arithmetic (self : workout) :
  raises_only arithmetic_error (get_mean_speed self).
Proof.
  assert (Hbase : raises_only arithmetic_error (Training.get_mean_speed self)).
  { unfold Training.get_mean_speed.
    apply raises_only_bind; [apply overflow_arithmetic, get_distance_overflow|].
    intros dist _. apply truediv_arithmetic. }
  destruct self as [n d w|n d w|n d w h|n d w l c]; try exact Hbase.
  unfold get_mean_speed, Swimming.get_mean_speed.
  cbn [__class__ length_pool count_pool duration bind Py.mul].
  arithmetic_chain.
Qed.

Lemma get_spent_calories_arithmetic (self : workout) :
  __class__ self <> Training ->
  raises_only arithmetic_error (get_spent_calories self).
Proof.
  intros Hc. pose proof (get_mean_speed_arithmetic self) as Hspeed.
  destruct self as [n d w|n d w|n d w h|n d w l c]; [contradiction Hc; reflexivity|..];
    unfold get_spent_calories; cbn [__class__];
    unfold Running.get_spent_calories, SportsWalking.get_spent_calories,
      Swimming.get_spent_calories;
    cbn [height duration weight].
  - apply raises_only_bind; [apply mul_arithmetic|]. intros minutes _.
    apply raises_only_bind; [exact Hspeed|]. intros speed _. arithmetic_chain.
  - apply raises_only_bind; [exact Hspeed|]. intros speed _.
    apply raises_only_bind; [apply mul_arithmetic|]. intros avg_speed _.
    cbn [bind]. arithmetic_chain.
  - apply raises_only_bind; [apply mul_arithmetic|]. intros sw _.
    apply raises_only_bind; [apply mul_arithmetic|]. intros multiplayer _.
    apply raises_only_bind; [exact Hspeed|]. intros speed _. arithmetic_chain.
Qed.

(** The calories are a float: the last operator of each formula has a float
    operand. *)
Lemma get_spent_calories_float (self : workout) (calories : num) :
  get_spent_calories self = Return calories -> exists f, calories = PyFloat f.
Proof.
  destruct self as [n d w|n d w|n d w h|n d w l c];
    unfold get_spent_calories; cbn [__class__];
    unfold Training.get_spent_calories, Running.get_spent_calories,
      SportsWalking.get_spent_calories, Swimming.get_spent_calories;
    cbn [height duration weight bind]; intros H.
  - discriminate H.
  - apply bind_Return_inv in H as (minutes & _ & H).
    apply bind_Return_inv in H as (speed & _ & H).
    apply bind_Return_inv in H as (scaled & _ & H).
    apply bind_Return_inv in H as (shifted & _ & H).
    apply bind_Return_inv in H as (by_weight & _ & H).
    apply bind_Return_inv in H as (per_minute & Hpm & H).
    apply (mul_returns_float _ _ _ (or_introl (truediv_returns_float _ _ _ Hpm)) H).
  - apply bind_Return_inv in H as (speed & _ & H).
    apply bind_Return_inv in H as (avg_speed & _ & H).
    apply bind_Return_inv in H as (height_in_m & _ & H).
    apply bind_Return_inv in H as (by_weight & Hbw & H).
    apply bind_Return_inv in H as (squared & _ & H).
    apply bind_Return_inv in H as (ratio & _ & H).
    apply bind_Return_inv in H as (scaled & _ & H).
    apply bind_Return_inv in H as (by_speed & _ & H).
    apply bind_Return_inv in H as (per_minute & Hpm & H).
    apply bind_Return_inv in H as (per_hour & Hph & H).
    assert (Hf1 : exists f, by_weight = PyFloat f).
    { apply (mul_returns_float _ _ _ (or_introl (ex_intro _ _ eq_refl)) Hbw). }
    assert (Hf2 : exists f, per_minute = PyFloat f).
    { apply (add_returns_float _ _ _ (or_introl Hf1) Hpm). }
    assert (Hf3 : exists f, per_hour = PyFloat f).
    { apply (mul_returns_float _ _ _ (or_introl Hf2) Hph). }
    apply (mul_returns_float _ _ _ (or_introl Hf3) H).
  - apply bind_Return_inv in H as (sw & _ & H).
    apply bind_Return_inv in H as (multiplayer & _ & H).
    apply bind_Return_inv in H as (speed & _ & H).
    apply bind_Return_inv in H as (shifted & Hsh & H).
    assert (Hf : exists f, shifted = PyFloat f).
    { apply (add_returns_float _ _ _ (or_intror (ex_intro _ _ eq_refl)) Hsh). }
    apply (mul_returns_float _ _ _ (or_introl Hf) H).
Qed.

End Outcomes.

(** X1: whatever mix of ints and floats the attributes hold, every value
    that [get_distance], [get_mean_speed] or [get_spent_calories] returns is
    a float, as their annotations say. *)
Theorem methods_return_floats (self : workout) (r : num) :
  get_distance self = Return r \/ get_mean_speed self = Return r
  \/ get_spent_calories self = Return r ->
  exists f : float, r = PyFloat f.
Proof.
  intros [H|[H|H]].
  - exact (get_distance_float self r H).
  - exact (get_mean_speed_float self r H).
  - exact (get_spent_calories_float self r H).
Qed.

Lemma methods_return_floats_witness :
  get_mean_speed (mkSwimming 720 (PyInt 1) (PyInt 80) 25 40) = Return (PyFloat 1)
  /\ exists f : float, PyFloat 1 = PyFloat f.
Proof.
  assert (H : get_mean_speed (mkSwimming 720 (PyInt 1) (PyInt 80) 25 40)
              = Return (PyFloat 1)) by (vm_compute; reflexivity).
  split; [exact H|].
  exact (methods_return_floats (mkSwimming 720 (PyInt 1) (PyInt 80) 25 40) (PyFloat 1)
           (or_intror (or_introl H))).
Defined.

(** X2: the exceptions of the methods.  [get_distance] fails only with
    [OverflowError], and exactly when the action count does not convert to a
    float; [get_mean_speed] fails only with [ZeroDivisionError] or
    [OverflowError]; so does [get_spent_calories] of the three kinds of
    workout, while that of the base class always raises
    [NotImplementedError].  No method fails on a missing attribute. *)
Theorem method_exceptions (self : workout) :
  (forall e, get_distance self = Raise e -> e = OverflowError)
  /\ (returns (get_distance self) <-> returns (Py.float_of_int (action self)))
  /\ (forall e, get_mean_speed self = Raise e ->
        e = ZeroDivisionError \/ e = OverflowError)
  /\ (__class__ self = Training -> get_spent_calories self = Raise NotImplementedError)
  /\ (__class__ self <> Training ->
      forall e, get_spent_calories self = Raise e ->
        e = ZeroDivisionError \/ e = OverflowError).
Proof.
  split; [exact (get_distance_overflow self)|].
  split.
  { unfold get_distance, Training.get_distance.
    assert (E : exists len : float,
              Py.mul (PyInt (action self)) (LEN_STEP self)
              = let* a := Py.float_of_int (action self) in Return (PyFloat (a * len)%float)).
    { unfold LEN_STEP. destruct (__class__ self); eexists; reflexivity. }
    destruct E as [len ->].
    destruct (Py.float_of_int (action self)) as [a|e]; cbn [bind].
    - change (Py.truediv (PyFloat (a * len)%float) M_IN_KM)
        with (Return (PyFloat (a * len / 1000)%float)).
      split; intros _; eexists; reflexivity.
    - split; intros [x Hx]; discriminate Hx. }
  split; [exact (get_mean_speed_arithmetic self)|].
  split; [destruct self; try discriminate; reflexivity|].
  exact (get_spent_calories_arithmetic self).
Qed.

Lemma method_exceptions_witness :
  get_distance (mkRunning (10 ^ 400) (PyInt 1) (PyInt 75)) = Raise OverflowError
  /\ get_mean_speed (mkRunning 15000 (PyInt 0) (PyInt 75)) = Raise ZeroDivisionError
  /\ get_spent_calories (mkTraining 15000 (PyInt 1) (PyInt 75)) = Raise NotImplementedError
  /\ (exists e, get_spent_calories (mkSportsWalking 9000 (PyInt 1) (PyInt 75) 0) = Raise e
                /\ (e = ZeroDivisionError \/ e = OverflowError)).
Proof.
  split; [vm_compute; reflexivity|].
  split; [vm_compute; reflexivity|].
  split.
  - exact (proj1 (proj2 (proj2 (proj2
             (method_exceptions (mkTraining 15000 (PyInt 1) (PyInt 75)))))) eq_refl).
  - exists ZeroDivisionError.
    assert (H : get_spent_calories (mkSportsWalking 9000 (PyInt 1) (PyInt 75) 0)
                = Raise ZeroDivisionError) by (vm_compute; reflexivity).
    split; [exact H|].
    refine (proj2 (proj2 (proj2 (proj2
              (method_exceptions (mkSportsWalking 9000 (PyInt 1) (PyInt 75) 0)))))
              _ ZeroDivisionError H).
    discriminate.
Defined.

(** ** Outcomes of the report, of [main] and of the dispatcher *)

Section Pipeline.

Import Rounding SFFacts FloatFacts PyFacts.

Lemma format_value_number (n : num) :
  Format.format_value (VNum n) "0.3f"
  = let* x := Py.to_float n in Return (Format.float_f3 x).
Proof. reflexivity. Qed.

(** The message, by the conversions of its four numbers. *)
Lemma get_message_value (m : InfoMessage.t) :
  InfoMessage.get_message m
  = let* du := Py.to_float (InfoMessage.duration m) in
    let* di := Py.to_float (InfoMessage.distance m) in
    let* sp := Py.to_float (InfoMessage.speed m) in
    let* ca := Py.to_float (InfoMessage.calories m) in
    Return (Shape.report (InfoMessage.training_type m) (Format.float_f3 du)
              (Format.float_f3 di) (Format.float_f3 sp) (Format.float_f3 ca)).
Proof.
  rewrite get_message_fields, !format_value_number.
  destruct (Py.to_float (InfoMessage.duration m)); [cbn [bind]|reflexivity].
  destruct (Py.to_float (InfoMessage.distance m)); [cbn [bind]|reflexivity].
  destruct (Py.to_float (InfoMessage.speed m)); [cbn [bind]|reflexivity].
  destruct (Py.to_float (InfoMessage.calories m)); reflexivity.
Qed.

Lemma get_message_overflow (m : InfoMessage.t) :
  raises_only overflow_error (InfoMessage.get_message m).
Proof.
  rewrite get_message_value.
  repeat (apply raises_only_bind; [apply to_float_overflow|intros ? _]).
  apply raises_only_Return.
Qed.

(** A division of a float returns only if the divisor converts. *)
Lemma truediv_float_converts (x : float) (y r : num) :
  Py.truediv (PyFloat x) y = Return r -> returns (Py.to_float y).
Proof.
  intros H.
  assert (E : Py.truediv (PyFloat x) y
              = let* b := Py.to_float y in
                if (b =? 0)%float then Raise ZeroDivisionError
                else Return (PyFloat (x / b)%float)) by (destruct y; reflexivity).
  rewrite E in H. apply bind_Return_inv in H as (b & Hb & _). exists b. exact Hb.
Qed.

(** The mean speed divides a float by the duration. *)
Lemma get_mean_speed_converts_duration (self : workout) (speed : num) :
  get_mean_speed self = Return speed -> returns (Py.to_float (duration self)).
Proof.
  destruct self as [n d w|n d w|n d w h|n d w l c];
    unfold get_mean_speed, Training.get_mean_speed, Swimming.get_mean_speed;
    cbn [__class__ length_pool count_pool duration bind Py.mul]; intros H;
    apply bind_Return_inv in H as (x & Hx & H).
  1-3: destruct (get_distance_float _ x Hx) as [f ->];
       exact (truediv_float_converts _ _ _ H).
  destruct (truediv_returns_float _ _ _ Hx) as [f ->].
  exact (truediv_float_converts _ _ _ H).
Qed.

(** A summary holds the class name, the duration as given and three
    floats. *)
Lemma show_training_info_fields (self : workout) (info : InfoMessage.t) :
  show_training_info self = Return info ->
  exists di sp ca : float,
    get_distance self = Return (PyFloat di)
    /\ get_mean_speed self = Return (PyFloat sp)
    /\ get_spent_calories self = Return (PyFloat ca)
    /\ info = InfoMessage.Build (__name__ (__class__ self)) (duration self)
                (PyFloat di) (PyFloat sp) (PyFloat ca).
Proof.
  unfold show_training_info. intros H.
  apply bind_Return_inv in H as (distance & Hdi & H).
  apply bind_Return_inv in H as (speed & Hsp & H).
  apply bind_Return_inv in H as (calories & Hca & H).
  apply Return_inj in H.
  destruct (get_distance_float _ _ Hdi) as [di ->].
  destruct (get_mean_speed_float _ _ Hsp) as [sp ->].
  destruct (get_spent_calories_float _ _ Hca) as [ca ->].
  exists di, sp, ca. auto.
Qed.

(** Once the summary is there, [main] returns. *)
Lemma main_returns (self : workout) (info : InfoMessage.t) :
  show_training_info self = Return info -> returns (main self).
Proof.
  intros Hinfo.
  destruct (show_training_info_fields self info Hinfo) as (di & sp & ca & _ & Hsp & _ & ->).
  destruct (get_mean_speed_converts_duration self _ Hsp) as [du Hdu].
  unfold main. rewrite Hinfo. cbn [bind]. rewrite get_message_value.
  cbn [InfoMessage.duration InfoMessage.distance InfoMessage.speed InfoMessage.calories
       InfoMessage.training_type Py.to_float].
  rewrite Hdu. eexists. reflexivity.
Qed.

Lemma main_raises_iff (self : workout) (e : exn) :
  main self = Raise e <-> show_training_info self = Raise e.
Proof.
  split; intros H.
  - destruct (show_training_info self) as [info|e'] eqn:Hinfo.
    + destruct (main_returns self info Hinfo) as [line Hmain].
      rewrite Hmain in H. discriminate H.
    + unfold main in H. rewrite Hinfo in H. cbn [bind] in H.
      injection H as ->. reflexivity.
  - unfold main. rewrite H. reflexivity.
Qed.

Lemma show_training_info_exceptions (self : workout) (e : exn) :
  show_training_info self = Raise e ->
  e = ZeroDivisionError \/ e = OverflowError
  \/ (e = NotImplementedError /\ __class__ self = Training).
Proof.
  unfold show_training_info. intros H.
  apply bind_Raise_inv in H as [H|(distance & _ & H)].
  { right. left. exact (get_distance_overflow self e H). }
  apply bind_Raise_inv in H as [H|(speed & _ & H)].
  { destruct (get_mean_speed_arithmetic self e H); auto. }
  apply bind_Raise_inv in H as [H|(calories & _ & H)]; [|discriminate H].
  destruct (__class__ self) eqn:Hc.
  1: { right. right. split; [|reflexivity].
       destruct self; try discriminate Hc. cbn in H. injection H as <-. reflexivity. }
  all: assert (Hne : __class__ self <> Training) by (rewrite Hc; discriminate);
       destruct (get_spent_calories_arithmetic self Hne e H); auto.
Qed.

(** *** The dispatcher *)

Lemma training_types_lookups :
  training_types !! "SWM" = Some Swimming
  /\ training_types !! "RUN" = Some Running
  /\ training_types !! "WLK" = Some SportsWalking.
Proof. repeat split; vm_compute; reflexivity. Qed.

(** The lookup finds one of the three classes, or nothing. *)
Lemma training_types_cases (workout_type : string) :
  (workout_type = "SWM" /\ training_types !! workout_type = Some Swimming)
  \/ (workout_type = "RUN" /\ training_types !! workout_type = Some Running)
  \/ (workout_type = "WLK" /\ training_types !! workout_type = Some SportsWalking)
  \/ (~ In workout_type ["SWM"; "RUN"; "WLK"] /\ training_types !! workout_type = None).
Proof.
  destruct training_types_lookups as (Hs & Hr & Hw).
  destruct (decide (workout_type = "SWM")) as [->|H1]; [auto|].
  destruct (decide (workout_type = "RUN")) as [->|H2]; [auto|].
  destruct (decide (workout_type = "WLK")) as [->|H3]; [auto 6|].
  right. right. right.
  assert (H : ~ In workout_type ["SWM"; "RUN"; "WLK"]).
  { cbn. intros [E|[E|[E|[]]]]; congruence. }
  split; [exact H|apply training_types_unknown, H].
Qed.

(** A class called with a list of its own arity returns an instance of
    itself, with int duration and weight; with any other list it raises
    [TypeError]. *)
Lemma __init___cases (c : class) (data : list Z) :
  (exists t a d w, __init__ c data = Return t /\ __class__ t = c
                   /\ length data = match c with
                                    | Training | Running => 3%nat
                                    | SportsWalking => 4%nat
                                    | Swimming => 5%nat
                                    end
                   /\ action t = a /\ duration t = PyInt d /\ weight t = PyInt w
                   /\ firstn 3 data = [a; d; w])
  \/ (__init__ c data = Raise TypeError
      /\ length data <> match c with
                        | Training | Running => 3%nat
                        | SportsWalking => 4%nat
                        | Swimming => 5%nat
                        end).
Proof.
  destruct c, data as [|a [|d [|w [|h [|n [|? ?]]]]]]; cbn;
    try (right; split; [reflexivity|discriminate]);
    left; eexists _, a, d, w; repeat split.
Qed.

(** [read_package] on a tag that the lookup finds. *)
Lemma read_package_class (workout_type : string) (c : class) (data : list Z) :
  training_types !! workout_type = Some c ->
  (returns (read_package workout_type data)
   <-> length data = match c with
                     | Training | Running => 3%nat
                     | SportsWalking => 4%nat
                     | Swimming => 5%nat
                     end)
  /\ (read_package workout_type data = Raise TypeError
      <-> length data <> match c with
                         | Training | Running => 3%nat
                         | SportsWalking => 4%nat
                         | Swimming => 5%nat
                         end)
  /\ (forall e, read_package workout_type data = Raise e -> e = TypeError)
  /\ (forall t, read_package workout_type data = Return t ->
        __class__ t = c
        /\ exists a d w, firstn 3 data = [a; d; w]
                         /\ action t = a /\ duration t = PyInt d /\ weight t = PyInt w).
Proof.
  intros E. unfold read_package. rewrite E.
  destruct (__init___cases c data)
    as [(t & a & d & w & Ht & Hc & Hlen & Ha & Hd & Hw & Hdata)|[Ht Hlen]]; rewrite Ht.
  - split; [split; [intros _; exact Hlen|intros _; exists t; reflexivity]|].
    split; [split; [intros H; discriminate H|intros H; contradiction]|].
    split; [intros e H; discriminate H|].
    intros t' H. apply Return_inj in H. subst t'.
    split; [exact Hc|]. exists a, d, w. auto.
  - split; [split; [intros [x Hx]; discriminate Hx|intros H; contradiction]|].
    split; [split; [intros _; exact Hlen|reflexivity]|].
    split; [intros e H; injection H as <-; reflexivity|].
    intros t H. discriminate H.
Qed.

Lemma read_package_exceptions (workout_type : string) (data : list Z) (e : exn) :
  read_package workout_type data = Raise e ->
  e = TypeError \/ e = ValueError "Неизвестный тип ренировки".
Proof.
  intros H.
  destruct (training_types_cases workout_type) as [[_ E]|[[_ E]|[[_ E]|[_ E]]]].
  1-3: left; exact (proj1 (proj2 (proj2 (read_package_class _ _ data E))) e H).
  unfold read_package in H. rewrite E in H. injection H as <-. right. reflexivity.
Qed.

Lemma read_package_not_base (workout_type : string) (data : list Z) (t : workout) :
  read_package workout_type data = Return t -> __class__ t <> Training.
Proof.
  intros H.
  destruct (training_types_cases workout_type) as [[_ E]|[[_ E]|[[_ E]|[_ E]]]].
  1-3: rewrite (proj1 (proj2 (proj2 (proj2 (read_package_class _ _ data E))) t H));
       discriminate.
  unfold read_package in H. rewrite E in H. discriminate H.
Qed.

End Pipeline.

(** X3: [get_message] fills the template whenever the four numbers of the
    summary convert to floats, and otherwise raises [OverflowError]; it never
    fails on a missing key or on a format specification. *)
Theorem get_message_outcomes (m : InfoMessage.t) :
  (forall e, InfoMessage.get_message m = Raise e -> e = OverflowError)
  /\ (returns (InfoMessage.get_message m)
      <-> returns (Py.to_float (InfoMessage.duration m))
          /\ returns (Py.to_float (InfoMessage.distance m))
          /\ returns (Py.to_float (InfoMessage.speed m))
          /\ returns (Py.to_float (InfoMessage.calories m)))
  /\ (forall du di sp ca : float,
        Py.to_float (InfoMessage.duration m) = Return du ->
        Py.to_float (InfoMessage.distance m) = Return di ->
        Py.to_float (InfoMessage.speed m) = Return sp ->
        Py.to_float (InfoMessage.calories m) = Return ca ->
        InfoMessage.get_message m
        = Return (Shape.report (InfoMessage.training_type m) (Format.float_f3 du)
                    (Format.float_f3 di) (Format.float_f3 sp) (Format.float_f3 ca))).
Proof.
  split; [exact (get_message_overflow m)|]. rewrite get_message_value. split.
  - split.
    + intros [line H].
      apply bind_Return_inv in H as (du & -> & H).
      apply bind_Return_inv in H as (di & -> & H).
      apply bind_Return_inv in H as (sp & -> & H).
      apply bind_Return_inv in H as (ca & -> & H).
      repeat split; eexists; reflexivity.
    + intros ([du ->] & [di ->] & [sp ->] & [ca ->]). eexists. reflexivity.
  - intros du di sp ca -> -> -> ->. reflexivity.
Qed.

Lemma get_message_outcomes_witness :
  InfoMessage.get_message
    (InfoMessage.Build "Running" (PyInt 1) (PyFloat 9.75) (PyFloat 9.75) (PyFloat 797.805))
  = Return (Shape.report "Running" "1.000" "9.750" "9.750" "797.805")
  /\ InfoMessage.get_message
       (InfoMessage.Build "Running" (PyInt (10 ^ 400)) (PyFloat 9.75) (PyFloat 9.75)
          (PyFloat 797.805))
     = Raise OverflowError.
Proof.
  split.
  - exact (proj2 (proj2 (get_message_outcomes
             (InfoMessage.Build "Running" (PyInt 1) (PyFloat 9.75) (PyFloat 9.75)
                (PyFloat 797.805))))
             1%float 9.75%float 9.75%float 797.805%float
             eq_refl eq_refl eq_refl eq_refl).
  - vm_compute. reflexivity.
Defined.

(** X4: when [show_training_info] returns a summary, [main] prints a line:
    the duration converts to a float, the distance, the mean speed and the
    calories are floats, and the line is the template filled with the name of
    the class and the four numbers in the format [0.3f]. *)
Theorem main_prints_summary (self : workout) (info : InfoMessage.t) :
  show_training_info self = Return info ->
  exists du di sp ca : float,
    Py.to_float (duration self) = Return du
    /\ get_distance self = Return (PyFloat di)
    /\ get_mean_speed self = Return (PyFloat sp)
    /\ get_spent_calories self = Return (PyFloat ca)
    /\ main self
       = Return (Shape.report (__name__ (__class__ self)) (Format.float_f3 du)
                   (Format.float_f3 di) (Format.float_f3 sp) (Format.float_f3 ca)).
Proof.
  intros Hinfo.
  destruct (show_training_info_fields self info Hinfo)
    as (di & sp & ca & Hdi & Hsp & Hca & ->).
  destruct (get_mean_speed_converts_duration self _ Hsp) as [du Hdu].
  exists du, di, sp, ca. repeat (split; [assumption|]).
  unfold main. rewrite Hinfo. cbn [bind]. rewrite get_message_value.
  cbn [InfoMessage.duration InfoMessage.distance InfoMessage.speed InfoMessage.calories
       InfoMessage.training_type Py.to_float].
  rewrite Hdu. reflexivity.
Qed.

Lemma main_prints_summary_witness :
  exists du di sp ca : float,
    Py.to_float (PyInt 1) = Return du
    /\ get_distance (mkSportsWalking 9000 (PyInt 1) (PyInt 75) 180) = Return (PyFloat di)
    /\ get_mean_speed (mkSportsWalking 9000 (PyInt 1) (PyInt 75) 180) = Return (PyFloat sp)
    /\ get_spent_calories (mkSportsWalking 9000 (PyInt 1) (PyInt 75) 180)
       = Return (PyFloat ca)
    /\ main (mkSportsWalking 9000 (PyInt 1) (PyInt 75) 180)
       = Return (Shape.report "SportsWalking" (Format.float_f3 du) (Format.float_f3 di)
                   (Format.float_f3 sp) (Format.float_f3 ca)).
Proof.
  refine (main_prints_summary (mkSportsWalking 9000 (PyInt 1) (PyInt 75) 180) _ _).
  vm_compute. reflexivity.
Defined.

(** X5: rendering adds no failure.  [main] raises an exception exactly when
    [show_training_info] raises it, and that exception is
    [ZeroDivisionError], [OverflowError] or, for the base class only,
    [NotImplementedError]. *)
Theorem main_exceptions (self : workout) (e : exn) :
  (main self = Raise e <-> show_training_info self = Raise e)
  /\ (main self = Raise e ->
      e = ZeroDivisionError \/ e = OverflowError
      \/ (e = NotImplementedError /\ __class__ self = Training)).
Proof.
  split; [exact (main_raises_iff self e)|].
  intros H. apply main_raises_iff in H. exact (show_training_info_exceptions self e H).
Qed.

Lemma main_exceptions_witness :
  main (mkSwimming 720 (PyInt 0) (PyInt 80) 25 40) = Raise ZeroDivisionError
  /\ show_training_info (mkSwimming 720 (PyInt 0) (PyInt 80) 25 40)
     = Raise ZeroDivisionError.
Proof.
  assert (H : main (mkSwimming 720 (PyInt 0) (PyInt 80) 25 40) = Raise ZeroDivisionError)
    by (vm_compute; reflexivity).
  split; [exact H|].
  exact (proj1 (proj1 (main_exceptions (mkSwimming 720 (PyInt 0) (PyInt 80) 25 40)
                         ZeroDivisionError)) H).
Defined.

(** X6: the base class is abstract.  Its [get_spent_calories] always raises
    [NotImplementedError], so [show_training_info] and [main] never return on
    an instance of [Training] itself, and raise [NotImplementedError] once
    the mean speed is computed; the dispatcher never builds such an
    instance. *)
Theorem base_class_is_abstract (a : Z) (d w : num) :
  get_spent_calories (mkTraining a d w) = Raise NotImplementedError
  /\ ~ returns (show_training_info (mkTraining a d w))
  /\ ~ returns (main (mkTraining a d w))
  /\ (returns (get_mean_speed (mkTraining a d w)) ->
      show_training_info (mkTraining a d w) = Raise NotImplementedError
      /\ main (mkTraining a d w) = Raise NotImplementedError)
  /\ (forall (workout_type : string) (data : list Z),
        read_package workout_type data <> Return (mkTraining a d w)).
Proof.
  assert (Hshow : ~ returns (show_training_info (mkTraining a d w))).
  { intros [info H]. unfold show_training_info in H.
    apply bind_Return_inv in H as (distance & _ & H).
    apply bind_Return_inv in H as (speed & _ & H).
    apply bind_Return_inv in H as (calories & H & _). discriminate H. }
  split; [reflexivity|]. split; [exact Hshow|]. split.
  { intros [line H]. unfold main in H. apply bind_Return_inv in H as (info & H & _).
    apply Hshow. exists info. exact H. }
  split.
  { intros [speed Hspeed].
    assert (H : show_training_info (mkTraining a d w) = Raise NotImplementedError).
    { unfold show_training_info.
      unfold get_mean_speed, Training.get_mean_speed in Hspeed. cbn [__class__] in Hspeed.
      apply bind_Return_inv in Hspeed as (dist & Hdist & Hspeed').
      change (Training.get_distance (mkTraining a d w))
        with (get_distance (mkTraining a d w)) in Hdist.
      rewrite Hdist. cbn [bind].
      unfold get_mean_speed, Training.get_mean_speed. cbn [__class__].
      change (Training.get_distance (mkTraining a d w))
        with (get_distance (mkTraining a d w)).
      rewrite Hdist. cbn [bind]. rewrite Hspeed'. reflexivity. }
    split; [exact H|]. apply main_raises_iff, H. }
  intros workout_type data H. unfold read_package in H.
  destruct (training_types_cases workout_type)
    as [[_ E]|[[_ E]|[[_ E]|[_ E]]]]; rewrite E in H; try discriminate H;
    match type of H with
    | __init__ ?c data = _ =>
        destruct (__init___cases c data) as [(t & ? & ? & ? & Ht & Hc & _)|[Ht _]]
    end;
    rewrite Ht in H; try discriminate H;
    apply Return_inj in H; subst t; discriminate Hc.
Qed.

Lemma base_class_is_abstract_witness :
  returns (get_mean_speed (mkTraining 15000 (PyInt 1) (PyInt 75)))
  /\ main (mkTraining 15000 (PyInt 1) (PyInt 75)) = Raise NotImplementedError.
Proof.
  assert (H : returns (get_mean_speed (mkTraining 15000 (PyInt 1) (PyInt 75))))
    by (eexists; vm_compute; reflexivity).
  split; [exact H|].
  exact (proj2 (proj1 (proj2 (proj2 (proj2
           (base_class_is_abstract 15000 (PyInt 1) (PyInt 75))))) H)).
Defined.

(** X7: the outcomes of [read_package].  It returns exactly on the tag SWM
    with five fields, RUN with three and WLK with four; a known tag with any
    other number of fields raises [TypeError]; nothing else is raised but the
    [ValueError] of an unknown tag.  The workout returned takes its action
    count, duration and weight from the first three fields, as ints. *)
Theorem read_package_outcomes (workout_type : string) (data : list Z) :
  (returns (read_package workout_type data)
   <-> (workout_type = "SWM" /\ length data = 5%nat)
       \/ (workout_type = "RUN" /\ length data = 3%nat)
       \/ (workout_type = "WLK" /\ length data = 4%nat))
  /\ (read_package workout_type data = Raise TypeError
      <-> (workout_type = "SWM" /\ length data <> 5%nat)
          \/ (workout_type = "RUN" /\ length data <> 3%nat)
          \/ (workout_type = "WLK" /\ length data <> 4%nat))
  /\ (forall e, read_package workout_type data = Raise e ->
        e = TypeError \/ e = ValueError "Неизвестный тип ренировки")
  /\ (forall t, read_package workout_type data = Return t ->
        __class__ t <> Training
        /\ exists a d w, firstn 3 data = [a; d; w]
                         /\ action t = a /\ duration t = PyInt d /\ weight t = PyInt w).
Proof.
  destruct (training_types_cases workout_type)
    as [[-> E]|[[-> E]|[[-> E]|[Htag E]]]].
  1-3: destruct (read_package_class _ _ data E) as (Hret & Hte & Hexn & Hval);
    split; [rewrite Hret; split;
            [auto 6|intros [[H1 H2]|[[H1 H2]|[H1 H2]]]; (exact H2 || discriminate H1)]|];
    (split; [rewrite Hte; split;
             [auto 6|intros [[H1 H2]|[[H1 H2]|[H1 H2]]]; (exact H2 || discriminate H1)]|]);
    (split; [intros e H; left; exact (Hexn e H)|]);
    intros t H; destruct (Hval t H) as [Hc Hfields];
    (split; [rewrite Hc; discriminate|exact Hfields]).
  unfold read_package. rewrite E.
  split; [split; [intros [x Hx]; discriminate Hx|]|].
  { intros [[-> _]|[[-> _]|[-> _]]]; exfalso; apply Htag; cbn; auto. }
  split; [split; [intros H; discriminate H|]|].
  { intros [[-> _]|[[-> _]|[-> _]]]; exfalso; apply Htag; cbn; auto. }
  split; [intros e H; injection H as <-; right; reflexivity|].
  intros t H. discriminate H.
Qed.

Lemma read_package_outcomes_witness :
  read_package "WLK" [9000; 1; 75] = Raise TypeError
  /\ returns (read_package "WLK" [9000; 1; 75; 180]).
Proof.
  split.
  - apply (proj2 (proj1 (proj2 (read_package_outcomes "WLK" [9000; 1; 75])))).
    right. right. split; [reflexivity|discriminate].
  - apply (proj2 (proj1 (read_package_outcomes "WLK" [9000; 1; 75; 180]))).
    right. right. split; reflexivity.
Defined.

(** ** The script's loop *)

Section Loop.

Lemma run_cons (stdout : list string) (p : string * list Z) (rest : list (string * list Z)) :
  run stdout (p :: rest)
  = match iteration p with
    | Return line => run (stdout ++ [line]) rest
    | Raise e => (stdout, Some e)
    end.
Proof. destruct p as [workout_type data]. reflexivity. Qed.

(** What one turn of the loop can raise. *)
Lemma iteration_raises (p : string * list Z) (e : exn) :
  iteration p = Raise e ->
  e = ValueError "Неизвестный тип ренировки" \/ e = TypeError
  \/ e = ZeroDivisionError \/ e = OverflowError.
Proof.
  unfold iteration. intros H.
  apply bind_Raise_inv in H as [H|(t & Ht & H)].
  - destruct (read_package_exceptions _ _ e H); auto.
  - apply main_raises_iff in H.
    destruct (show_training_info_exceptions t e H) as [E|[E|[_ E]]]; auto.
    contradiction (read_package_not_base _ _ t Ht E).
Qed.

End Loop.

(** X8: one turn of the script's loop, [read_package] then [main], can fail
    only with the [ValueError] of an unknown tag, [TypeError],
    [ZeroDivisionError] or [OverflowError], and an exception that ends the
    whole loop is one of these four; in particular no [KeyError],
    [AttributeError] or [NotImplementedError] leaves the script. *)
Theorem script_exceptions (e : exn) :
  (forall p : string * list Z,
      iteration p = Raise e ->
      e = ValueError "Неизвестный тип ренировки" \/ e = TypeError
      \/ e = ZeroDivisionError \/ e = OverflowError)
  /\ (forall (stdout : list string) (ps : list (string * list Z)) (printed : list string),
        run stdout ps = (printed, Some e) ->
        e = ValueError "Неизвестный тип ренировки" \/ e = TypeError
        \/ e = ZeroDivisionError \/ e = OverflowError).
Proof.
  split; [intros p; apply iteration_raises|].
  intros stdout ps. revert stdout.
  induction ps as [|p rest IH]; intros stdout printed H.
  - discriminate H.
  - rewrite run_cons in H. destruct (iteration p) as [line|e'] eqn:Hp.
    + exact (IH _ _ H).
    + injection H as _ ->. exact (iteration_raises p e Hp).
Qed.

Lemma script_exceptions_witness :
  iteration ("RUN", [15000; 1]) = Raise TypeError
  /\ iteration ("RUN", [10 ^ 400; 1; 75]) = Raise OverflowError
  /\ run [] [("SWM", [720; 1; 80; 25; 40]); ("WLK", [9000; 0; 75; 180]); ("RUN", [15000; 1; 75])]
     = ([ ("Тип тренировки: Swimming; Длительность: 1.000 ч.; Дистанция: 0.994 км; "
           ++ "Ср. скорость: 1.000 км/ч; Потрачено ккал: 336.000.")%string ],
        Some ZeroDivisionError)
  /\ (ZeroDivisionError = ValueError "Неизвестный тип ренировки"
      \/ ZeroDivisionError = TypeError
      \/ ZeroDivisionError = ZeroDivisionError \/ ZeroDivisionError = OverflowError).
Proof.
  split; [vm_compute; reflexivity|]. split; [vm_compute; reflexivity|].
  assert (H : run [] [("SWM", [720; 1; 80; 25; 40]); ("WLK", [9000; 0; 75; 180]);
                      ("RUN", [15000; 1; 75])]
              = ([ ("Тип тренировки: Swimming; Длительность: 1.000 ч.; Дистанция: 0.994 км; "
                    ++ "Ср. скорость: 1.000 км/ч; Потрачено ккал: 336.000.")%string ],
                 Some ZeroDivisionError)) by (vm_compute; reflexivity).
  split; [exact H|].
  exact (proj2 (script_exceptions ZeroDivisionError) _ _ _ H).
Defined.

(** X9: the loop completes without an exception exactly when every package
    is read and reported, and then it has printed one line per package, in
    the order of the packages, after what was printed before. *)
Theorem run_completes (stdout : list string) (ps : list (string * list Z))
    (printed : list string) :
  run stdout ps = (printed, None)
  <-> exists lines : list string,
        Forall2 (fun p line => iteration p = Return line) ps lines
        /\ printed = stdout ++ lines.
Proof.
  revert stdout. induction ps as [|p rest IH]; intros stdout.
  - cbn [run]. split.
    + intros H. injection H as <-. exists []. split; [constructor|].
      rewrite app_nil_r. reflexivity.
    + intros (lines & Hall & ->). inversion Hall. rewrite app_nil_r. reflexivity.
  - rewrite run_cons. split.
    + intros H. destruct (iteration p) as [line|e] eqn:Hp; [|discriminate H].
      apply IH in H as (lines & Hall & ->).
      exists (line :: lines). split; [constructor; assumption|].
      rewrite <- app_assoc. reflexivity.
    + intros (lines & Hall & ->). inversion Hall as [|? line ? lines' Hp Hrest]; subst.
      rewrite Hp. apply IH. exists lines'. split; [exact Hrest|].
      rewrite <- app_assoc. reflexivity.
Qed.

Lemma run_completes_witness :
  exists lines : list string,
    Forall2 (fun p line => iteration p = Return line) packages lines
    /\ fst (run [] packages) = [] ++ lines.
Proof.
  apply (proj1 (run_completes [] packages (fst (run [] packages)))).
  vm_compute. reflexivity.
Defined.

(** X10: the loop ends with an exception exactly when some package fails
    after all the packages before it were reported; the exception is that of
    the first failing package, the lines of the packages before it are
    printed, and nothing of the packages after it is. *)
Theorem run_stops_at_first_failure (stdout : list string) (ps : list (string * list Z))
    (printed : list string) (e : exn) :
  run stdout ps = (printed, Some e)
  <-> exists (done : list (string * list Z)) (p : string * list Z)
             (rest : list (string * list Z)) (lines : list string),
        ps = done ++ p :: rest
        /\ Forall2 (fun q line => iteration q = Return line) done lines
        /\ iteration p = Raise e
        /\ printed = stdout ++ lines.
Proof.
  revert stdout. induction ps as [|p rest IH]; intros stdout.
  - cbn [run]. split; [intros H; discriminate H|].
    intros (done & q & rest & lines & E & _). destruct done; discriminate E.
  - rewrite run_cons. split.
    + intros H. destruct (iteration p) as [line|e'] eqn:Hp.
      * apply IH in H as (done & q & rest' & lines & -> & Hall & Hq & ->).
        exists (p :: done), q, rest', (line :: lines).
        split; [reflexivity|]. split; [constructor; assumption|].
        split; [exact Hq|]. rewrite <- app_assoc. reflexivity.
      * injection H as <- <-. exists [], p, rest, [].
        split; [reflexivity|]. split; [constructor|]. split; [exact Hp|].
        rewrite app_nil_r. reflexivity.
    + intros (done & q & rest' & lines & E & Hall & Hq & ->).
      destruct Hall as [|p' line done' lines' Hp Hall].
      * cbn in E. injection E as -> ->. rewrite Hq, app_nil_r. reflexivity.
      * cbn in E. injection E as -> ->. rewrite Hp. apply IH.
        exists done', q, rest', lines'. split; [reflexivity|].
        split; [exact Hall|]. split; [exact Hq|]. rewrite <- app_assoc. reflexivity.
Qed.

Lemma run_stops_at_first_failure_witness :
  run [] [("SWM", [720; 1; 80; 25; 40]); ("BIKE", [1; 2; 3]); ("RUN", [15000; 1; 75])]
  = ([] ++ [ ("Тип тренировки: Swimming; Длительность: 1.000 ч.; Дистанция: 0.994 км; "
              ++ "Ср. скорость: 1.000 км/ч; Потрачено ккал: 336.000.")%string ],
     Some (ValueError "Неизвестный тип ренировки")).
Proof.
  apply (proj2 (run_stops_at_first_failure [] _ _ _)).
  exists [("SWM", [720; 1; 80; 25; 40])], ("BIKE", [1; 2; 3]), [("RUN", [15000; 1; 75])].
  eexists. split; [reflexivity|]. split; [|split; [|reflexivity]].
  - constructor; [vm_compute; reflexivity|constructor].
  - vm_compute. reflexivity.
Defined.

(** ** Positive quantities

    From positive inputs to positive results: the magnitudes of the
    intermediate floats stay above the least one, so that no product or
    quotient underflows to zero. *)

Section Positivity.

Import Rounding SFFacts FloatFacts PyFacts.

(** The magnitude of a valid float is at most 1024. *)
Lemma valid_mag_le (s : bool) (m : positive) (e : Z) :
  valid_binary (S754_finite s m e) = true -> Zpos (digits2_pos m) + e <= 1024.
Proof.
  cbn [valid_binary]. unfold bounded, canonical_mantissa.
  intros H. apply andb_true_iff in H as [H1 H2].
  apply Z.eqb_eq in H1. apply Z.leb_le in H2.
  rewrite fexp_value in H1. change (emax - prec) with 971 in H2. lia.
Qed.

(** A positive finite float has a mantissa and an exponent. *)
Lemma finite_pos_cases (x : float) :
  (0 <? x)%float = true -> is_finite x = true ->
  exists m e, Prim2SF x = S754_finite false m e
              /\ -1073 <= Zpos (digits2_pos m) + e <= 1024.
Proof.
  intros Hpos Hfin. pose proof (Prim2SF_valid x) as Hv.
  destruct (gt0_mag x Hpos) as [E|(m & e & E & Hlo)].
  - destruct (Prim2SF_finite x Hfin) as [[s E']|(s & m & e & E')]; congruence.
  - exists m, e. split; [exact E|]. rewrite E in Hv.
    split; [exact Hlo|exact (valid_mag_le _ _ _ Hv)].
Qed.

Lemma to_float_finite_pos (y : num) :
  Py.gt0 y = true -> Shape.finite_num y ->
  exists f m e, Py.to_float y = Return f
                /\ Prim2SF f = S754_finite false m e
                /\ -1073 <= Zpos (digits2_pos m) + e <= 1024.
Proof.
  intros Hpos (f & Hf & Hfin).
  assert (Hgt : (0 <? f)%float = true)
    by exact (mag_gt0 _ _ (to_float_gt0 y f Hpos Hf)).
  destruct (finite_pos_cases f Hgt Hfin) as (m & e & E & Hmag).
  exists f, m, e. auto.
Qed.

Lemma well_above_zero_gt0 (x : num) : well_above_zero x = true -> Py.gt0 x = true.
Proof.
  destruct x as [z|f]; cbn [well_above_zero Py.gt0]; [trivial|].
  intros H. exact (mag_gt0 _ _ (threshold_mag f H)).
Qed.

(** A quotient by a positive finite float loses at most 1024 in
    magnitude. *)
Lemma div_finite_pos (a : Z) (x f : float) (m : positive) (e : Z) :
  SF.mag_ge a (Prim2SF x) -> Prim2SF f = S754_finite false m e ->
  Zpos (digits2_pos m) + e <= 1024 -> -1074 < a - 1024 ->
  SF.mag_ge (a - 1024) (Prim2SF (x / f)).
Proof.
  intros Hx E Hle Hlow. rewrite div_spec, E.
  apply mag_ge_weaken with (a := a - (Zpos (digits2_pos m) + e)); [lia|].
  apply div_mag; [exact Hx|lia].
Qed.

Lemma truediv_float_l (x : float) (y : num) :
  Py.truediv (PyFloat x) y
  = let* b := Py.to_float y in
    if (b =? 0)%float then Raise ZeroDivisionError else Return (PyFloat (x / b)%float).
Proof. destruct y; reflexivity. Qed.

(** The distance, on floats. *)
Lemma get_distance_value (self : workout) :
  exists len : float,
    SF.mag_ge 0 (Prim2SF len)
    /\ get_distance self
       = let* a := Py.float_of_int (action self) in
         Return (PyFloat (a * len / 1000)%float).
Proof.
  destruct self as [n d w|n d w|n d w h|n d w l c];
    [exists 0.65%float|exists 0.65%float|exists 0.65%float|exists 1.38%float];
    (split; [right; eexists _, _; split; [vm_compute; reflexivity|cbn; lia]|]);
    unfold get_distance, Training.get_distance, LEN_STEP;
    cbn [__class__ action Py.mul Py.to_float];
    destruct (Py.float_of_int n); reflexivity.
Qed.

Lemma get_distance_pos (self : workout) (dist : num) :
  0 < action self -> get_distance self = Return dist ->
  exists f, dist = PyFloat f /\ SF.mag_ge (-10) (Prim2SF f).
Proof.
  intros Hn H. destruct (get_distance_value self) as (len & Hlen & E). rewrite E in H.
  apply bind_Return_inv in H as (a & Ha & H). apply Return_inj in H. subst dist.
  eexists. split; [reflexivity|].
  pose proof (float_of_int_pos _ _ Hn Ha) as Hmag.
  pose proof (Zdigits2_pos _ Hn) as Hdig.
  rewrite div_spec, mul_spec.
  change (Prim2SF 1000) with (S754_finite false 8796093022208000 (-43)).
  apply mag_ge_weaken with (a := 0 - (Zpos (digits2_pos 8796093022208000) + -43));
    [cbn; lia|].
  apply div_mag; [|cbn; lia].
  apply mag_ge_weaken with (a := 1 + 0 - 1); [lia|].
  apply mul_mag; [|exact Hlen|lia].
  apply mag_ge_weaken with (a := Zdigits2 (action self)); [lia|exact Hmag].
Qed.

(** Dividing a positive float by a positive finite duration. *)
Lemma speed_pos (x : float) (d speed : num) :
  SF.mag_ge (-10) (Prim2SF x) ->
  Py.gt0 d = true -> Shape.finite_num d ->
  (returns (Py.truediv (PyFloat x) d))
  /\ (Py.truediv (PyFloat x) d = Return speed ->
      exists f, speed = PyFloat f /\ SF.mag_ge (-1034) (Prim2SF f)).
Proof.
  intros Hx Hd Hfin.
  destruct (to_float_finite_pos d Hd Hfin) as (b & m & e & Hb & E & Hlo & Hhi).
  assert (Hnz : (b =? 0)%float = false).
  { apply (mag_eqb0 (Zpos (digits2_pos m) + e)). right. exists m, e.
    split; [exact E|lia]. }
  rewrite truediv_float_l, Hb. cbn [bind]. rewrite Hnz.
  split; [eexists; reflexivity|].
  intros H. apply Return_inj in H. subst speed.
  eexists. split; [reflexivity|].
  exact (div_finite_pos (-10) x b m e Hx E Hhi ltac:(lia)).
Qed.

Lemma get_mean_speed_pos (self : workout) :
  __class__ self <> Swimming -> 0 < action self ->
  Py.gt0 (duration self) = true -> Shape.finite_num (duration self) ->
  (returns (get_distance self) -> returns (get_mean_speed self))
  /\ forall speed, get_mean_speed self = Return speed ->
       exists f, speed = PyFloat f /\ SF.mag_ge (-1034) (Prim2SF f).
Proof.
  intros Hc Hn Hd Hfin.
  assert (E : get_mean_speed self
              = let* dist := get_distance self in Py.truediv dist (duration self))
    by (destruct self; try reflexivity; contradiction Hc; reflexivity).
  rewrite E. split.
  - intros [dist Hdist]. rewrite Hdist. cbn [bind].
    destruct (get_distance_pos self dist Hn Hdist) as (x & -> & Hx).
    exact (proj1 (speed_pos x (duration self) (PyInt 0) Hx Hd Hfin)).
  - intros speed H. apply bind_Return_inv in H as (dist & Hdist & H).
    destruct (get_distance_pos self dist Hn Hdist) as (x & -> & Hx).
    exact (proj2 (speed_pos x (duration self) speed Hx Hd Hfin) H).
Qed.

(** The quotient of two ints is never an infinity: an overflow raises. *)
Lemma int_true_divide_finite (a b : Z) (f : float) (s : bool) :
  Py.int_true_divide a b = Return f -> Prim2SF f <> S754_infinity s.
Proof.
  unfold Py.int_true_divide. destruct (b =? 0); [discriminate|].
  assert (Hzero : forall s', Return (SF2Prim (S754_zero s')) = Return f ->
                  Prim2SF f <> S754_infinity s).
  { intros s' H. apply Return_inj in H. subst f.
    rewrite Prim2SF_SF2Prim by reflexivity. discriminate. }
  destruct (Z.abs a) as [|ma|ma]; [apply Hzero| |apply Hzero].
  destruct (Z.abs b) as [|mb|mb]; [apply Hzero| |apply Hzero].
  pose proof (SFdiv_finite_valid (a <? 0) (b <? 0) ma mb 0 0) as Hv.
  destruct (SFdiv prec emax _ _) as [s'|s'| |s' m e]; intros H;
    try discriminate H; apply Return_inj in H; subst f;
    rewrite Prim2SF_SF2Prim by exact Hv; discriminate.
Qed.

Lemma swimming_mean_speed_pos (n : Z) (d w : num) (l c : Z) :
  0 < l * c -> Py.gt0 d = true -> Shape.finite_num d ->
  forall speed, get_mean_speed (mkSwimming n d w l c) = Return speed ->
    exists f, speed = PyFloat f /\ SF.mag_ge (-1034) (Prim2SF f).
Proof.
  intros Hlc Hd Hfin speed.
  unfold get_mean_speed, Swimming.get_mean_speed.
  cbn [__class__ length_pool count_pool duration bind Py.mul]. intros H.
  apply bind_Return_inv in H as (km & Hkm & H).
  unfold M_IN_KM in Hkm. cbn [Py.truediv] in Hkm.
  apply bind_Return_inv in Hkm as (q & Hq & Hkm). apply Return_inj in Hkm. subst km.
  pose proof (Zdigits2_pos _ Hlc) as Hdig.
  assert (Hmag : SF.mag_ge (-10) (Prim2SF q)).
  { apply mag_ge_weaken with (a := Zdigits2 (l * c) - Zdigits2 1000); [cbn; lia|].
    apply int_true_divide_pos; [exact Hlc|lia|cbn; lia|exact Hq]. }
  exact (proj2 (speed_pos q d speed Hmag Hd Hfin) H).
Qed.

End Positivity.

(** X11: a positive action count gives a distance greater than zero; with a
    duration that is greater than zero and finite, the mean speed of a
    Running or Walking workout is then greater than zero too, and so is the
    mean speed of a Swimming workout whose pool length and lap count have a
    positive product.  Neither quantity underflows to zero. *)
Theorem distance_and_speed_positive :
  (forall (self : workout) (dist : num),
      0 < action self -> get_distance self = Return dist -> Py.gt0 dist = true)
  /\ (forall (self : workout) (speed : num),
        __class__ self <> Swimming -> 0 < action self ->
        Py.gt0 (duration self) = true -> Shape.finite_num (duration self) ->
        get_mean_speed self = Return speed -> Py.gt0 speed = true)
  /\ (forall (self : workout),
        __class__ self <> Swimming -> 0 < action self ->
        Py.gt0 (duration self) = true -> Shape.finite_num (duration self) ->
        returns (get_distance self) -> returns (get_mean_speed self))
  /\ (forall (n : Z) (d w : num) (l c : Z) (speed : num),
        0 < l * c -> Py.gt0 d = true -> Shape.finite_num d ->
        get_mean_speed (mkSwimming n d w l c) = Return speed -> Py.gt0 speed = true).
Proof.
  split.
  { intros self dist Hn H. destruct (get_distance_pos self dist Hn H) as (f & -> & Hf).
    exact (FloatFacts.mag_gt0 _ _ Hf). }
  split.
  { intros self speed Hc Hn Hd Hfin H.
    destruct (proj2 (get_mean_speed_pos self Hc Hn Hd Hfin) speed H) as (f & -> & Hf).
    exact (FloatFacts.mag_gt0 _ _ Hf). }
  split.
  { intros self Hc Hn Hd Hfin. exact (proj1 (get_mean_speed_pos self Hc Hn Hd Hfin)). }
  intros n d w l c speed Hlc Hd Hfin H.
  destruct (swimming_mean_speed_pos n d w l c Hlc Hd Hfin speed H) as (f & -> & Hf).
  exact (FloatFacts.mag_gt0 _ _ Hf).
Qed.

Lemma distance_and_speed_positive_witness :
  exists dist speed swim : num,
    get_distance (mkSportsWalking 9000 (PyInt 1) (PyInt 75) 180) = Return dist
    /\ Py.gt0 dist = true
    /\ get_mean_speed (mkSportsWalking 9000 (PyInt 1) (PyInt 75) 180) = Return speed
    /\ Py.gt0 speed = true
    /\ get_mean_speed (mkSwimming 720 (PyInt 1) (PyInt 80) 25 40) = Return swim
    /\ Py.gt0 swim = true.
Proof.
  destruct distance_and_speed_positive as (Hdist & Hspeed & _ & Hswim).
  assert (Hfin : Shape.finite_num (PyInt 1)) by (exists 1%float; split; reflexivity).
  exists (PyFloat 5.85), (PyFloat 5.85), (PyFloat 1).
  assert (H1 : get_distance (mkSportsWalking 9000 (PyInt 1) (PyInt 75) 180)
               = Return (PyFloat 5.85)) by (vm_compute; reflexivity).
  assert (H2 : get_mean_speed (mkSportsWalking 9000 (PyInt 1) (PyInt 75) 180)
               = Return (PyFloat 5.85)) by (vm_compute; reflexivity).
  assert (H3 : get_mean_speed (mkSwimming 720 (PyInt 1) (PyInt 80) 25 40)
               = Return (PyFloat 1)) by (vm_compute; reflexivity).
  split; [exact H1|].
  split; [exact (Hdist (mkSportsWalking 9000 (PyInt 1) (PyInt 75) 180) _ eq_refl H1)|].
  split; [exact H2|].
  split.
  { refine (Hspeed (mkSportsWalking 9000 (PyInt 1) (PyInt 75) 180) _ _ eq_refl eq_refl
              Hfin H2).
    discriminate. }
  split; [exact H3|].
  exact (Hswim 720 (PyInt 1) (PyInt 80) 25 40 _ eq_refl eq_refl Hfin H3).
Defined.

(** ** Positive calories *)

Section PositiveCalories.

Import Rounding SFFacts FloatFacts PyFacts.

(** A product with a positive finite float keeps a sign bit clear. *)
Lemma mul_nonneg_finite (x : spec_float) (my : positive) (ey : Z) :
  SF.nonneg x -> SF.nonneg (SFmul prec emax x (S754_finite false my ey)).
Proof.
  unfold SF.nonneg. intros [->|[->|(mx & ex & ->)]]; cbn [SFmul xorb]; auto.
  destruct (binary_round_aux_sign false (Zpos (mx * my)) (ex + ey) loc_Exact)
    as [H|[H|H]]; [lia|auto..].
Qed.

Lemma mul_self_nonneg (x : spec_float) :
  SF.nonneg x -> SF.nonneg (SFmul prec emax x x).
Proof.
  unfold SF.nonneg. intros [->|[->|(mx & ex & ->)]]; cbn [SFmul xorb]; auto.
  destruct (binary_round_aux_sign false (Zpos (mx * mx)) (ex + ex) loc_Exact)
    as [H|[H|H]]; [lia|auto..].
Qed.

(** The square of a float that is zero, positive or infinite. *)
Lemma pow2_nonneg (x : float) (r : num) :
  SF.nonneg (Prim2SF x) -> Py.pow2 (PyFloat x) = Return r ->
  exists f, r = PyFloat f /\ SF.nonneg (Prim2SF f).
Proof.
  intros Hx. cbn [Py.pow2].
  destruct (is_nan x) eqn:Hnan.
  { exfalso. unfold Prim2SF in Hx. rewrite Hnan in Hx.
    destruct Hx as [H|[H|(m & e & H)]]; discriminate H. }
  destruct (is_infinity x).
  { intros H. apply Return_inj in H. subst r. eexists. split; [reflexivity|].
    right. left. reflexivity. }
  destruct (is_infinity (x * x)); [discriminate|].
  intros H. apply Return_inj in H. subst r. eexists. split; [reflexivity|].
  rewrite mul_spec. apply mul_self_nonneg, Hx.
Qed.

(** Adding a non-negative float on the right does not lower the
    magnitude. *)
Lemma add_mag_l (b : Z) (x y : spec_float) :
  SF.mag_ge b x -> SF.nonneg y -> -1074 < b ->
  SF.mag_ge b (SFadd prec emax x y).
Proof.
  intros Hx [->|[->|(my & ey & ->)]] Hlow.
  - destruct Hx as [->|(mx & ex & -> & Hx)]; [left; reflexivity|].
    right. exists mx, ex. split; [reflexivity|exact Hx].
  - destruct Hx as [->|(mx & ex & -> & Hx)]; left; reflexivity.
  - destruct Hx as [->|(mx & ex & -> & Hx)]; [left; reflexivity|].
    cbn [SFadd cond_Zopp].
    set (ez := Z.min ex ey).
    destruct (shl_align_spec mx ex ez) as (mx' & ex' & -> & Hex' & _ & Hmx).
    destruct (shl_align_spec my ey ez) as (my' & ey' & -> & _ & _ & _).
    cbn [fst].
    assert (Hez : ex' = ez) by (unfold ez in *; lia). subst ex'.
    assert (Hd : Zpos (digits2_pos mx') <= Zdigits2 (Zpos mx' + Zpos my')).
    { change (Zpos (digits2_pos mx')) with (Zdigits2 (Zpos mx')).
      apply Zdigits2_le; lia. }
    destruct (binary_normalize_pos (Zpos mx' + Zpos my') ez false)
      as [H|(m' & e' & H & Hle)]; [lia|lia|left; exact H|right].
    exists m', e'. split; [exact H|lia].
Qed.

(** A number of at least 2^-500, as a float. *)
Lemma threshold_to_float (x : num) (f : float) :
  well_above_zero x = true -> Py.to_float x = Return f -> SF.mag_ge (-499) (Prim2SF f).
Proof.
  intros Hx Hf.
  exact (proj2 (weight_mag x f Hf (well_above_zero_gt0 x Hx)) Hx).
Qed.

Lemma float_of_int_mag1 (z : Z) (f : float) :
  0 < z -> Py.float_of_int z = Return f -> SF.mag_ge 1 (Prim2SF f).
Proof.
  intros Hz Hf. pose proof (Zdigits2_pos z Hz).
  apply mag_ge_weaken with (a := Zdigits2 z); [lia|].
  apply float_of_int_pos; assumption.
Qed.

(** The factor [2 * weight * duration] of the swimming calories. *)
Lemma swimming_multiplayer_mag (w d sw multiplayer : num) (mf : float) :
  well_above_zero w = true -> well_above_zero d = true ->
  Py.mul Swimming.SPEED_MULTIPLAYER w = Return sw ->
  Py.mul sw d = Return multiplayer -> Py.to_float multiplayer = Return mf ->
  SF.mag_ge (-998) (Prim2SF mf).
Proof.
  intros Hw Hd Hsw Hmul Hmf. unfold Swimming.SPEED_MULTIPLAYER in Hsw.
  assert (H2 : SF.mag_ge 2 (Prim2SF 2)).
  { right. eexists _, _. split; [vm_compute; reflexivity|cbn; lia]. }
  destruct w as [z|f], d as [y|g]; cbn [well_above_zero] in Hw, Hd.
  - cbn [Py.mul] in Hsw. apply Return_inj in Hsw. subst sw.
    cbn [Py.mul] in Hmul. apply Return_inj in Hmul. subst multiplayer.
    cbn [Py.to_float] in Hmf. apply Z.ltb_lt in Hw, Hd.
    apply mag_ge_weaken with (a := 1); [lia|].
    apply (float_of_int_mag1 (2 * z * y)); [nia|exact Hmf].
  - cbn [Py.mul] in Hsw. apply Return_inj in Hsw. subst sw.
    cbn [Py.mul Py.to_float] in Hmul.
    apply bind_Return_inv in Hmul as (a & Ha & Hmul). cbn [bind] in Hmul.
    apply Return_inj in Hmul. subst multiplayer.
    cbn [Py.to_float] in Hmf. apply Return_inj in Hmf. subst mf.
    apply Z.ltb_lt in Hw. rewrite mul_spec.
    apply mag_ge_weaken with (a := 1 + -499 - 1); [lia|].
    apply mul_mag; [apply (float_of_int_mag1 (2 * z)); [lia|exact Ha]
                   |apply threshold_mag, Hd|lia].
  - change (Py.mul (PyInt 2) (PyFloat f)) with (Return (PyFloat (2 * f)%float)) in Hsw.
    apply Return_inj in Hsw. subst sw.
    rewrite mul_float_l in Hmul. cbn [Py.to_float] in Hmul.
    apply bind_Return_inv in Hmul as (b & Hb & Hmul).
    apply Return_inj in Hmul. subst multiplayer.
    cbn [Py.to_float] in Hmf. apply Return_inj in Hmf. subst mf.
    apply Z.ltb_lt in Hd. rewrite !mul_spec.
    apply mag_ge_weaken with (a := (2 + -499 - 1) + 1 - 1); [lia|].
    apply mul_mag; [|apply (float_of_int_mag1 y); assumption|lia].
    apply mul_mag; [exact H2|apply threshold_mag, Hw|lia].
  - change (Py.mul (PyInt 2) (PyFloat f)) with (Return (PyFloat (2 * f)%float)) in Hsw.
    apply Return_inj in Hsw. subst sw.
    cbn [Py.mul Py.to_float bind] in Hmul. apply Return_inj in Hmul. subst multiplayer.
    cbn [Py.to_float] in Hmf. apply Return_inj in Hmf. subst mf.
    rewrite !mul_spec.
    apply mag_ge_weaken with (a := (2 + -499 - 1) + -499 - 1); [lia|].
    apply mul_mag; [|apply threshold_mag, Hd|lia].
    apply mul_mag; [exact H2|apply threshold_mag, Hw|lia].
Qed.

Lemma swimming_calories_mag (n : Z) (d w : num) (l c : Z) (calories : num) :
  0 < l * c -> well_above_zero d = true -> Shape.finite_num d ->
  well_above_zero w = true ->
  get_spent_calories (mkSwimming n d w l c) = Return calories ->
  exists f, calories = PyFloat f /\ SF.mag_ge (-998) (Prim2SF f).
Proof.
  intros Hlc Hd Hfin Hw H.
  unfold get_spent_calories in H. cbn [__class__] in H.
  unfold Swimming.get_spent_calories in H. cbn [weight duration] in H.
  apply bind_Return_inv in H as (sw & Hsw & H).
  apply bind_Return_inv in H as (multiplayer & Hmul & H).
  apply bind_Return_inv in H as (speed & Hs & H).
  apply bind_Return_inv in H as (shifted & Hsh & H).
  destruct (swimming_mean_speed_pos n d w l c Hlc (well_above_zero_gt0 d Hd) Hfin speed Hs)
    as (s & -> & Hmag).
  change (Py.add (PyFloat s) Swimming.OFFSET_SPEED)
    with (Return (PyFloat (s + 1.1)%float)) in Hsh.
  apply Return_inj in Hsh. subst shifted.
  rewrite mul_float_l in H. apply bind_Return_inv in H as (mf & Hmf & H).
  apply Return_inj in H. subst calories.
  eexists. split; [reflexivity|].
  rewrite mul_spec. apply mag_ge_weaken with (a := 1 + -998 - 1); [lia|].
  apply mul_mag; [|exact (swimming_multiplayer_mag w d sw multiplayer mf Hw Hd Hsw Hmul Hmf)
                 |lia].
  rewrite add_spec. apply add_mag; [exact (mag_ge_nonneg _ _ Hmag)| |lia].
  right. eexists _, _. split; [vm_compute; reflexivity|cbn; lia].
Qed.

Lemma running_calories_mag (n : Z) (d w calories : num) :
  0 < n -> well_above_zero d = true -> Shape.finite_num d ->
  well_above_zero w = true ->
  get_spent_calories (mkRunning n d w) = Return calories ->
  exists f, calories = PyFloat f /\ SF.mag_ge (-1004) (Prim2SF f).
Proof.
  intros Hn Hd Hfin Hw H.
  pose proof (well_above_zero_gt0 d Hd) as Hd0.
  pose proof (well_above_zero_gt0 w Hw) as Hw0.
  assert (Hs : exists s, get_mean_speed (mkRunning n d w) = Return (PyFloat s)
                         /\ SF.mag_ge (-1034) (Prim2SF s)).
  { pose proof H as H'. unfold get_spent_calories in H'. cbn [__class__] in H'.
    unfold Running.get_spent_calories in H'.
    apply bind_Return_inv in H' as (minutes & _ & H').
    apply bind_Return_inv in H' as (speed & Hs & _).
    destruct (proj2 (get_mean_speed_pos (mkRunning n d w) ltac:(discriminate) Hn Hd0 Hfin)
                speed Hs) as (s & -> & Hmag).
    eauto. }
  destruct Hs as (s & Hs & Hmag).
  rewrite (running_calories_value n d w s Hs) in H.
  apply bind_Return_inv in H as (minutes & Hmin & H).
  apply bind_Return_inv in H as (wf & Hwf & H).
  apply bind_Return_inv in H as (mf & Hmf & H).
  apply Return_inj in H. subst calories.
  destruct (weight_mag w wf Hwf Hw0) as [_ Hw2].
  destruct (minutes_mag d minutes mf Hmin Hmf Hd0) as [_ Hm2].
  eexists. split; [reflexivity|].
  apply (running_value_sign s wf mf (-499) (-494));
    [apply mag_ge_weaken with (a := -1034); [lia|exact Hmag]
    |lia|exact (Hw2 Hw)|exact (Hm2 Hd)|lia|lia].
Qed.

Lemma walking_calories_mag (n : Z) (d w : num) (h : Z) (calories : num) :
  0 < n -> 0 < h -> well_above_zero d = true -> Shape.finite_num d ->
  well_above_zero w = true -> Shape.finite_num w ->
  get_spent_calories (mkSportsWalking n d w h) = Return calories ->
  exists f, calories = PyFloat f /\ SF.mag_ge (-999) (Prim2SF f).
Proof.
  intros Hn Hh Hd Hdfin Hw Hwfin H.
  pose proof (well_above_zero_gt0 d Hd) as Hd0.
  pose proof (well_above_zero_gt0 w Hw) as Hw0.
  destruct (to_float_finite_pos w Hw0 Hwfin) as (wf & mw & ew & Hwf & Ew & _ & _).
  pose proof (threshold_to_float w wf Hw Hwf) as Hwmag.
  assert (E278 : exists m e, Prim2SF 0.278 = S754_finite false m e)
    by (eexists _, _; vm_compute; reflexivity).
  assert (E029 : exists m e, Prim2SF 0.029 = S754_finite false m e)
    by (eexists _, _; vm_compute; reflexivity).
  assert (H035 : SF.mag_ge (-4) (Prim2SF 0.035)).
  { right. eexists _, _. split; [vm_compute; reflexivity|cbn; lia]. }
  assert (H60 : SF.mag_ge 6 (Prim2SF 60)).
  { right. eexists _, _. split; [vm_compute; reflexivity|cbn; lia]. }
  unfold get_spent_calories in H. cbn [__class__] in H.
  unfold SportsWalking.get_spent_calories in H. cbn [height weight duration] in H.
  apply bind_Return_inv in H as (speed & Hs & H).
  destruct (proj2 (get_mean_speed_pos (mkSportsWalking n d w h) ltac:(discriminate)
                     Hn Hd0 Hdfin) speed Hs) as (s & -> & Hsmag).
  apply bind_Return_inv in H as (avg_speed & Havg & H).
  change (Py.mul (PyFloat s) SportsWalking.KM_H_IN_M_S)
    with (Return (PyFloat (s * 0.278)%float)) in Havg.
  apply Return_inj in Havg. subst avg_speed. cbn [bind] in H.
  apply bind_Return_inv in H as (height_in_m & Hhm & H).
  unfold SportsWalking.SM_IN_M in Hhm. cbn [Py.truediv] in Hhm.
  apply bind_Return_inv in Hhm as (q & Hq & Hhm). apply Return_inj in Hhm.
  subst height_in_m.
  apply bind_Return_inv in H as (by_weight & Hbw & H).
  unfold SportsWalking.WEIGHT_MULTIPLAYER in Hbw. rewrite mul_float_l, Hwf in Hbw.
  cbn [bind] in Hbw. apply Return_inj in Hbw. subst by_weight.
  apply bind_Return_inv in H as (squared & Hsq & H).
  assert (Havgn : SF.nonneg (Prim2SF (s * 0.278)%float)).
  { rewrite mul_spec. destruct E278 as (m & e & ->).
    apply mul_nonneg_finite. exact (mag_ge_nonneg _ _ Hsmag). }
  destruct (pow2_nonneg _ _ Havgn Hsq) as (sq & -> & Hsqn).
  apply bind_Return_inv in H as (ratio & Hratio & H).
  assert (Hqfin : exists mq eq, Prim2SF q = S754_finite false mq eq).
  { pose proof (Zdigits2_pos h Hh) as Hdig.
    destruct (int_true_divide_pos h 100 q Hh ltac:(lia) ltac:(cbn; lia) Hq)
      as [E|(mq & eq & E & _)]; [|eauto].
    contradiction (int_true_divide_finite h 100 q false Hq E). }
  destruct Hqfin as (mq & eq & Eq).
  assert (Hqnz : (q =? 0)%float = false).
  { rewrite FloatAxioms.eqb_spec, Prim2SF_zero, Eq. reflexivity. }
  rewrite truediv_float_l in Hratio. cbn [Py.to_float bind] in Hratio.
  rewrite Hqnz in Hratio. apply Return_inj in Hratio. subst ratio.
  apply bind_Return_inv in H as (scaled & Hscaled & H).
  change (Py.mul (PyFloat (sq / q)%float) SportsWalking.CALORIES_MULTIPLAYER)
    with (Return (PyFloat (sq / q * 0.029)%float)) in Hscaled.
  apply Return_inj in Hscaled. subst scaled.
  apply bind_Return_inv in H as (by_speed & Hbs & H).
  rewrite mul_float_l, Hwf in Hbs. cbn [bind] in Hbs.
  apply Return_inj in Hbs. subst by_speed.
  apply bind_Return_inv in H as (per_minute & Hpm & H).
  cbn [Py.add Py.to_float bind] in Hpm. apply Return_inj in Hpm. subst per_minute.
  apply bind_Return_inv in H as (per_hour & Hph & H).
  rewrite mul_float_l in Hph. apply bind_Return_inv in Hph as (df & Hdf & Hph).
  apply Return_inj in Hph. subst per_hour.
  pose proof (threshold_to_float d df Hd Hdf) as Hdmag.
  unfold MINUTES_IN_HOUR in H.
  change (Py.mul (PyFloat ((0.035 * wf + sq / q * 0.029 * wf) * df)%float) (PyInt 60))
    with (Return (PyFloat ((0.035 * wf + sq / q * 0.029 * wf) * df * 60)%float)) in H.
  apply Return_inj in H. subst calories.
  eexists. split; [reflexivity|].
  assert (Hbsn : SF.nonneg (Prim2SF (sq / q * 0.029 * wf)%float)).
  { rewrite mul_spec, Ew. apply mul_nonneg_finite.
    rewrite mul_spec. destruct E029 as (m & e & ->). apply mul_nonneg_finite.
    rewrite div_spec, Eq. apply div_nonneg, Hsqn. }
  assert (Hbwm : SF.mag_ge (-504) (Prim2SF (0.035 * wf)%float)).
  { rewrite mul_spec. apply mag_ge_weaken with (a := -4 + -499 - 1); [lia|].
    apply mul_mag; [exact H035|exact Hwmag|lia]. }
  assert (Hpmm : SF.mag_ge (-504) (Prim2SF (0.035 * wf + sq / q * 0.029 * wf)%float)).
  { rewrite add_spec. apply add_mag_l; [exact Hbwm|exact Hbsn|lia]. }
  rewrite !mul_spec.
  apply mag_ge_weaken with (a := (-504 + -499 - 1) + 6 - 1); [lia|].
  apply mul_mag; [|exact H60|lia].
  rewrite <- mul_spec. rewrite mul_spec.
  apply mul_mag; [exact Hpmm|exact Hdmag|lia].
Qed.

End PositiveCalories.

(** X12: the running calories, from the inputs.  For a positive action
    count, a finite duration and a weight, both positive ints or floats of
    at least 2^-500, every value that [get_spent_calories] of a Running
    workout returns is a float greater than zero. *)
Theorem running_calories_positive (n : Z) (d w calories : num) :
  0 < n -> well_above_zero d = true -> Shape.finite_num d ->
  well_above_zero w = true ->
  get_spent_calories (mkRunning n d w) = Return calories ->
  Py.gt0 calories = true.
Proof.
  intros Hn Hd Hfin Hw H.
  destruct (running_calories_mag n d w calories Hn Hd Hfin Hw H) as (f & -> & Hf).
  exact (FloatFacts.mag_gt0 _ _ Hf).
Qed.

Lemma running_calories_positive_witness :
  get_spent_calories (mkRunning 15000 (PyInt 1) (PyInt 75)) = Return (PyFloat 797.805)
  /\ Py.gt0 (PyFloat 797.805) = true.
Proof.
  assert (H : get_spent_calories (mkRunning 15000 (PyInt 1) (PyInt 75))
              = Return (PyFloat 797.805)) by (vm_compute; reflexivity).
  split; [exact H|].
  refine (running_calories_positive 15000 (PyInt 1) (PyInt 75) _ eq_refl eq_refl _ eq_refl H).
  exists 1%float. split; reflexivity.
Defined.

(** X13: the swimming calories.  For a pool length and a lap count of
    positive product, a finite duration and a weight, both positive ints or
    floats of at least 2^-500, every value that [get_spent_calories] of a
    Swimming workout returns is a float greater than zero. *)
Theorem swimming_calories_positive (n : Z) (d w : num) (l c : Z) (calories : num) :
  0 < l * c -> well_above_zero d = true -> Shape.finite_num d ->
  well_above_zero w = true ->
  get_spent_calories (mkSwimming n d w l c) = Return calories ->
  Py.gt0 calories = true.
Proof.
  intros Hlc Hd Hfin Hw H.
  destruct (swimming_calories_mag n d w l c calories Hlc Hd Hfin Hw H) as (f & -> & Hf).
  exact (FloatFacts.mag_gt0 _ _ Hf).
Qed.

Lemma swimming_calories_positive_witness :
  get_spent_calories (mkSwimming 720 (PyInt 1) (PyInt 80) 25 40) = Return (PyFloat 336)
  /\ Py.gt0 (PyFloat 336) = true.
Proof.
  assert (H : get_spent_calories (mkSwimming 720 (PyInt 1) (PyInt 80) 25 40)
              = Return (PyFloat 336)) by (vm_compute; reflexivity).
  split; [exact H|].
  refine (swimming_calories_positive 720 (PyInt 1) (PyInt 80) 25 40 _
            eq_refl eq_refl _ eq_refl H).
  exists 1%float. split; reflexivity.
Defined.

(** X14: the walking calories.  For a positive action count, a positive
    height, and a duration and a weight that are finite and positive ints or
    floats of at least 2^-500, every value that [get_spent_calories] of a
    SportsWalking workout returns is a float greater than zero. *)
Theorem walking_calories_positive (n : Z) (d w : num) (h : Z) (calories : num) :
  0 < n -> 0 < h -> well_above_zero d = true -> Shape.finite_num d ->
  well_above_zero w = true -> Shape.finite_num w ->
  get_spent_calories (mkSportsWalking n d w h) = Return calories ->
  Py.gt0 calories = true.
Proof.
  intros Hn Hh Hd Hdfin Hw Hwfin H.
  destruct (walking_calories_mag n d w h calories Hn Hh Hd Hdfin Hw Hwfin H)
    as (f & -> & Hf).
  exact (FloatFacts.mag_gt0 _ _ Hf).
Qed.

Lemma walking_calories_positive_witness :
  exists c : float,
    get_spent_calories (mkSportsWalking 9000 (PyInt 1) (PyInt 75) 180) = Return (PyFloat c)
    /\ Format.float_f3 c = "349.252"
    /\ Py.gt0 (PyFloat c) = true.
Proof.
  eexists. split; [vm_compute; reflexivity|]. split; [vm_compute; reflexivity|].
  refine (walking_calories_positive 9000 (PyInt 1) (PyInt 75) 180 _
            eq_refl eq_refl eq_refl _ eq_refl _ _).
  - exists 1%float. split; reflexivity.
  - exists 75%float. split; reflexivity.
  - vm_compute. reflexivity.
Defined.

(** The finiteness of the weight matters for Walking: with an infinite
    weight and a speed whose square underflows, the calories are a NaN. *)
Example walking_calories_infinite_weight :
  well_above_zero (PyFloat infinity) = true
  /\ get_spent_calories (mkSportsWalking 1 (PyFloat 1e300) (PyFloat infinity) 180)
     = Return (PyFloat nan).
Proof. split; vm_compute; reflexivity. Qed.

(** ** No overflow

    Upper bounds on the magnitudes: a rounding raises the magnitude by at
    most one, so that operands of moderate magnitude give a finite
    result. *)

Module Bounds.

Import Rounding SFFacts FloatFacts PyFacts.

Lemma Zdigits2_succ (a : Z) : 0 < a -> Zdigits2 (a + 1) <= Zdigits2 a + 1.
Proof.
  intros Ha. rewrite !Zdigits2_log2 by lia.
  pose proof (Z.log2_succ_le a). unfold Z.succ in *. lia.
Qed.

Lemma Zdigits2_lt_pow2 (a k : Z) : 0 < a -> a < 2 ^ k -> Zdigits2 a <= k.
Proof.
  intros Ha Hlt. rewrite Zdigits2_log2 by exact Ha.
  assert (0 <= k).
  { destruct (Z_lt_le_dec k 0) as [Hk|Hk]; [|exact Hk].
    rewrite Z.pow_neg_r in Hlt by exact Hk. lia. }
  assert (Z.log2 a < k) by (apply Z.log2_lt_pow2; lia). lia.
Qed.

Lemma Zdigits2_add (a b : Z) :
  0 < a -> 0 < b -> Zdigits2 (a + b) <= Z.max (Zdigits2 a) (Zdigits2 b) + 1.
Proof.
  intros Ha Hb.
  pose proof (Zdigits2_bounds a Ha) as [_ Ha'].
  pose proof (Zdigits2_bounds b Hb) as [_ Hb'].
  pose proof (Zdigits2_pos a Ha). pose proof (Zdigits2_pos b Hb).
  apply Zdigits2_lt_pow2; [lia|].
  set (k := Z.max (Zdigits2 a) (Zdigits2 b)).
  assert (2 ^ Zdigits2 a <= 2 ^ k) by (apply Z.pow_le_mono_r; lia).
  assert (2 ^ Zdigits2 b <= 2 ^ k) by (apply Z.pow_le_mono_r; lia).
  rewrite Z.pow_add_r by lia. lia.
Qed.

(** The exponent that [shr_fexp] returns. *)
Lemma shr_fexp_exponent (m e : Z) (l : location) (r : shr_record) (e' : Z) :
  0 <= m -> shr_fexp prec emax m e l = (r, e') ->
  e' = Z.max e (fexp (Zdigits2 m + e)).
Proof.
  intros Hm Hshr.
  destruct (shr_fexp_spec m e l Hm) as (r0 & Hr0 & _). cbv zeta in Hr0.
  rewrite Hr0 in Hshr. injection Hshr as _ <-. lia.
Qed.

(** Rounding raises the magnitude by at most one, and a magnitude below
    1024 does not overflow. *)
Lemma binary_round_aux_le (s : bool) (m e : Z) (l : location) (hi : Z) :
  0 < m -> e <= fexp (Zdigits2 m + e) -> -1074 < Zdigits2 m + e ->
  Zdigits2 m + e <= hi -> hi < 1024 ->
  exists m' e', binary_round_aux prec emax s m e l = S754_finite s m' e'
                /\ Zdigits2 m + e <= Zpos (digits2_pos m') + e' <= hi + 1.
Proof.
  intros Hm Hpre Hmag Hhi Hlt.
  destruct (binary_round_aux_unfold s m e l) as (r1 & e1 & r2 & e2 & E1 & E2 & _ & _ & ->);
    [lia|].
  destruct (shr_fexp_mag m e l r1 e1 Hm Hmag E1) as [Hpos1 Hmag1].
  pose proof (shr_fexp_exponent m e l r1 e1 ltac:(lia) E1) as He1.
  set (m2 := round_nearest_even (shr_m r1) (loc_of_shr_record r1)) in *.
  assert (Hge : shr_m r1 <= m2) by apply round_nearest_even_ge.
  assert (Hd2 : Zdigits2 (shr_m r1) <= Zdigits2 m2) by (apply Zdigits2_le; lia).
  assert (Hd2' : Zdigits2 m2 <= Zdigits2 (shr_m r1) + 1).
  { unfold m2.
    destruct (round_nearest_even_cases (shr_m r1) (loc_of_shr_record r1)) as [->| ->];
      [lia|apply Zdigits2_succ, Hpos1]. }
  destruct (shr_fexp_mag m2 e1 loc_Exact r2 e2) as [Hpos2 Hmag2]; [lia|lia|exact E2|].
  pose proof (shr_fexp_exponent m2 e1 loc_Exact r2 e2 ltac:(lia) E2) as He2.
  destruct (shr_m r2) as [|p|p] eqn:Ep; [lia| |lia].
  assert (Hle : e2 <= emax - prec).
  { change (emax - prec) with 971. rewrite fexp_value in *. lia. }
  apply Z.leb_le in Hle. rewrite Hle.
  exists p, e2. split; [reflexivity|]. cbn [Zdigits2] in Hmag2. lia.
Qed.

Lemma binary_normalize_in (z e hi : Z) (szero : bool) :
  0 < z -> -1074 < Zdigits2 z + e -> Zdigits2 z + e <= hi -> hi < 1024 ->
  mag_in (Zdigits2 z + e) (hi + 1) (binary_normalize prec emax z e szero).
Proof.
  intros Hz Hmag Hhi Hlt. destruct z as [|m|m]; try lia. cbn [binary_normalize].
  destruct (binary_round_spec false m e) as (mz & ez & -> & Hpre & Hm).
  cbn [Zdigits2] in Hmag, Hhi |- *.
  destruct (binary_round_aux_le false (Zpos mz) ez loc_Exact hi)
    as (m' & e' & H & Hle); [lia|exact Hpre|lia|lia|exact Hlt|].
  exists m', e'. split; [exact H|lia].
Qed.

(** *** The operations on floats *)

Lemma mag_in_weaken (a b a' b' : Z) (s : spec_float) :
  a' <= a -> b <= b' -> mag_in a b s -> mag_in a' b' s.
Proof.
  intros Ha Hb (m & e & -> & H). exists m, e. split; [reflexivity|lia].
Qed.

Lemma mag_in_ge (a b : Z) (s : spec_float) : mag_in a b s -> SF.mag_ge a s.
Proof. intros (m & e & -> & H). right. exists m, e. split; [reflexivity|lia]. Qed.

Lemma mag_in_finite (a b : Z) (x : float) : mag_in a b (Prim2SF x) -> is_finite x = true.
Proof.
  intros (m & e & H & _). unfold is_finite. unfold Prim2SF in H.
  destruct (is_nan x); [discriminate H|].
  destruct (is_zero x); [discriminate H|].
  destruct (is_infinity x); [discriminate H|]. reflexivity.
Qed.

Lemma mag_in_nonzero (a b : Z) (x : float) :
  mag_in a b (Prim2SF x) -> (x =? 0)%float = false.
Proof. intros H. exact (mag_eqb0 _ _ (mag_in_ge _ _ _ H)). Qed.

Lemma mul_in (a b c d : Z) (x y : float) :
  mag_in a b (Prim2SF x) -> mag_in c d (Prim2SF y) ->
  -1074 < a + c - 1 -> b + d < 1024 ->
  mag_in (a + c - 1) (b + d + 1) (Prim2SF (x * y)).
Proof.
  intros (mx & ex & Ex & Hx) (my & ey & Ey & Hy) Hlow Hhi.
  pose proof (Prim2SF_valid x) as Hvx. pose proof (Prim2SF_valid y) as Hvy.
  rewrite Ex in Hvx. rewrite Ey in Hvy.
  destruct (valid_mag _ _ _ Hvx) as [Hcx _]. destruct (valid_mag _ _ _ Hvy) as [Hcy _].
  rewrite fexp_value in Hcx, Hcy.
  rewrite mul_spec, Ex, Ey. unfold SF64mul. cbn [SFmul xorb].
  pose proof (digits2_pos_mul mx my) as Hd.
  assert (Hd' : Zpos (digits2_pos (mx * my))
                <= Zpos (digits2_pos mx) + Zpos (digits2_pos my)).
  { rewrite !digits2_pos_log2, Pos2Z.inj_mul.
    pose proof (Z.log2_mul_above (Zpos mx) (Zpos my)). lia. }
  destruct (binary_round_aux_le false (Zpos (mx * my)) (ex + ey) loc_Exact (b + d))
    as (m' & e' & H & Hle); cbn [Zdigits2]; try lia.
  { rewrite fexp_value. lia. }
  exists m', e'. split; [exact H|]. cbn [Zdigits2] in Hle. lia.
Qed.

(** The quotient of [SFdiv_core_binary] from above. *)
Lemma SFdiv_core_binary_upper (m1 m2 : positive) (e1 e2 q e' : Z) (l : location) :
  SFdiv_core_binary prec emax (Zpos m1) e1 (Zpos m2) e2 = (q, e', l) -> 0 < q ->
  Zdigits2 q + e' <= Zpos (digits2_pos m1) + e1 - (Zpos (digits2_pos m2) + e2) + 1.
Proof.
  unfold SFdiv_core_binary. cbn [Zdigits2].
  set (d1 := Zpos (digits2_pos m1)). set (d2 := Zpos (digits2_pos m2)).
  set (X := d1 + e1 - (d2 + e2)).
  set (e0 := Z.min (fexp X) (e1 - e2)).
  set (sh := e1 - e2 - e0).
  assert (Hsh : 0 <= sh) by (unfold sh, e0; lia).
  set (m' := match sh with Zpos _ => Z.shiftl (Zpos m1) sh | Z0 => Zpos m1 | Zneg _ => 0 end).
  assert (Hm' : m' = Zpos m1 * 2 ^ sh).
  { unfold m'. destruct sh as [|p|p] eqn:E; [cbn; lia| |lia].
    rewrite Z.shiftl_mul_pow2 by lia. reflexivity. }
  pose proof (Z_div_mod m' (Zpos m2) eq_refl) as Hdiv.
  destruct (Z.div_eucl m' (Zpos m2)) as [q0 r] eqn:Eqr.
  destruct Hdiv as [Hq Hr].
  intros E Hqpos. injection E as -> <- _.
  assert (H1 : 2 ^ (d1 - 1) <= Zpos m1 < 2 ^ d1) by (apply (Zdigits2_bounds (Zpos m1)); lia).
  assert (H2 : 2 ^ (d2 - 1) <= Zpos m2 < 2 ^ d2) by (apply (Zdigits2_bounds (Zpos m2)); lia).
  assert (Hd1 : 0 < d1) by (unfold d1; lia).
  assert (Hd2 : 0 < d2) by (unfold d2; lia).
  assert (Hpow : 0 < 2 ^ sh) by (apply Z.pow_pos_nonneg; lia).
  assert (Hm'lt : m' < 2 ^ (d1 + sh)).
  { rewrite Hm', Z.pow_add_r by lia. nia. }
  assert (Hk : d2 - 1 < d1 + sh).
  { apply (Z.pow_lt_mono_r_iff 2); [lia|lia|]. nia. }
  assert (Hdig : Zdigits2 q <= d1 + sh - d2 + 1).
  { apply Zdigits2_lt_pow2; [exact Hqpos|].
    assert (Hp2 : 0 < 2 ^ (d2 - 1)) by (apply Z.pow_pos_nonneg; lia).
    assert (Hlt : q * 2 ^ (d2 - 1) < 2 ^ (d1 + sh - d2 + 1) * 2 ^ (d2 - 1)).
    { rewrite <- Z.pow_add_r by lia.
      replace (d1 + sh - d2 + 1 + (d2 - 1)) with (d1 + sh) by lia.
      rewrite Z.pow_add_r by lia. nia. }
    nia. }
  unfold X, sh in *. lia.
Qed.

Lemma SFdiv_in (mx my : positive) (ex ey hi : Z) :
  -1074 < Zpos (digits2_pos mx) + ex - (Zpos (digits2_pos my) + ey) ->
  Zpos (digits2_pos mx) + ex - (Zpos (digits2_pos my) + ey) + 1 <= hi -> hi < 1024 ->
  mag_in (Zpos (digits2_pos mx) + ex - (Zpos (digits2_pos my) + ey)) (hi + 1)
    (SFdiv prec emax (S754_finite false mx ex) (S754_finite false my ey)).
Proof.
  intros Hlow Hhi Hlt. cbn [SFdiv xorb].
  destruct (SFdiv_core_binary_spec mx my ex ey) as (q & e' & l & E & Hq & Hpre & Hmag).
  destruct (Hmag Hlow) as [Hqpos Hle].
  pose proof (SFdiv_core_binary_upper mx my ex ey q e' l E Hqpos) as Hup.
  rewrite E.
  destruct (binary_round_aux_le false q e' l hi) as (m' & e'' & H & Hle');
    [exact Hqpos|exact Hpre|lia|lia|exact Hlt|].
  exists m', e''. split; [exact H|lia].
Qed.

Lemma div_in (a b c d : Z) (x y : float) :
  mag_in a b (Prim2SF x) -> mag_in c d (Prim2SF y) ->
  -1074 < a - d -> b - c + 1 < 1024 ->
  mag_in (a - d) (b - c + 2) (Prim2SF (x / y)).
Proof.
  intros (mx & ex & Ex & Hx) (my & ey & Ey & Hy) Hlow Hhi.
  rewrite div_spec, Ex, Ey.
  apply mag_in_weaken
    with (a := Zpos (digits2_pos mx) + ex - (Zpos (digits2_pos my) + ey))
         (b := (b - c + 1) + 1); [lia|lia|].
  apply SFdiv_in; lia.
Qed.

Lemma add_in (a b c d : Z) (x y : float) :
  mag_in a b (Prim2SF x) -> mag_in c d (Prim2SF y) ->
  -1074 < a -> Z.max b d + 1 < 1024 ->
  mag_in a (Z.max b d + 2) (Prim2SF (x + y)).
Proof.
  intros (mx & ex & Ex & Hx) (my & ey & Ey & Hy) Hlow Hhi.
  rewrite add_spec, Ex, Ey. unfold SF64add. cbn [SFadd cond_Zopp].
  set (ez := Z.min ex ey).
  destruct (shl_align_spec mx ex ez) as (mx' & ex' & -> & Hex' & _ & Hmx).
  destruct (shl_align_spec my ey ez) as (my' & ey' & -> & Hey' & _ & Hmy).
  cbn [fst].
  assert (Hez : ex' = ez) by (unfold ez in *; lia). subst ex'.
  assert (Hez' : ey' = ez) by (unfold ez in *; lia). subst ey'.
  assert (Hd : Zpos (digits2_pos mx') <= Zdigits2 (Zpos mx' + Zpos my')).
  { change (Zpos (digits2_pos mx')) with (Zdigits2 (Zpos mx')).
    apply Zdigits2_le; lia. }
  pose proof (Zdigits2_add (Zpos mx') (Zpos my') ltac:(lia) ltac:(lia)) as Hd'.
  cbn [Zdigits2] in Hd'.
  apply mag_in_weaken
    with (a := Zdigits2 (Zpos mx' + Zpos my') + ez) (b := (Z.max b d + 1) + 1);
    [lia|lia|].
  apply binary_normalize_in; lia.
Qed.

(** *** Conversions and divisions of ints *)

Lemma float_of_int_in (z k : Z) :
  0 < z < 2 ^ k -> k < 1024 ->
  exists f, Py.float_of_int z = Return f /\ mag_in 1 (k + 1) (Prim2SF f).
Proof.
  intros [Hz Hlt] Hk.
  pose proof (Zdigits2_pos z Hz) as Hd.
  pose proof (Zdigits2_lt_pow2 z k Hz Hlt) as Hd'.
  pose proof (binary_normalize_valid z 0 false) as Hv.
  destruct (binary_normalize_in z 0 k false Hz ltac:(lia) ltac:(lia) Hk)
    as (m & e & E & Hmag).
  unfold Py.float_of_int. rewrite E in *.
  eexists. split; [reflexivity|].
  rewrite Prim2SF_SF2Prim by exact Hv. exists m, e. split; [reflexivity|lia].
Qed.

Lemma int_true_divide_in (a b : Z) :
  0 < a -> 0 < b -> -1074 < Zdigits2 a - Zdigits2 b -> Zdigits2 a - Zdigits2 b < 1022 ->
  exists f, Py.int_true_divide a b = Return f
            /\ mag_in (Zdigits2 a - Zdigits2 b) (Zdigits2 a - Zdigits2 b + 2) (Prim2SF f).
Proof.
  intros Ha Hb Hlow Hhi. unfold Py.int_true_divide.
  destruct (Z.eqb_spec b 0) as [E|_]; [lia|].
  destruct a as [|ma|ma]; try lia. destruct b as [|mb|mb]; try lia.
  change (Z.abs (Zpos ma)) with (Zpos ma). change (Z.abs (Zpos mb)) with (Zpos mb).
  change (Zpos ma <? 0) with false. change (Zpos mb <? 0) with false.
  cbn [Zdigits2 xorb] in *. cbv iota beta.
  pose proof (SFdiv_finite_valid false false ma mb 0 0) as Hv.
  destruct (SFdiv_in ma mb 0 0 (Zpos (digits2_pos ma) - Zpos (digits2_pos mb) + 1))
    as (m & e & E & Hmag); [lia|lia|lia|].
  rewrite E in *. eexists. split; [reflexivity|].
  rewrite Prim2SF_SF2Prim by exact Hv. exists m, e. split; [reflexivity|lia].
Qed.

End Bounds.

(** ** Sensor readings

    A package whose fields are readings, positive ints below 2^64, is
    always reported: no conversion or operation overflows and no quotient
    underflows. *)

Section Readings.

Import Rounding SFFacts FloatFacts PyFacts Bounds.

Ltac constant_mag := eexists _, _; split; [vm_compute; reflexivity|cbn; lia].

Lemma reading_to_float (z : Z) :
  reading z -> exists f, Py.float_of_int z = Return f /\ mag_in 1 65 (Prim2SF f).
Proof. intros Hz. apply (float_of_int_in z 64); [exact Hz|lia]. Qed.

(** A float divided by a reading. *)
Lemma truediv_reading (lo hi : Z) (x : float) (d : Z) :
  mag_in lo hi (Prim2SF x) -> reading d -> -1074 < lo - 65 -> hi < 1023 ->
  exists f, Py.truediv (PyFloat x) (PyInt d) = Return (PyFloat f)
            /\ mag_in (lo - 65) (hi + 1) (Prim2SF f).
Proof.
  intros Hx Hd Hlow Hhi. destruct (reading_to_float d Hd) as (df & Hdf & Hmag).
  rewrite truediv_float_l. cbn [Py.to_float]. rewrite Hdf. cbn [bind].
  rewrite (mag_in_nonzero _ _ _ Hmag). eexists. split; [reflexivity|].
  apply mag_in_weaken with (a := lo - 65) (b := hi - 1 + 2); [lia|lia|].
  apply div_in; [exact Hx|exact Hmag|lia|lia].
Qed.

Lemma get_distance_reading (self : workout) :
  reading (action self) ->
  exists f, get_distance self = Return (PyFloat f) /\ mag_in (-10) 59 (Prim2SF f).
Proof.
  intros Hn. destruct (reading_to_float _ Hn) as (a & Ha & Hmag).
  assert (Hlen : exists len : float,
            mag_in 0 1 (Prim2SF len)
            /\ get_distance self
               = let* a := Py.float_of_int (action self) in
                 Return (PyFloat (a * len / 1000)%float)).
  { destruct self as [n d w|n d w|n d w h|n d w l c];
      [exists 0.65%float|exists 0.65%float|exists 0.65%float|exists 1.38%float];
      (split; [constant_mag|]);
      unfold get_distance, Training.get_distance, LEN_STEP;
      cbn [__class__ action Py.mul Py.to_float];
      destruct (Py.float_of_int n); reflexivity. }
  destruct Hlen as (len & Hlen & ->). rewrite Ha. cbn [bind].
  eexists. split; [reflexivity|].
  assert (H1000 : mag_in 10 10 (Prim2SF 1000)) by constant_mag.
  apply mag_in_weaken with (a := 0 - 10) (b := 67 - 10 + 2); [lia|lia|].
  apply div_in; [|exact H1000|lia|lia].
  apply mag_in_weaken with (a := 1 + 0 - 1) (b := 65 + 1 + 1); [lia|lia|].
  apply mul_in; [exact Hmag|exact Hlen|lia|lia].
Qed.

Lemma get_mean_speed_reading (self : workout) (d : Z) :
  reading (action self) -> duration self = PyInt d -> reading d ->
  (forall l c, length_pool self = Return l -> count_pool self = Return c ->
               reading l /\ reading c) ->
  exists f, get_mean_speed self = Return (PyFloat f) /\ mag_in (-75) 121 (Prim2SF f).
Proof.
  intros Hn Ed Hd Hpool.
  assert (Hbase : exists f, Training.get_mean_speed self = Return (PyFloat f)
                            /\ mag_in (-75) 121 (Prim2SF f)).
  { unfold Training.get_mean_speed.
    destruct (get_distance_reading self Hn) as (x & Hx & Hmag).
    change (Training.get_distance self) with (get_distance self).
    rewrite Hx, Ed. cbn [bind].
    destruct (truediv_reading (-10) 59 x d Hmag Hd ltac:(lia) ltac:(lia))
      as (f & Hf & Hfmag).
    exists f. split; [exact Hf|].
    apply mag_in_weaken with (a := -10 - 65) (b := 59 + 1); [lia|lia|exact Hfmag]. }
  destruct self as [n d' w|n d' w|n d' w h|n d' w l c]; try exact Hbase.
  destruct (Hpool l c eq_refl eq_refl) as [Hl Hc]. cbn [duration] in Ed. subst d'.
  unfold get_mean_speed, Swimming.get_mean_speed.
  cbn [__class__ length_pool count_pool duration bind Py.mul].
  unfold M_IN_KM. cbn [Py.truediv].
  unfold reading in Hl, Hc. change (2 ^ 64) with 18446744073709551616 in Hl, Hc.
  assert (Hlc : 0 < l * c < 2 ^ 128).
  { change (2 ^ 128) with (18446744073709551616 * 18446744073709551616). nia. }
  pose proof (Zdigits2_pos (l * c) (proj1 Hlc)) as Hdig.
  pose proof (Zdigits2_lt_pow2 (l * c) 128 (proj1 Hlc) (proj2 Hlc)) as Hdig'.
  destruct (int_true_divide_in (l * c) 1000) as (q & Hq & Hmag);
    [lia|lia|cbn; lia|cbn; lia|].
  rewrite Hq. cbn [bind].
  assert (Hmag' : mag_in (-9) 120 (Prim2SF q)).
  { eapply mag_in_weaken; [| |exact Hmag]; cbn; lia. }
  destruct (truediv_reading (-9) 120 q d Hmag' Hd ltac:(lia) ltac:(lia))
    as (f & Hf & Hfmag).
  exists f. split; [exact Hf|].
  apply mag_in_weaken with (a := -9 - 65) (b := 120 + 1); [lia|lia|exact Hfmag].
Qed.

(** The square of a float of moderate magnitude. *)
Lemma pow2_in (a b : Z) (x : float) :
  mag_in a b (Prim2SF x) -> -1074 < a + a - 1 -> b + b < 1024 ->
  Py.pow2 (PyFloat x) = Return (PyFloat (x * x)%float)
  /\ mag_in (a + a - 1) (b + b + 1) (Prim2SF (x * x)).
Proof.
  intros Hx Hlow Hhi.
  pose proof (mul_in a b a b x x Hx Hx Hlow Hhi) as Hsq.
  pose proof (mag_in_finite _ _ _ Hx) as Hfx.
  pose proof (mag_in_finite _ _ _ Hsq) as Hfsq.
  unfold is_finite in Hfx, Hfsq.
  apply negb_true_iff, orb_false_iff in Hfx as [Hnan Hinf].
  apply negb_true_iff, orb_false_iff in Hfsq as [_ Hinf'].
  split; [|exact Hsq].
  cbn [Py.pow2]. rewrite Hnan, Hinf, Hinf'. reflexivity.
Qed.

Lemma running_calories_reading (n d w : Z) :
  reading n -> reading d -> reading w ->
  exists f, get_spent_calories (mkRunning n (PyInt d) (PyInt w)) = Return (PyFloat f)
            /\ mag_in (-81) 259 (Prim2SF f).
Proof.
  intros Hn Hd Hw.
  destruct (get_mean_speed_reading (mkRunning n (PyInt d) (PyInt w)) d Hn eq_refl Hd)
    as (s & Hs & Hsmag); [intros l c H; discriminate H|].
  destruct (reading_to_float w Hw) as (wf & Hwf & Hwmag).
  assert (Hd60 : 0 < d * 60 < 2 ^ 70).
  { unfold reading in Hd. change (2 ^ 64) with 18446744073709551616 in Hd.
    change (2 ^ 70) with (18446744073709551616 * 64). lia. }
  destruct (float_of_int_in (d * 60) 70 Hd60 ltac:(lia)) as (mf & Hmf & Hmmag).
  rewrite (running_calories_value n (PyInt d) (PyInt w) s Hs).
  unfold MINUTES_IN_HOUR. cbn [Py.mul bind Py.to_float]. rewrite Hwf. cbn [bind].
  rewrite Hmf. cbn [bind]. eexists. split; [reflexivity|].
  assert (H18 : mag_in 5 5 (Prim2SF 18)) by constant_mag.
  assert (H179 : mag_in 1 1 (Prim2SF 1.79)) by constant_mag.
  assert (H1000 : mag_in 10 10 (Prim2SF 1000)) by constant_mag.
  assert (H1 : mag_in (-71) 127 (Prim2SF (18 * s)%float)).
  { apply mag_in_weaken with (a := 5 + -75 - 1) (b := 5 + 121 + 1); [lia|lia|].
    apply mul_in; [exact H18|exact Hsmag|lia|lia]. }
  assert (H2 : mag_in (-71) 129 (Prim2SF (18 * s + 1.79)%float)).
  { apply mag_in_weaken with (a := -71) (b := Z.max 127 1 + 2); [lia|lia|].
    apply (add_in (-71) 127 1 1); [exact H1|exact H179|lia|lia]. }
  assert (H3 : mag_in (-71) 195 (Prim2SF ((18 * s + 1.79) * wf)%float)).
  { apply mag_in_weaken with (a := -71 + 1 - 1) (b := 129 + 65 + 1); [lia|lia|].
    apply mul_in; [exact H2|exact Hwmag|lia|lia]. }
  assert (H4 : mag_in (-81) 187 (Prim2SF ((18 * s + 1.79) * wf / 1000)%float)).
  { apply mag_in_weaken with (a := -71 - 10) (b := 195 - 10 + 2); [lia|lia|].
    apply div_in; [exact H3|exact H1000|lia|lia]. }
  apply mag_in_weaken with (a := -81 + 1 - 1) (b := 187 + 71 + 1); [lia|lia|].
  apply mul_in; [exact H4|exact Hmmag|lia|lia].
Qed.

Lemma swimming_calories_reading (n d w l c : Z) :
  reading n -> reading d -> reading w -> reading l -> reading c ->
  exists f, get_spent_calories (mkSwimming n (PyInt d) (PyInt w) l c) = Return (PyFloat f)
            /\ mag_in (-75) 254 (Prim2SF f).
Proof.
  intros Hn Hd Hw Hl Hc.
  destruct (get_mean_speed_reading (mkSwimming n (PyInt d) (PyInt w) l c) d Hn eq_refl Hd)
    as (s & Hs & Hsmag).
  { intros l' c' El Ec. cbn in El, Ec. apply Return_inj in El, Ec. subst. auto. }
  assert (Hwd : 0 < 2 * w * d < 2 ^ 129).
  { unfold reading in Hd, Hw. change (2 ^ 64) with 18446744073709551616 in Hd, Hw.
    change (2 ^ 129) with (2 * 18446744073709551616 * 18446744073709551616). nia. }
  destruct (float_of_int_in (2 * w * d) 129 Hwd ltac:(lia)) as (mf & Hmf & Hmmag).
  unfold get_spent_calories. cbn [__class__]. unfold Swimming.get_spent_calories.
  cbn [weight duration]. unfold Swimming.SPEED_MULTIPLAYER. cbn [Py.mul bind].
  change (Swimming.get_mean_speed (mkSwimming n (PyInt d) (PyInt w) l c))
    with (get_mean_speed (mkSwimming n (PyInt d) (PyInt w) l c)).
  rewrite Hs. cbn [bind].
  change (Py.add (PyFloat s) Swimming.OFFSET_SPEED)
    with (Return (PyFloat (s + 1.1)%float)).
  cbn [bind]. rewrite mul_float_l. cbn [Py.to_float]. rewrite Hmf. cbn [bind].
  eexists. split; [reflexivity|].
  assert (H11 : mag_in 1 1 (Prim2SF 1.1)) by constant_mag.
  assert (H1 : mag_in (-75) 123 (Prim2SF (s + 1.1)%float)).
  { apply mag_in_weaken with (a := -75) (b := Z.max 121 1 + 2); [lia|lia|].
    apply (add_in (-75) 121 1 1); [exact Hsmag|exact H11|lia|lia]. }
  apply mag_in_weaken with (a := -75 + 1 - 1) (b := 123 + 130 + 1); [lia|lia|].
  apply mul_in; [exact H1|exact Hmmag|lia|lia].
Qed.

Lemma walking_calories_reading (n d w h : Z) :
  reading n -> reading d -> reading w -> reading h ->
  exists f, get_spent_calories (mkSportsWalking n (PyInt d) (PyInt w) h)
            = Return (PyFloat f)
            /\ mag_in (-6) 388 (Prim2SF f).
Proof.
  intros Hn Hd Hw Hh.
  destruct (get_mean_speed_reading (mkSportsWalking n (PyInt d) (PyInt w) h) d
              Hn eq_refl Hd) as (s & Hs & Hsmag); [intros l c H; discriminate H|].
  destruct (reading_to_float w Hw) as (wf & Hwf & Hwmag).
  destruct (reading_to_float d Hd) as (df & Hdf & Hdmag).
  pose proof (Zdigits2_pos h (proj1 Hh)) as Hdig.
  pose proof (Zdigits2_lt_pow2 h 64 (proj1 Hh) (proj2 Hh)) as Hdig'.
  destruct (int_true_divide_in h 100) as (q & Hq & Hqmag);
    [exact (proj1 Hh)|lia|cbn; lia|cbn; lia|].
  assert (Hqmag' : mag_in (-6) 59 (Prim2SF q)).
  { eapply mag_in_weaken; [| |exact Hqmag]; cbn; lia. }
  assert (H278 : mag_in (-1) (-1) (Prim2SF 0.278)) by constant_mag.
  assert (H029 : mag_in (-5) (-5) (Prim2SF 0.029)) by constant_mag.
  assert (H035 : mag_in (-4) (-4) (Prim2SF 0.035)) by constant_mag.
  assert (H60 : mag_in 6 6 (Prim2SF 60)) by constant_mag.
  assert (Havg : mag_in (-77) 121 (Prim2SF (s * 0.278)%float)).
  { apply mag_in_weaken with (a := -75 + -1 - 1) (b := 121 + -1 + 1); [lia|lia|].
    apply mul_in; [exact Hsmag|exact H278|lia|lia]. }
  destruct (pow2_in (-77) 121 _ Havg ltac:(lia) ltac:(lia)) as [Hpow Hsq].
  set (sq := (s * 0.278 * (s * 0.278))%float) in *.
  assert (Hratio : mag_in (-214) 251 (Prim2SF (sq / q)%float)).
  { apply mag_in_weaken with (a := (-77 + -77 - 1) - 59) (b := (121 + 121 + 1) - -6 + 2);
      [lia|lia|].
    apply div_in; [exact Hsq|exact Hqmag'|lia|lia]. }
  assert (Hscaled : mag_in (-220) 247 (Prim2SF (sq / q * 0.029)%float)).
  { apply mag_in_weaken with (a := -214 + -5 - 1) (b := 251 + -5 + 1); [lia|lia|].
    apply mul_in; [exact Hratio|exact H029|lia|lia]. }
  assert (Hbs : mag_in (-220) 313 (Prim2SF (sq / q * 0.029 * wf)%float)).
  { apply mag_in_weaken with (a := -220 + 1 - 1) (b := 247 + 65 + 1); [lia|lia|].
    apply mul_in; [exact Hscaled|exact Hwmag|lia|lia]. }
  assert (Hbw : mag_in (-4) 62 (Prim2SF (0.035 * wf)%float)).
  { apply mag_in_weaken with (a := -4 + 1 - 1) (b := -4 + 65 + 1); [lia|lia|].
    apply mul_in; [exact H035|exact Hwmag|lia|lia]. }
  assert (Hpm : mag_in (-4) 315 (Prim2SF (0.035 * wf + sq / q * 0.029 * wf)%float)).
  { apply mag_in_weaken with (a := -4) (b := Z.max 62 313 + 2); [lia|lia|].
    apply (add_in (-4) 62 (-220) 313); [exact Hbw|exact Hbs|lia|lia]. }
  assert (Hph : mag_in (-4) 381
                  (Prim2SF ((0.035 * wf + sq / q * 0.029 * wf) * df)%float)).
  { apply mag_in_weaken with (a := -4 + 1 - 1) (b := 315 + 65 + 1); [lia|lia|].
    apply mul_in; [exact Hpm|exact Hdmag|lia|lia]. }
  unfold get_spent_calories. cbn [__class__]. unfold SportsWalking.get_spent_calories.
  cbn [height weight duration]. rewrite Hs. cbn [bind].
  change (Py.mul (PyFloat s) SportsWalking.KM_H_IN_M_S)
    with (Return (PyFloat (s * 0.278)%float)).
  cbn [bind]. unfold SportsWalking.SM_IN_M. cbn [Py.truediv]. rewrite Hq. cbn [bind].
  unfold SportsWalking.WEIGHT_MULTIPLAYER. rewrite mul_float_l. cbn [Py.to_float].
  rewrite Hwf. cbn [bind]. rewrite Hpow. cbn [bind]. fold sq.
  rewrite truediv_float_l. cbn [Py.to_float bind].
  rewrite (mag_in_nonzero _ _ _ Hqmag'). cbn [bind].
  change (Py.mul (PyFloat (sq / q)%float) SportsWalking.CALORIES_MULTIPLAYER)
    with (Return (PyFloat (sq / q * 0.029)%float)).
  cbn [bind]. rewrite mul_float_l. cbn [Py.to_float]. rewrite Hwf. cbn [bind Py.add Py.to_float].
  rewrite mul_float_l. cbn [Py.to_float]. rewrite Hdf. cbn [bind].
  unfold MINUTES_IN_HOUR.
  change (Py.mul (PyFloat ((0.035 * wf + sq / q * 0.029 * wf) * df)%float) (PyInt 60))
    with (Return (PyFloat ((0.035 * wf + sq / q * 0.029 * wf) * df * 60)%float)).
  eexists. split; [reflexivity|].
  apply mag_in_weaken with (a := -4 + 6 - 1) (b := 381 + 6 + 1); [lia|lia|].
  apply mul_in; [exact Hph|exact H60|lia|lia].
Qed.

(** A workout with an int duration in range whose three quantities are
    floats of moderate magnitude is reported, with three decimals. *)
Lemma reading_reported (t : workout) (d : Z) (di sp ca : float)
    (a1 b1 a2 b2 a3 b3 : Z) :
  duration t = PyInt d -> reading d ->
  get_distance t = Return (PyFloat di) -> mag_in a1 b1 (Prim2SF di) ->
  get_mean_speed t = Return (PyFloat sp) -> mag_in a2 b2 (Prim2SF sp) ->
  get_spent_calories t = Return (PyFloat ca) -> mag_in a3 b3 (Prim2SF ca) ->
  exists du : float,
    Py.to_float (duration t) = Return du
    /\ ((0 <? di)%float = true /\ (0 <? sp)%float = true /\ (0 <? ca)%float = true)
    /\ main t
       = Return (Shape.report (__name__ (__class__ t)) (Format.float_f3 du)
                   (Format.float_f3 di) (Format.float_f3 sp) (Format.float_f3 ca))
    /\ Shape.three_decimals (Format.float_f3 du) = true
    /\ Shape.three_decimals (Format.float_f3 di) = true
    /\ Shape.three_decimals (Format.float_f3 sp) = true
    /\ Shape.three_decimals (Format.float_f3 ca) = true.
Proof.
  intros Ed Hd Hdi Mdi Hsp Msp Hca Mca.
  destruct (reading_to_float d Hd) as (du & Hdu & Mdu).
  exists du. rewrite Ed. split; [exact Hdu|]. split.
  { repeat split; eapply mag_gt0, mag_in_ge; eassumption. }
  split.
  { unfold main, show_training_info. rewrite Hdi, Hsp, Hca. cbn [bind].
    rewrite get_message_value.
    cbn [InfoMessage.duration InfoMessage.distance InfoMessage.speed
         InfoMessage.calories InfoMessage.training_type].
    rewrite Ed. cbn [Py.to_float]. rewrite Hdu. reflexivity. }
  repeat split; apply three_decimals_float_f3; eapply mag_in_finite; eassumption.
Qed.

(** The workout that [read_package] builds from a package of readings. *)
Lemma reading_package (workout_type : string) (data : list Z) :
  (workout_type = "SWM" /\ length data = 5%nat)
  \/ (workout_type = "RUN" /\ length data = 3%nat)
  \/ (workout_type = "WLK" /\ length data = 4%nat) ->
  Forall reading data ->
  exists (t : workout) (d : Z) (ca : float) (a b : Z),
    read_package workout_type data = Return t
    /\ duration t = PyInt d /\ reading d /\ reading (action t)
    /\ (forall l c, length_pool t = Return l -> count_pool t = Return c ->
                    reading l /\ reading c)
    /\ get_spent_calories t = Return (PyFloat ca) /\ mag_in a b (Prim2SF ca).
Proof.
  intros Htag Hdata.
  destruct Htag as [[-> Hlen]|[[-> Hlen]|[-> Hlen]]];
    destruct data as [|n [|d [|w [|x [|y [|? ?]]]]]]; try discriminate Hlen;
    pose proof (Forall_inv Hdata) as Hn; apply Forall_inv_tail in Hdata;
    pose proof (Forall_inv Hdata) as Hd; apply Forall_inv_tail in Hdata;
    pose proof (Forall_inv Hdata) as Hw; apply Forall_inv_tail in Hdata.
  - pose proof (Forall_inv Hdata) as Hx. apply Forall_inv_tail in Hdata.
    pose proof (Forall_inv Hdata) as Hy.
    destruct (swimming_calories_reading n d w x y Hn Hd Hw Hx Hy) as (ca & Hca & Mca).
    exists (mkSwimming n (PyInt d) (PyInt w) x y), d, ca, (-75), 254.
    repeat (split; [first [reflexivity|assumption]|]).
    split; [|split; assumption].
    intros l c El Ec. cbn in El, Ec. apply Return_inj in El, Ec. subst. auto.
  - destruct (running_calories_reading n d w Hn Hd Hw) as (ca & Hca & Mca).
    exists (mkRunning n (PyInt d) (PyInt w)), d, ca, (-81), 259.
    repeat (split; [first [reflexivity|assumption]|]).
    split; [|split; assumption].
    intros l c El. discriminate El.
  - pose proof (Forall_inv Hdata) as Hx.
    destruct (walking_calories_reading n d w x Hn Hd Hw Hx) as (ca & Hca & Mca).
    exists (mkSportsWalking n (PyInt d) (PyInt w) x), d, ca, (-6), 388.
    repeat (split; [first [reflexivity|assumption]|]).
    split; [|split; assumption].
    intros l c El. discriminate El.
Qed.

(** One turn of the loop on a package of readings returns. *)
Lemma iteration_reading_returns (p : string * list Z) :
  well_formed p -> returns (iteration p).
Proof.
  intros [Htag Hdata].
  destruct (reading_package _ _ Htag Hdata)
    as (t & d & ca & a & b & Hread & Ed & Hd & Hn & Hpool & Hca & Mca).
  destruct (get_distance_reading t Hn) as (di & Hdi & Mdi).
  destruct (get_mean_speed_reading t d Hn Ed Hd Hpool) as (sp & Hsp & Msp).
  destruct (reading_reported t d di sp ca _ _ _ _ _ _ Ed Hd Hdi Mdi Hsp Msp Hca Mca)
    as (du & _ & _ & Hmain & _).
  unfold iteration. rewrite Hread. cbn [bind]. rewrite Hmain. eexists. reflexivity.
Qed.

End Readings.

(** X15: sensor readings are always reported.  For one of the three tags
    with its number of fields, each field a positive int below 2^64, one
    turn of the script's loop raises nothing: [read_package] builds the
    workout, the duration converts, distance, mean speed and calories are
    finite floats greater than zero, and [main] prints the template filled
    with the class name and the four numbers, each with exactly three digits
    after the point. *)
Theorem readings_are_reported (workout_type : string) (data : list Z) :
  (workout_type = "SWM" /\ length data = 5%nat)
  \/ (workout_type = "RUN" /\ length data = 3%nat)
  \/ (workout_type = "WLK" /\ length data = 4%nat) ->
  Forall reading data ->
  exists (t : workout) (du di sp ca : float),
    read_package workout_type data = Return t
    /\ Py.to_float (duration t) = Return du
    /\ get_distance t = Return (PyFloat di)
    /\ get_mean_speed t = Return (PyFloat sp)
    /\ get_spent_calories t = Return (PyFloat ca)
    /\ ((0 <? di)%float = true /\ (0 <? sp)%float = true /\ (0 <? ca)%float = true)
    /\ iteration (workout_type, data)
       = Return (Shape.report (__name__ (__class__ t)) (Format.float_f3 du)
                   (Format.float_f3 di) (Format.float_f3 sp) (Format.float_f3 ca))
    /\ Shape.three_decimals (Format.float_f3 du) = true
    /\ Shape.three_decimals (Format.float_f3 di) = true
    /\ Shape.three_decimals (Format.float_f3 sp) = true
    /\ Shape.three_decimals (Format.float_f3 ca) = true.
Proof.
  intros Htag Hdata.
  destruct (reading_package workout_type data Htag Hdata)
    as (t & d & ca & a & b & Hread & Ed & Hd & Hn & Hpool & Hca & Mca).
  destruct (get_distance_reading t Hn) as (di & Hdi & Mdi).
  destruct (get_mean_speed_reading t d Hn Ed Hd Hpool) as (sp & Hsp & Msp).
  destruct (reading_reported t d di sp ca _ _ _ _ _ _ Ed Hd Hdi Mdi Hsp Msp Hca Mca)
    as (du & Hdu & Hpos & Hmain & H3).
  exists t, du, di, sp, ca.
  repeat (split; [assumption|]).
  split; [|exact H3].
  unfold iteration. cbn [fst snd]. rewrite Hread. exact Hmain.
Qed.

Lemma readings_are_reported_witness :
  exists (t : workout) (du di sp ca : float),
    read_package "WLK" [9000; 1; 75; 180] = Return t
    /\ Py.to_float (duration t) = Return du
    /\ get_distance t = Return (PyFloat di)
    /\ get_mean_speed t = Return (PyFloat sp)
    /\ get_spent_calories t = Return (PyFloat ca)
    /\ ((0 <? di)%float = true /\ (0 <? sp)%float = true /\ (0 <? ca)%float = true)
    /\ iteration ("WLK", [9000; 1; 75; 180])
       = Return (Shape.report (__name__ (__class__ t)) (Format.float_f3 du)
                   (Format.float_f3 di) (Format.float_f3 sp) (Format.float_f3 ca))
    /\ Shape.three_decimals (Format.float_f3 du) = true
    /\ Shape.three_decimals (Format.float_f3 di) = true
    /\ Shape.three_decimals (Format.float_f3 sp) = true
    /\ Shape.three_decimals (Format.float_f3 ca) = true.
Proof.
  apply (readings_are_reported "WLK" [9000; 1; 75; 180]).
  - right. right. split; reflexivity.
  - repeat constructor; reflexivity.
Defined.

(** X16: the script on packages of readings.  When every package has one of
    the three tags with its number of fields and every field is a positive
    int below 2^64, the loop ends without an exception and prints exactly one
    line per package, the report of that package, after what was printed
    before. *)
Theorem script_reports_readings (stdout : list string) (ps : list (string * list Z)) :
  Forall well_formed ps ->
  exists lines : list string,
    run stdout ps = (stdout ++ lines, None)
    /\ length lines = length ps
    /\ Forall2 (fun p line => iteration p = Return line) ps lines.
Proof.
  intros Hps. revert stdout.
  induction Hps as [|p rest Hp Hrest IH]; intros stdout.
  - exists []. cbn [run]. rewrite app_nil_r. repeat split. constructor.
  - destruct (iteration_reading_returns p Hp) as [line Hline].
    destruct (IH (stdout ++ [line])) as (lines & Hrun & Hlen & Hall).
    exists (line :: lines). rewrite run_cons, Hline, Hrun, <- app_assoc.
    split; [reflexivity|]. split; [cbn; congruence|].
    constructor; assumption.
Qed.

Lemma script_reports_readings_witness :
  exists lines : list string,
    run [] packages = ([] ++ lines, None)
    /\ length lines = length packages
    /\ Forall2 (fun p line => iteration p = Return line) packages lines.
Proof.
  apply (script_reports_readings [] packages).
  unfold packages.
  repeat (constructor;
          [split; cbn [fst snd];
           [auto 6|repeat (constructor; [split; reflexivity|]); constructor]|]).
  constructor.
Defined.
